(** * AI-Insight-Craft: the query / execution contract, checked against the code

    Shallow embedding of
      - [src/server/analyst.py]      (the MCP tool server over Polars),
      - [src/csv_agent/csv_agent.py] (the chat agent: cache, router, executor),
      - [src/dashboardagent.py]      (the dashboard agent: file cache, metric
                                      execution).

    Polars, the MCP transport, LangGraph and the language model are not part
    of the repository: they enter as parameters (records of operations), and
    every call the code makes to them is logged in a trace of events, so that
    statements of the form "X is called before / never / exactly once" are
    statements about that trace. *)

From Stdlib Require Import String Ascii List Bool Arith Lia.
Import ListNotations.
Open Scope string_scope.
Open Scope list_scope.
Open Scope nat_scope.
Set Warnings "-register-all".


(* ================================================================== *)
(** ** Python built-ins used by the sources *)
(* ================================================================== *)

Module Py.

(** A Python [str] is modelled by [string]; a character is a code point in
    the range 0..255.  On that range [str.isspace] holds of exactly
    U+0009..U+000D, U+001C..U+001F, U+0020, U+0085 and U+00A0. *)
Definition is_space (c : ascii) : bool :=
  let n := nat_of_ascii c in
  ((9 <=? n) && (n <=? 13)) || ((28 <=? n) && (n <=? 32))
  || (n =? 133) || (n =? 160).

Fixpoint lstrip (s : string) : string :=
  match s with
  | EmptyString => EmptyString
  | String c r => if is_space c then lstrip r else s
  end.

Fixpoint rstrip (s : string) : string :=
  match s with
  | EmptyString => EmptyString
  | String c r =>
      match rstrip r with
      | EmptyString => if is_space c then EmptyString else String c EmptyString
      | r' => String c r'
      end
  end.

(** [s.strip()] *)
Definition strip (s : string) : string := rstrip (lstrip s).

(** [c.lower()] on code points below 256: A..Z and U+00C0..U+00DE
    (U+00D7 excepted) move up by 32. *)
Definition lower_char (c : ascii) : ascii :=
  let n := nat_of_ascii c in
  if ((65 <=? n) && (n <=? 90))
     || ((192 <=? n) && (n <=? 222) && negb (n =? 215))
  then ascii_of_nat (n + 32) else c.

Fixpoint lower (s : string) : string :=
  match s with
  | EmptyString => EmptyString
  | String c r => String (lower_char c) (lower r)
  end.

(** [s.startswith(p)] *)
Fixpoint startswith (p s : string) : bool :=
  match p, s with
  | EmptyString, _ => true
  | String a p', String b s' => Ascii.eqb a b && startswith p' s'
  | String _ _, EmptyString => false
  end.

(** [p in s] *)
Fixpoint contains (p s : string) : bool :=
  startswith p s ||
  match s with
  | EmptyString => false
  | String _ s' => contains p s'
  end.

(** [s.endswith(p)] *)
Fixpoint endswith (p s : string) : bool :=
  String.eqb p s ||
  match s with
  | EmptyString => false
  | String _ s' => endswith p s'
  end.

(** [sep.join(l)] *)
Fixpoint join (sep : string) (l : list string) : string :=
  match l with
  | [] => EmptyString
  | [x] => x
  | x :: r => (x ++ sep ++ join sep r)%string
  end.

(** The last element of a list: [l[-1]], [None] on the empty list. *)
Fixpoint last_opt {A} (l : list A) : option A :=
  match l with
  | [] => None
  | [x] => Some x
  | _ :: r => last_opt r
  end.

(** Number of characters of [s] that are not whitespace. *)
Fixpoint count_nonws (s : string) : nat :=
  match s with
  | EmptyString => 0
  | String c r => (if is_space c then 0 else 1) + count_nonws r
  end.

(** Dynamically typed values, as far as the sources inspect them. *)
Inductive pyval : Type :=
| VNone
| VInt (n : nat)
| VStr (s : string)
| VList (l : list pyval)
| VDict (d : list (pyval * pyval)).

(** Truth value of an object ([if x], [not x], [x or y]). *)
Definition truthy (v : pyval) : bool :=
  match v with
  | VNone => false
  | VInt n => negb (n =? 0)
  | VStr s => negb (String.eqb s "")
  | VList l => match l with [] => false | _ => true end
  | VDict d => match d with [] => false | _ => true end
  end.

(** Lists and dicts are unhashable and cannot be dict keys. *)
Definition hashable (v : pyval) : bool :=
  match v with
  | VList _ | VDict _ => false
  | _ => true
  end.

(** Equality of hashable keys (the only keys a dict holds). *)
Definition key_eqb (a b : pyval) : bool :=
  match a, b with
  | VNone, VNone => true
  | VInt m, VInt n => m =? n
  | VStr s, VStr t => String.eqb s t
  | _, _ => false
  end.

(** A [dict] keeps insertion order; assigning an existing key keeps its
    position and replaces its value. *)
Fixpoint dict_get {V} (k : pyval) (d : list (pyval * V)) : option V :=
  match d with
  | [] => None
  | (k', v) :: r => if key_eqb k k' then Some v else dict_get k r
  end.

Fixpoint dict_set {V} (k : pyval) (v : V) (d : list (pyval * V)) : list (pyval * V) :=
  match d with
  | [] => [(k, v)]
  | (k', v') :: r =>
      if key_eqb k k' then (k', v) :: r else (k', v') :: dict_set k v r
  end.

End Py.

(* ================================================================== *)
(** ** Calls to the outside world: state, trace and exceptions *)
(* ================================================================== *)

Module Eff.

Section Monad.
(** [S]: the state a computation runs in; [E]: the events it logs;
    [X]: the exceptions it may raise. *)
Context {S E X : Type}.

Inductive result (A : Type) : Type :=
| Ok (a : A)
| Raise (e : X).
Arguments Ok {A} a.
Arguments Raise {A} e.

Definition M (A : Type) : Type := S -> list E * result A * S.

Definition ret {A} (a : A) : M A := fun s => ([], Ok a, s).

Definition raise {A} (e : X) : M A := fun s => ([], Raise e, s).

Definition bind {A B} (m : M A) (k : A -> M B) : M B :=
  fun s =>
    match m s with
    | (t1, Ok a, s1) =>
        match k a s1 with
        | (t2, r, s2) => (t1 ++ t2, r, s2)
        end
    | (t1, Raise e, s1) => (t1, Raise e, s1)
    end.

(** One call to the outside: the event is logged, then the callee runs. *)
Definition call {A} (ev : E) (f : S -> result A * S) : M A :=
  fun s => match f s with (r, s') => ([ev], r, s') end.

Definition get : M S := fun s => ([], Ok s, s).
Definition put (s : S) : M unit := fun _ => ([], Ok tt, s).

(** [[f(x) for x in l]]: left to right, stopping at the first exception. *)
Fixpoint mapM {A B} (f : A -> M B) (l : list A) : M (list B) :=
  match l with
  | [] => ret []
  | x :: r =>
      bind (f x) (fun y => bind (mapM f r) (fun ys => ret (y :: ys)))
  end.

(** [try: m  except Exception as e: h(e)] *)
Definition try_except {A} (m : M A) (h : X -> M A) : M A :=
  fun s =>
    match m s with
    | (t1, Ok a, s1) => (t1, Ok a, s1)
    | (t1, Raise e, s1) =>
        match h e s1 with
        | (t2, r, s2) => (t1 ++ t2, r, s2)
        end
    end.

(** [m] leaves the component [f] of the state as it was, also when it
    raises. *)
Definition keeps {A B} (f : S -> B) (m : M A) : Prop :=
  forall s, f (snd (m s)) = f s.

Definition trace_of {A} (x : list E * result A * S) : list E := fst (fst x).
Definition result_of {A} (x : list E * result A * S) : result A := snd (fst x).
Definition state_of {A} (x : list E * result A * S) : S := snd x.
End Monad.

Arguments result : clear implicits.
Arguments M : clear implicits.
Arguments Ok {X A} a.
Arguments Raise {X A} e.

Declare Scope eff_scope.
Delimit Scope eff_scope with eff.
Notation "x <- m ;; k" := (bind m (fun x => k))
  (at level 61, m at next level, right associativity) : eff_scope.
Notation "m ;;; k" := (bind m (fun _ => k))
  (at level 61, right associativity) : eff_scope.

End Eff.

(* ================================================================== *)
(** ** src/server/analyst.py *)
(* ================================================================== *)

Module Analyst.
Import Eff.
Local Open Scope eff_scope.

(** Exceptions seen by a tool call: the [ValueError] the module raises
    itself, and whatever Polars raises. *)
Inductive exn (PolarsError : Type) : Type :=
| ValueError (msg : string)
| PolarsExn (e : PolarsError).
Arguments ValueError {PolarsError} msg.
Arguments PolarsExn {PolarsError} e.

(** The calls the module makes into Polars. *)
Inductive event (DataFrame LazyFrame : Type) : Type :=
| EvReadCsv (f : string)
| EvReadParquet (f : string)
| EvReadParquetList (fs : list string)
| EvScanCsv (f : string)
| EvConcat (lfs : list LazyFrame)
| EvCollect (lf : LazyFrame)
| EvSql (df : DataFrame) (q : string).
Arguments EvReadCsv {DataFrame LazyFrame} f.
Arguments EvReadParquet {DataFrame LazyFrame} f.
Arguments EvReadParquetList {DataFrame LazyFrame} fs.
Arguments EvScanCsv {DataFrame LazyFrame} f.
Arguments EvConcat {DataFrame LazyFrame} lfs.
Arguments EvCollect {DataFrame LazyFrame} lf.
Arguments EvSql {DataFrame LazyFrame} df q.

(** The Polars operations the module uses.  [W] is the state of the world
    they run in (the files on disk); each fallible operation may raise and
    may, as far as its type goes, change the world. *)
Record Polars (W DataFrame LazyFrame Row PolarsError : Type) : Type := {
  pl_read_csv : string -> W -> result (exn PolarsError) DataFrame * W;
  pl_read_parquet : string -> W -> result (exn PolarsError) DataFrame * W;
  pl_read_parquet_list :
    list string -> W -> result (exn PolarsError) DataFrame * W;
  pl_scan_csv : string -> W -> result (exn PolarsError) LazyFrame * W;
  pl_concat : list LazyFrame -> W -> result (exn PolarsError) LazyFrame * W;
  lf_collect : LazyFrame -> W -> result (exn PolarsError) DataFrame * W;
  df_sql : DataFrame -> string -> W -> result (exn PolarsError) DataFrame * W;
  df_schema : DataFrame -> list (string * string);
  df_to_dicts : DataFrame -> list Row
}.
Arguments pl_read_csv {W DataFrame LazyFrame Row PolarsError} p.
Arguments pl_read_parquet {W DataFrame LazyFrame Row PolarsError} p.
Arguments pl_read_parquet_list {W DataFrame LazyFrame Row PolarsError} p.
Arguments pl_scan_csv {W DataFrame LazyFrame Row PolarsError} p.
Arguments pl_concat {W DataFrame LazyFrame Row PolarsError} p.
Arguments lf_collect {W DataFrame LazyFrame Row PolarsError} p.
Arguments df_sql {W DataFrame LazyFrame Row PolarsError} p.
Arguments df_schema {W DataFrame LazyFrame Row PolarsError} p.
Arguments df_to_dicts {W DataFrame LazyFrame Row PolarsError} p.

Section Server.
Context {W DataFrame LazyFrame Row PolarsError : Type}.
Variable pl : Polars W DataFrame LazyFrame Row PolarsError.

(** A tool body: runs in the world, logs its Polars calls. *)
Definition T (A : Type) : Type :=
  M W (event DataFrame LazyFrame) (exn PolarsError) A.

Definition unsupported (file_type : string) : exn PolarsError :=
  ValueError ("Unsupported file type: " ++ file_type)%string.

(** [read_file] *)
Definition read_file (file_location file_type : string) : T DataFrame :=
  if String.eqb file_type "csv" then
    call (EvReadCsv file_location) (pl_read_csv pl file_location)
  else if String.eqb file_type "parquet" then
    call (EvReadParquet file_location) (pl_read_parquet pl file_location)
  else raise (unsupported file_type).

(** [pl.scan_csv(f)] *)
Definition scan_one (f : string) : T LazyFrame :=
  call (EvScanCsv f) (pl_scan_csv pl f).

(** [read_file_list] *)
Definition read_file_list (file_locations : list string)
                          (file_type : string) : T DataFrame :=
  if String.eqb file_type "csv" then
    dfs <- mapM scan_one file_locations ;;
    lf <- call (EvConcat dfs) (pl_concat pl dfs) ;;
    call (EvCollect lf) (lf_collect pl lf)
  else if String.eqb file_type "parquet" then
    call (EvReadParquetList file_locations)
         (pl_read_parquet_list pl file_locations)
  else raise (unsupported file_type).

(** [get_schema]: one [(name, str(dtype))] pair per column. *)
Definition get_schema (file_location file_type : string)
  : T (list (string * string)) :=
  df <- read_file file_location file_type ;;
  ret (df_schema pl df).

(** [execute_polars_sql] *)
Definition execute_polars_sql (file_locations : list string)
                              (query file_type : string) : T (list Row) :=
  df <- read_file_list file_locations file_type ;;
  op_df <- call (EvSql df query) (df_sql pl df query) ;;
  ret (df_to_dicts pl op_df).

(** Trace predicates. *)
Definition is_collect (ev : event DataFrame LazyFrame) : bool :=
  match ev with EvCollect _ => true | _ => false end.

Definition is_eager_read (ev : event DataFrame LazyFrame) : bool :=
  match ev with
  | EvReadCsv _ | EvReadParquet _ | EvReadParquetList _ => true
  | _ => false
  end.

Definition is_sql_of (q : string) (ev : event DataFrame LazyFrame) : bool :=
  match ev with EvSql _ q' => String.eqb q q' | _ => false end.

(** A query given to the engine, whatever its text. *)
Definition is_sql (ev : event DataFrame LazyFrame) : bool :=
  match ev with EvSql _ _ => true | _ => false end.

Definition count (p : event DataFrame LazyFrame -> bool)
                 (t : list (event DataFrame LazyFrame)) : nat :=
  length (filter p t).

(** What Polars promises of a lazy vertical concatenation: collecting the
    concatenation of the scans of files that read, one by one, to frames
    of one schema, gives a frame whose records are those of the files, in
    the order of the files. *)
Definition lazy_concat_law : Prop :=
  forall fs lfs lf dfs w,
    fs <> [] ->
    Forall2 (fun f l => pl_scan_csv pl f w = (Ok l, w)) fs lfs ->
    pl_concat pl lfs w = (Ok lf, w) ->
    Forall2 (fun f d => pl_read_csv pl f w = (Ok d, w)) fs dfs ->
    (forall d d', In d dfs -> In d' dfs -> df_schema pl d = df_schema pl d') ->
    exists df, lf_collect pl lf w = (Ok df, w) /\
               df_to_dicts pl df = flat_map (df_to_dicts pl) dfs.

(** The column names of a frame. *)
Definition column_names (df : DataFrame) : list string :=
  map fst (df_schema pl df).

(** Two frames whose column sets differ: one has a column the other has
    not. *)
Definition column_sets_differ (d1 d2 : DataFrame) : Prop :=
  exists c, (In c (column_names d1) /\ ~ In c (column_names d2)) \/
            (In c (column_names d2) /\ ~ In c (column_names d1)).

(** What Polars does with a vertical concatenation of the scans of files
    whose column sets differ: it refuses it with an exception of its own,
    raised by the concatenation or, the plan being lazy, when the
    concatenation is collected. *)
Definition vertical_concat_law : Prop :=
  forall fs lfs dfs w,
    Forall2 (fun f l => pl_scan_csv pl f w = (Ok l, w)) fs lfs ->
    Forall2 (fun f d => pl_read_csv pl f w = (Ok d, w)) fs dfs ->
    (exists d d', In d dfs /\ In d' dfs /\ column_sets_differ d d') ->
    (exists e w', pl_concat pl lfs w = (Raise (PolarsExn e), w')) \/
    (exists lf e w', pl_concat pl lfs w = (Ok lf, w) /\
                     lf_collect pl lf w = (Raise (PolarsExn e), w')).
End Server.

End Analyst.

(* ================================================================== *)
(** ** src/csv_agent/csv_agent.py: [CSVAnalysisConfig]

    [DashboardConfig] of [src/dashboardagent.py] validates the key and
    builds the URL with the same two methods. *)
(* ================================================================== *)

Module Config.
Import Py Eff.

(** [s.replace(old, new)] for an [old] of one character. *)
Fixpoint replace_char (old : ascii) (new : string) (s : string) : string :=
  match s with
  | EmptyString => EmptyString
  | String c r =>
      if Ascii.eqb c old then (new ++ replace_char old new r)%string
      else String c (replace_char old new r)
  end.

(** [agent_arn.replace(':', '%3A').replace('/', '%2F')] *)
Definition encode_arn (agent_arn : string) : string :=
  replace_char "/" "%2F" (replace_char ":" "%3A" agent_arn).

(** [c in s] for a character [c]. *)
Fixpoint has_char (c : ascii) (s : string) : bool :=
  match s with
  | EmptyString => false
  | String a r => Ascii.eqb a c || has_char c r
  end.

(** Reading the two escapes back, to state that [encode_arn] loses
    nothing. *)
Fixpoint decode_arn (s : string) : string :=
  match s with
  | EmptyString => EmptyString
  | String c r =>
      if Ascii.eqb c "%" then
        match r with
        | String a (String b r') =>
            if Ascii.eqb a "3" && Ascii.eqb b "A" then String ":" (decode_arn r')
            else if Ascii.eqb a "2" && Ascii.eqb b "F" then String "/" (decode_arn r')
            else String c (decode_arn r)
        | _ => String c (decode_arn r)
        end
      else String c (decode_arn r)
  end.

(** What an f-string prints for the value of [os.getenv]. *)
Definition fmt (v : option string) : string :=
  match v with
  | Some s => s
  | None => "None"
  end.

(** The exceptions of the constructor. *)
Inductive exn : Type :=
| ValueError (msg : string)
| NoneHasNoAttribute (attr : string).

Record CSVAnalysisConfig : Type := {
  agent_arn : option string;
  region : option string;
  discovery_url : option string;
  client_id : option string;
  client_secret : option string;
  model_id : string;
  api_key : option string;
  mcp_url : string
}.

(** [if not self.api_key] *)
Definition unset (v : option string) : bool :=
  match v with
  | None => true
  | Some s => String.eqb s ""
  end.

(** [_validate_config] *)
Definition _validate_config (api_key : option string) : result exn unit :=
  if unset api_key
  then Raise (ValueError "GROQ_API_KEY environment variable is not set.")
  else Ok tt.

(** [_construct_mcp_url] *)
Definition _construct_mcp_url (agent_arn region : option string) : result exn string :=
  match agent_arn with
  | None => Raise (NoneHasNoAttribute "replace")
  | Some arn =>
      Ok ("https://bedrock-agentcore." ++ fmt region
          ++ ".amazonaws.com/runtimes/" ++ encode_arn arn
          ++ "/invocations?qualifier=DEFAULT")%string
  end.

(** [os.getenv(name, default)] *)
Definition getenv_or (getenv : string -> option string) (n default : string) : string :=
  match getenv n with
  | Some s => s
  | None => default
  end.

(** [CSVAnalysisConfig.__init__] over the environment. *)
Definition CSVAnalysisConfig_init (getenv : string -> option string)
  : result exn CSVAnalysisConfig :=
  match _validate_config (getenv "GROQ_API_KEY") with
  | Raise e => Raise e
  | Ok _ =>
      match _construct_mcp_url (getenv "AGENT_ARN") (getenv "REGION") with
      | Raise e => Raise e
      | Ok url =>
          Ok {| agent_arn := getenv "AGENT_ARN";
                region := getenv "REGION";
                discovery_url := getenv "DISCOVERY_URL";
                client_id := getenv "CLIENT_ID";
                client_secret := getenv "CLIENT_SECRET";
                model_id := getenv_or getenv "MODEL_ID" "openai/gpt-oss-20b";
                api_key := getenv "GROQ_API_KEY";
                mcp_url := url |}
      end
  end.

(** An environment for runs. *)
Definition sample_env (n : string) : option string :=
  if String.eqb n "GROQ_API_KEY" then Some "gsk_test"
  else if String.eqb n "AGENT_ARN"
  then Some "arn:aws:bedrock-agentcore:us-east-1:123456789012:runtime/analyst"
  else if String.eqb n "REGION" then Some "us-east-1"
  else None.

End Config.

(* ================================================================== *)
(** ** src/csv_agent/csv_agent.py *)
(* ================================================================== *)

Module CsvAgent.
Import Py Eff.
Local Open Scope eff_scope.

(** Exceptions on the agent side. *)
Inductive exn : Type :=
| RuntimeError (msg : string)
| AttributeError (obj : pyval) (attr : string)
| TypeError (obj : pyval)
| KeyError (key : pyval)
| GraphRecursionError
| OtherError (msg : string).

(** [next(t for t in tools if ...)] on an exhausted generator, inside a
    coroutine. *)
Definition stop_iteration : exn := RuntimeError "coroutine raised StopIteration".

Inductive msg_kind : Type := Human | AI | System | ToolMsg.

Record BaseMessage : Type := { kind : msg_kind; content : string }.

Definition HumanMessage (c : string) : BaseMessage := {| kind := Human; content := c |}.
Definition SystemMessage (c : string) : BaseMessage := {| kind := System; content := c |}.

(** [AgentOptimizer]: the per-session cache. *)
Record AgentOptimizer : Type := {
  user_id : string;
  _cached_file_path : string;
  _cached_schema : list (pyval * pyval)
}.

(** [AgentOptimizer.__init__] *)
Definition AgentOptimizer_init (uid : string) : AgentOptimizer :=
  {| user_id := uid; _cached_file_path := ""; _cached_schema := [] |}.

Definition set_file_path (p : string) (o : AgentOptimizer) : AgentOptimizer :=
  {| user_id := user_id o; _cached_file_path := p;
     _cached_schema := _cached_schema o |}.

Definition set_schema (d : list (pyval * pyval)) (o : AgentOptimizer) : AgentOptimizer :=
  {| user_id := user_id o; _cached_file_path := _cached_file_path o;
     _cached_schema := d |}.

(** Where the router sends the graph next. *)
Inductive route : Type := END | Reason.

(** [len(messages) > 6], [content.strip().endswith("END")] and the four
    stop words of [router_function]. *)
Definition stop_conditions (messages : list BaseMessage) (c : string) : list bool :=
  [ endswith "END" (strip c);
    6 <? length messages;
    contains "final answer" (lower c);
    contains "complete" (lower c);
    contains "done" (lower c);
    contains "finished" (lower c) ].

(** [AgentOptimizer.create_smart_router]; a message is an object with a
    [content] attribute. *)
Definition router_function (messages : list BaseMessage) : route :=
  match last_opt messages with
  | None => END
  | Some last_msg =>
      let c := content last_msg in
      if String.eqb c "" then END
      else if existsb (fun b => b) (stop_conditions messages c) then END
      else Reason
  end.

(** A tool result [raw] that lists the paths [paths]: the paths occur in it
    in order, with any text before, between and after them (a JSON array, one
    path per line, a Python list display, ...). *)
Fixpoint listing (d0 : string) (pds : list (string * string)) : string :=
  match pds with
  | [] => d0
  | (p, d) :: r => (d0 ++ p ++ listing d r)%string
  end.

Definition lists_paths (raw : string) (paths : list string) : Prop :=
  exists d0 ds, length ds = length paths /\ raw = listing d0 (combine paths ds).

(** A path with at least one character that is not whitespace. *)
Definition not_blank (p : string) : Prop := 0 < count_nonws p.

(** The keys of the schema as the strings [", ".join] needs. *)
Fixpoint str_keys (d : list (pyval * pyval)) : result exn (list string) :=
  match d with
  | [] => Ok []
  | (VStr k, _) :: r =>
      match str_keys r with
      | Ok ks => Ok (k :: ks)
      | Raise e => Raise e
      end
  | (k, _) :: _ => Raise (TypeError k)
  end.

(** [AgentOptimizer.create_optimized_pre_model_hook]: the value the hook
    returns under ["llm_input_messages"], from the optimizer as it is when
    the hook runs. *)
Definition pre_model_hook (o : AgentOptimizer) (msgs : list BaseMessage)
  : result exn (list BaseMessage) :=
  let part1 := if String.eqb (_cached_file_path o) "" then []
               else [("Data file: " ++ _cached_file_path o)%string] in
  let part2 := match _cached_schema o with
               | [] => Ok []
               | d => match str_keys d with
                      | Ok ks => Ok [("Columns: " ++ join ", " ks)%string]
                      | Raise e => Raise e
                      end
               end in
  match part2 with
  | Raise e => Raise e
  | Ok p2 =>
      match part1 ++ p2 with
      | [] => Ok msgs
      | context_parts =>
          Ok (SystemMessage ("CONTEXT: " ++ join " | " context_parts)%string :: msgs)
      end
  end.

Section Client.
(** [W]: the state of everything remote (tool host, model). *)
Context {W : Type}.

(** One analysis session: the optimizer object and the remote world. *)
Record session : Type := { optimizer : AgentOptimizer; world : W }.

(** What a run does outside the process: a tool is invoked, or the graph
    runs its ["reason"] node. *)
Inductive event : Type :=
| EvTool (name : string) (args : pyval)
| EvReason.

(** A tool call made by the ReAct agent: tool name and arguments. *)
Definition tool_call : Type := (string * pyval)%type.

Definition IO (R : Type) : Type := M session event exn R.

(** An MCP tool as loaded by [load_mcp_tools]. *)
Record Tool : Type := {
  name : string;
  ainvoke : pyval -> W -> result exn pyval * W
}.

(** [json.loads] and [str(e)] belong to the Python runtime. *)
Variable json_loads : string -> result exn pyval.
Variable exn_str : exn -> string.

(** LangGraph's recursion limit in force for [ainvoke].  [execute] builds
    its config from the thread id alone, so this is the library's
    default. *)
Variable graph_recursion_limit : nat.

(** The compiled ReAct agent (model plus tool loop) behind the ["reason"]
    node: given the tools, the pre-model hook and the messages so far it
    yields the messages it adds.  It runs in the remote world, where all it
    does is call tools; the optimizer is out of its reach. *)
Variable react_agent :
  list Tool ->
  (list BaseMessage -> result exn (list BaseMessage)) ->
  list BaseMessage -> M W tool_call exn (list BaseMessage).

(** Token retrieval and connection, then the handshake and tool
    discovery. *)
Variable connect : IO unit.
Variable load_mcp_tools : IO (list Tool).

Definition lift {R} (f : W -> result exn R * W) : session -> result exn R * session :=
  fun s => match f (world s) with
           | (r, w') => (r, {| optimizer := optimizer s; world := w' |})
           end.

Definition of_result {R} (r : result exn R) : IO R :=
  fun s => ([], r, s).

Definition path_of (s : session) : string := _cached_file_path (optimizer s).
Definition schema_of (s : session) : list (pyval * pyval) :=
  _cached_schema (optimizer s).

Definition get_optimizer : IO AgentOptimizer :=
  s <- get ;; ret (optimizer s).

Definition modify_optimizer (f : AgentOptimizer -> AgentOptimizer) : IO unit :=
  s <- get ;; put {| optimizer := f (optimizer s); world := world s |}.

(** [next(t for t in tools if t.name == n)] *)
Definition find_tool (n : string) (tools : list Tool) : IO Tool :=
  match find (fun t => String.eqb (name t) n) tools with
  | Some t => ret t
  | None => raise stop_iteration
  end.

Definition invoke (t : Tool) (args : pyval) : IO pyval :=
  call (EvTool (name t) args) (lift (ainvoke t args)).

(** [raw_path.strip()] *)
Definition py_strip (v : pyval) : IO string :=
  match v with
  | VStr s => ret (strip s)
  | _ => raise (AttributeError v "strip")
  end.

(** [SchemaCache.cache_file_path] *)
Definition cache_file_path (tools : list Tool) : IO unit :=
  o <- get_optimizer ;;
  if String.eqb (_cached_file_path o) "" then
    get_files_tool <- find_tool "get_files_list" tools ;;
    raw_path <- invoke get_files_tool (VDict []) ;;
    p <- py_strip raw_path ;;
    modify_optimizer (set_file_path p)
  else ret tt.

(** [json.loads(x) if isinstance(x, str) else x] *)
Definition loads_if_str (v : pyval) : IO pyval :=
  match v with
  | VStr s => of_result (json_loads s)
  | _ => ret v
  end.

(** The objects a [for] loop draws from a value. *)
Definition py_iter (v : pyval) : IO (list pyval) :=
  match v with
  | VList l => ret l
  | VDict d => ret (map fst d)
  | VStr s => ret (map (fun c => VStr (String c "")) (list_ascii_of_string s))
  | _ => raise (TypeError v)
  end.

(** [obj[k]] for a string key [k] *)
Definition py_getitem (obj : pyval) (k : string) : IO pyval :=
  match obj with
  | VDict d =>
      match dict_get (VStr k) d with
      | Some v => ret v
      | None => raise (KeyError (VStr k))
      end
  | _ => raise (TypeError obj)
  end.

(** [self.optimizer._cached_schema[k] = v] *)
Definition schema_setitem (k v : pyval) : IO unit :=
  if hashable k then
    modify_optimizer (fun o => set_schema (dict_set k v (_cached_schema o)) o)
  else raise (TypeError k).

(** Body of the loop of [cache_schema]; the right-hand side of the
    assignment is evaluated before the subscript of its target. *)
Definition cache_schema_item (obj : pyval) : IO unit :=
  obj_data <- loads_if_str obj ;;
  dtype <- py_getitem obj_data "dtype" ;;
  nm <- py_getitem obj_data "name" ;;
  schema_setitem nm dtype.

Fixpoint for_each {B} (body : B -> IO unit) (l : list B) : IO unit :=
  match l with
  | [] => ret tt
  | x :: r => body x ;;; for_each body r
  end.

(** [SchemaCache.cache_schema] *)
Definition cache_schema (tools : list Tool) : IO unit :=
  o <- get_optimizer ;;
  if String.eqb (_cached_file_path o) "" then
    modify_optimizer (set_schema [])
  else
    match _cached_schema o with
    | [] =>
        get_schema_tool <- find_tool "get_schema" tools ;;
        raw_schema <- invoke get_schema_tool
                        (VDict [(VStr "file_location", VStr (_cached_file_path o))]) ;;
        items <- loads_if_str raw_schema ;;
        objs <- py_iter items ;;
        for_each cache_schema_item objs
    | _ :: _ => ret tt
    end.

(** The ["reason"] node of the graph: the agent runs with the hook of the
    session's optimizer, and its tool calls become events of the session. *)
Definition reason_node (tools : list Tool) (messages : list BaseMessage)
  : IO (list BaseMessage) :=
  fun s =>
    match react_agent tools (pre_model_hook (optimizer s)) messages (world s) with
    | (calls, r, w') =>
        (EvReason :: map (fun c => EvTool (fst c) (snd c)) calls, r,
         {| optimizer := optimizer s; world := w' |})
    end.

(** The loop of the graph of [WorkflowBuilder.build_workflow]: after each
    run of ["reason"] the router either ends the graph or sends it back to
    the node.  LangGraph counts supersteps: the first is the START node,
    which hands the input to ["reason"], and every run of ["reason"] is one
    more.  After a superstep it tests the limit first and only then whether
    anything is left to run, so at the limit the graph raises
    [GraphRecursionError] although the router said [END].  [rounds_left] is
    the number of further rounds that may still end the graph. *)
Fixpoint graph_loop (tools : list Tool) (rounds_left : nat)
                    (messages : list BaseMessage) : IO (list BaseMessage) :=
  new_messages <- reason_node tools messages ;;
  let messages' := messages ++ new_messages in
  match rounds_left with
  | 0 => raise GraphRecursionError
  | S rounds_left' =>
      match router_function messages' with
      | END => ret messages'
      | Reason => graph_loop tools rounds_left' messages'
      end
  end.

(** What LangGraph raises for a recursion limit below 1 (a [ValueError]). *)
Definition limit_too_small : exn := OtherError "recursion_limit must be at least 1".

(** The compiled graph invoked under the recursion limit [limit]: the START
    superstep takes one step of the limit, so a run of [n] rounds of
    ["reason"] ends well only under a limit of at least [n + 1]. *)
Definition ainvoke_graph (tools : list Tool) (limit : nat)
                         (messages : list BaseMessage) : IO (list BaseMessage) :=
  match limit with
  | 0 => raise limit_too_small
  | S rounds_left => graph_loop tools rounds_left messages
  end.

(** [AgentExecutor]: the limit given to the constructor is stored and not
    read again. *)
Record AgentExecutor : Type := { app_tools : list Tool; recursion_limit : nat }.

Definition warning_sign : string :=
  String (ascii_of_nat 226) (String (ascii_of_nat 154) (String (ascii_of_nat 160)
  (String (ascii_of_nat 239) (String (ascii_of_nat 184) (String (ascii_of_nat 143) ""))))).

Definition no_output : string := (warning_sign ++ " No output returned.")%string.
Definition partial_result : string := "Partial result due to recursion limit.".

(** [AgentExecutor.execute] *)
Definition execute (ex : AgentExecutor) (message : string) : IO string :=
  try_except
    (result_messages <- ainvoke_graph (app_tools ex) graph_recursion_limit
                          [HumanMessage message] ;;
     match last_opt result_messages with
     | Some last_msg => ret (content last_msg)
     | None => ret no_output
     end)
    (fun e =>
       match e with
       | GraphRecursionError => ret partial_result
       | _ => ret ("Error: " ++ exn_str e)%string
       end).

(** The pre-check of a session: both cache steps, in the order of [run]. *)
Definition pre_check (tools : list Tool) : IO unit :=
  cache_file_path tools ;;; cache_schema tools.

(** [CSVAnalysisAgent.run] *)
Definition run (message : string) : IO string :=
  try_except
    (connect ;;;
     try_except
       (tools_by_server <- load_mcp_tools ;;
        pre_check tools_by_server ;;;
        execute {| app_tools := tools_by_server; recursion_limit := 3 |} message)
       (fun e => ret ("Error during workflow: " ++ exn_str e)%string))
    (fun e => ret ("Connection/Initialization error: " ++ exn_str e)%string).

Definition no_prompt : string := (warning_sign ++ " No prompt provided in payload.")%string.

(** [agent_invocation], for a payload whose prompt is the string
    [question].  Every invocation with a prompt builds its own
    [CSVAnalysisAgent], hence its own configuration (read from the
    environment [getenv]) and its own [AgentOptimizer].  The constructor
    runs before the [try]: an exception of the configuration escapes the
    entry point, and nothing has happened by then; that is the outer
    [Raise].  What the agent raises is caught and turned into text. *)
Definition agent_invocation (getenv : string -> option string)
                            (question : string) (w : W)
  : result Config.exn (list event * result exn string * session) :=
  let s0 := {| optimizer := AgentOptimizer_init "default_user"; world := w |} in
  if String.eqb question "" then Ok ([], Ok no_prompt, s0)
  else
    match Config.CSVAnalysisConfig_init getenv with
    | Raise e => Raise e
    | Ok _ =>
        Ok (try_except (run question)
                       (fun e => ret ("Error: " ++ exn_str e)%string) s0)
    end.

(** The steps that touch the cache, for statements about any order of
    them. *)
Inductive cache_step : Type :=
| StepCacheFilePath
| StepCacheSchema
| StepHook (msgs : list BaseMessage).

Definition do_step (tools : list Tool) (st : cache_step) : IO unit :=
  match st with
  | StepCacheFilePath => cache_file_path tools
  | StepCacheSchema => cache_schema tools
  | StepHook msgs =>
      o <- get_optimizer ;; of_result (pre_model_hook o msgs) ;;; ret tt
  end.

Definition do_steps (tools : list Tool) (sts : list cache_step) : IO unit :=
  for_each (do_step tools) sts.

Definition is_tool (n : string) (ev : event) : bool :=
  match ev with EvTool n' _ => String.eqb n n' | EvReason => false end.

Definition is_any_tool (ev : event) : bool :=
  match ev with EvTool _ _ => true | EvReason => false end.

Definition is_reason (ev : event) : bool :=
  match ev with EvReason => true | EvTool _ _ => false end.

(** Runs of the ["reason"] node, and tool invocations, in a trace. *)
Definition rounds (t : list event) : nat := length (filter is_reason t).
Definition tool_calls (t : list event) : nat := length (filter is_any_tool t).

(** The agent adds at least one message whenever it returns. *)
Definition agent_adds_messages : Prop :=
  forall tools hook msgs w,
    match snd (fst (react_agent tools hook msgs w)) with
    | Ok new_messages => new_messages <> []
    | Raise _ => True
    end.
End Client.

End CsvAgent.

(* ================================================================== *)
(** ** src/dashboardagent.py *)
(* ================================================================== *)

Module Dashboard.
Import Py Eff.
Local Open Scope eff_scope.

(** [DashboardConfig], as far as the cache goes: both fields start as
    [None]. *)
Record DashboardConfig : Type := {
  csv_path : pyval;
  schema : pyval
}.

Definition DashboardConfig_init : DashboardConfig :=
  {| csv_path := VNone; schema := VNone |}.

Section Client.
Context {W : Type}.

Record session : Type := { config : DashboardConfig; world : W }.

Definition IO (R : Type) : Type := M session CsvAgent.event CsvAgent.exn R.

Definition Tool : Type := @CsvAgent.Tool W.

Definition lift {R} (f : W -> result CsvAgent.exn R * W)
  : session -> result CsvAgent.exn R * session :=
  fun s => match f (world s) with
           | (r, w') => (r, {| config := config s; world := w' |})
           end.

Definition find_tool (n : string) (tools : list Tool) : IO Tool :=
  match find (fun t => String.eqb (CsvAgent.name t) n) tools with
  | Some t => ret t
  | None => raise CsvAgent.stop_iteration
  end.

Definition invoke (t : Tool) (args : pyval) : IO pyval :=
  call (CsvAgent.EvTool (CsvAgent.name t) args) (lift (CsvAgent.ainvoke t args)).

Definition py_strip (v : pyval) : IO string :=
  match v with
  | VStr s => ret (strip s)
  | _ => raise (CsvAgent.AttributeError v "strip")
  end.

Definition py_getitem (obj : pyval) (k : string) : IO pyval :=
  match obj with
  | VDict d =>
      match dict_get (VStr k) d with
      | Some v => ret v
      | None => raise (CsvAgent.KeyError (VStr k))
      end
  | _ => raise (CsvAgent.TypeError obj)
  end.

(** [FileCache.cache_file_path] *)
Definition cache_file_path (tools : list Tool) : IO unit :=
  s <- get ;;
  if truthy (csv_path (config s)) then ret tt
  else
    get_files_tool <- find_tool "get_files_list" tools ;;
    raw_path <- invoke get_files_tool (VDict []) ;;
    p <- py_strip raw_path ;;
    s' <- get ;;
    put {| config := {| csv_path := VStr p; schema := schema (config s') |};
           world := world s' |}.

(** [SQLExecutor.__init__] *)
Definition SQLExecutor_init (tools : list Tool) : IO Tool :=
  find_tool "execute_polars_sql" tools.

(** The arguments [execute_metrics] gives to the tool for one metric. *)
Definition sql_args (csv_path sql : pyval) : pyval :=
  VDict [ (VStr "file_locations", VList [csv_path]);
          (VStr "query", sql);
          (VStr "file_type", VStr "csv") ].

(** [data or []] *)
Definition or_empty (data : pyval) : pyval :=
  if truthy data then data else VList [].

(** One turn of the loop of [execute_metrics]. *)
Definition execute_metric (exec_tool : Tool) (csv_path metric : pyval) : IO pyval :=
  _logged <- py_getitem metric "sql" ;;
  sql <- py_getitem metric "sql" ;;
  data <- invoke exec_tool (sql_args csv_path sql) ;;
  m <- py_getitem metric "metric" ;;
  d <- py_getitem metric "description" ;;
  v <- py_getitem metric "visualization_type" ;;
  ret (VDict [ (VStr "metric", m); (VStr "description", d);
               (VStr "visualization_type", v); (VStr "data", or_empty data) ]).

(** [SQLExecutor.execute_metrics] *)
Definition execute_metrics (exec_tool : Tool) (metrics : list pyval)
                           (csv_path : pyval) : IO (list pyval) :=
  mapM (execute_metric exec_tool csv_path) metrics.

(** The path [run_stream] puts in the pipeline state after caching, and
    which [node_schema] and [node_execute_sql] hand to the tools. *)
Definition csv_file_path_of (s : session) : pyval := csv_path (config s).

(** The argument [node_schema] gives to [get_schema]. *)
Definition schema_args (csv_file_path : pyval) : pyval :=
  VDict [ (VStr "file_location", csv_file_path);
          (VStr "file_type", VStr "csv") ].
End Client.

End Dashboard.

(* ================================================================== *)
(** ** A small reference engine

    A concrete instance of [Analyst.Polars] over an in-memory file store,
    used to run the server code on concrete inputs.  A file is a table of
    typed columns and rows of cells; a lazy frame is the list of files still
    to be read.  With [strict] the vertical concatenation refuses frames
    whose columns differ, as Polars does; without it the columns of the
    first frame are kept.  The SQL operation answers every query with the
    frame itself: the engine stands for "some engine that accepts the
    query". *)
(* ================================================================== *)

Module RefPolars.
Import Eff Analyst.

Record Table : Type := {
  columns : list (string * string);
  rows : list (list string)
}.

Definition Store : Type := list (string * Table).
Definition Lazy : Type := list string.
Definition Row : Type := list (string * string).

Inductive PolarsError : Type :=
| FileNotFound (f : string)
| ShapeError
| NoData.

Definition R (A : Type) : Type := result (exn PolarsError) A.

Fixpoint lookup (f : string) (w : Store) : option Table :=
  match w with
  | [] => None
  | (g, t) :: r => if String.eqb f g then Some t else lookup f r
  end.

Definition read (f : string) (w : Store) : R Table :=
  match lookup f w with
  | Some t => Ok t
  | None => Raise (PolarsExn (FileNotFound f))
  end.

Fixpoint read_all (fs : list string) (w : Store) : R (list Table) :=
  match fs with
  | [] => Ok []
  | f :: r =>
      match read f w with
      | Raise e => Raise e
      | Ok t =>
          match read_all r w with
          | Raise e => Raise e
          | Ok ts => Ok (t :: ts)
          end
      end
  end.

Definition col_eqb (a b : string * string) : bool :=
  String.eqb (fst a) (fst b) && String.eqb (snd a) (snd b).

Fixpoint cols_eqb (a b : list (string * string)) : bool :=
  match a, b with
  | [], [] => true
  | x :: a', y :: b' => col_eqb x y && cols_eqb a' b'
  | _, _ => false
  end.

Fixpoint vstack (strict : bool) (acc : Table) (ts : list Table) : R Table :=
  match ts with
  | [] => Ok acc
  | t :: r =>
      if strict && negb (cols_eqb (columns acc) (columns t))
      then Raise (PolarsExn ShapeError)
      else vstack strict
             {| columns := columns acc; rows := rows acc ++ rows t |} r
  end.

Definition collect (strict : bool) (lf : Lazy) (w : Store) : R Table :=
  match read_all lf w with
  | Raise e => Raise e
  | Ok [] => Raise (PolarsExn NoData)
  | Ok (t :: ts) => vstack strict t ts
  end.

Definition concat_plans (lfs : list Lazy) : R Lazy :=
  match lfs with
  | [] => Raise (ValueError "cannot concat empty list")
  | _ => Ok (List.concat lfs)
  end.

Definition to_dicts (t : Table) : list Row :=
  map (fun r => combine (map fst (columns t)) r) (rows t).

Definition pure_op {A} (r : R A) : Store -> R A * Store := fun w => (r, w).

Definition engine (strict : bool) : Polars Store Table Lazy Row PolarsError :=
  {| pl_read_csv := fun f w => (read f w, w);
     pl_read_parquet := fun f w => (read f w, w);
     pl_read_parquet_list := fun fs w => (collect strict fs w, w);
     pl_scan_csv := fun f => pure_op (Ok [f]);
     pl_concat := fun lfs => pure_op (concat_plans lfs);
     lf_collect := fun lf w => (collect strict lf w, w);
     df_sql := fun df _ => pure_op (Ok df);
     df_schema := columns;
     df_to_dicts := to_dicts |}.

(** Sample files. *)
Definition ipl : Table :=
  {| columns := [("team", "String"); ("runs", "Int64")];
     rows := [["MI"; "180"]; ["CSK"; "175"]; ["RCB"; "165"]] |}.

Definition ipl2 : Table :=
  {| columns := [("team", "String"); ("runs", "Int64")];
     rows := [["KKR"; "150"]] |}.

Definition venues : Table :=
  {| columns := [("venue", "String"); ("city", "String"); ("capacity", "Int64")];
     rows := [["Wankhede"; "Mumbai"; "33000"]] |}.

(** A file of 37 rows. *)
Definition big : Table :=
  {| columns := [("id", "Int64")];
     rows := map (fun _ => ["0"]) (seq 0 37) |}.

(** A file with a header and no rows. *)
Definition header_only : Table :=
  {| columns := [("team", "String"); ("runs", "Int64")]; rows := [] |}.

Definition store : Store :=
  [ ("data/ipl.csv", ipl); ("data/ipl2.csv", ipl2);
    ("data/venues.csv", venues); ("data/big.csv", big);
    ("data/header_only.csv", header_only) ].

(** The query of the spec's scenario with a SELECT nested in the projection
    list. *)
Definition nested_select_query : string :=
  "SELECT team, (SELECT SUM(runs) FROM self) AS total FROM self".

End RefPolars.

(* ================================================================== *)
(** ** Concrete tools and agents

    A tool host and some language-model behaviours to run the agents on.
    The remote world is a counter of the tool calls served. *)
(* ================================================================== *)

Module Demo.
Import Py Eff CsvAgent.

Definition W : Type := nat.

Definition canned (n : string) (out : pyval) : @Tool W :=
  {| name := n; ainvoke := fun _ w => (Ok out, S w) |}.

Definition team_schema : pyval :=
  VList [ VDict [(VStr "name", VStr "team"); (VStr "dtype", VStr "String")];
          VDict [(VStr "name", VStr "runs"); (VStr "dtype", VStr "Int64")] ].

Definition some_records : pyval :=
  VList [ VDict [(VStr "team", VStr "MI"); (VStr "runs", VInt 180)] ].

(** The tool host when the listing holds [listing_text]. *)
Definition tools (listing_text : string) : list (@Tool W) :=
  [ canned "get_files_list" (VStr listing_text);
    canned "get_schema" team_schema;
    canned "execute_polars_sql" some_records ].

Definition json_loads (_ : string) : result exn pyval :=
  Raise (OtherError "Expecting value").

Definition exn_str (e : exn) : string :=
  match e with
  | RuntimeError m => m
  | AttributeError _ a => a
  | TypeError _ => "type error"
  | KeyError _ => "key error"
  | GraphRecursionError => "Recursion limit reached"
  | OtherError m => m
  end.

Definition AIMessage (c : string) : BaseMessage := {| kind := AI; content := c |}.
Definition ToolMessage (c : string) : BaseMessage := {| kind := ToolMsg; content := c |}.

Definition sql_call (q : string) : tool_call :=
  ("execute_polars_sql",
   VDict [ (VStr "file_locations", VList [VStr "data/ipl.csv"]);
           (VStr "query", VStr q) ]).

Definition Agent : Type :=
  list (@Tool W) ->
  (list BaseMessage -> result exn (list BaseMessage)) ->
  list BaseMessage -> M W tool_call exn (list BaseMessage).

(** A model that runs one query and answers, whatever the cache holds. *)
Definition agent_one_query : Agent :=
  fun _ _ _ w =>
    ([sql_call "SELECT AVG(runs) AS avg_runs FROM self"],
     Ok [ ToolMessage "[{'avg_runs': 173.3}]";
          AIMessage "The average is 173.3.
END" ],
     1 + w).

(** A model that runs three queries in one round and answers. *)
Definition agent_three_queries : Agent :=
  fun _ _ _ w =>
    ([ sql_call "SELECT COUNT(*) AS n FROM self";
       sql_call "SELECT MAX(runs) AS top FROM self";
       sql_call "SELECT team AS team FROM self WHERE runs = 180" ],
     Ok [ ToolMessage "[{'n': 3}]"; ToolMessage "[{'top': 180}]";
          ToolMessage "[{'team': 'MI'}]";
          AIMessage "MI leads with 180 runs.
END" ],
     3 + w).

(** A model that never comes to an answer: one more thought per round. *)
Definition agent_thinking : Agent :=
  fun _ _ _ w => ([], Ok [AIMessage "Let me think about the columns."], w).

Definition connect : M (@session W) event exn unit := ret tt.

Definition load_mcp_tools (listing_text : string)
  : M (@session W) event exn (list (@Tool W)) := ret (tools listing_text).

Definition fresh (w : W) : @session W :=
  {| optimizer := AgentOptimizer_init "default_user"; world := w |}.

(** A dashboard metric whose query nests a SELECT. *)
Definition nested_metric : pyval :=
  VDict [ (VStr "metric", VStr "Share of total");
          (VStr "description", VStr "Runs against the total");
          (VStr "visualization_type", VStr "table");
          (VStr "sql", VStr RefPolars.nested_select_query) ].

Definition dash_fresh (w : W) : @Dashboard.session W :=
  {| Dashboard.config := Dashboard.DashboardConfig_init; Dashboard.world := w |}.

End Demo.

(* ================================================================== *)
(** ** src/csv_agent/csv_agent.py: what a schema answer stores *)
(* ================================================================== *)

Module SchemaItems.
Import Py.

(** The dict the loop of [cache_schema] builds from the (name, dtype) pairs
    of the items, from left to right. *)
Definition store_columns (pairs : list (pyval * pyval)) (d : list (pyval * pyval))
  : list (pyval * pyval) :=
  fold_left (fun acc p => dict_set (fst p) (snd p) acc) pairs d.

(** An item of a schema answer that holds the pair [(n, t)]: an object with
    a ["name"] and a ["dtype"], and whatever else. *)
Definition holds_pair (obj : pyval) (p : pyval * pyval) : Prop :=
  exists d, obj = VDict d /\
            dict_get (VStr "name") d = Some (fst p) /\
            dict_get (VStr "dtype") d = Some (snd p).

(** An object without a ["dtype"]. *)
Definition lacks_dtype (obj : pyval) : Prop :=
  exists d, obj = VDict d /\ dict_get (VStr "dtype") d = None.

(** Keys for which [key_eqb] is an equality test: the keys a dict can
    hold. *)
Definition hashable_keys (pairs : list (pyval * pyval)) : Prop :=
  Forall (fun p => hashable (fst p) = true) pairs.

Definition column (n t : string) : pyval :=
  VDict [(VStr "name", VStr n); (VStr "dtype", VStr t)].

(** The session with [d] as its cached schema. *)
Definition with_schema {W} (d : list (pyval * pyval)) (s : @CsvAgent.session W)
  : @CsvAgent.session W :=
  {| CsvAgent.optimizer := CsvAgent.set_schema d (CsvAgent.optimizer s);
     CsvAgent.world := CsvAgent.world s |}.

End SchemaItems.

(* ================================================================== *)
(** ** src/dashboardagent.py: [FileCache.cache_schema] *)
(* ================================================================== *)

Module FileCacheSchema.
Import Py Eff Dashboard.
Local Open Scope eff_scope.

Section Client.
Context {W : Type}.
Variable json_loads : string -> result CsvAgent.exn pyval.

Definition loads_if_str (v : pyval) : @IO W pyval :=
  match v with
  | VStr s => fun st => ([], json_loads s, st)
  | _ => ret v
  end.

Definition py_iter (v : pyval) : @IO W (list pyval) :=
  match v with
  | VList l => ret l
  | VDict d => ret (map fst d)
  | VStr s => ret (map (fun c => VStr (String c "")) (list_ascii_of_string s))
  | _ => raise (CsvAgent.TypeError v)
  end.

(** [schema_dict[k] = v] on the local dict. *)
Definition dict_setitem (k v : pyval) (d : list (pyval * pyval))
  : @IO W (list (pyval * pyval)) :=
  if hashable k then ret (dict_set k v d) else raise (CsvAgent.TypeError k).

(** The loop that builds [schema_dict]. *)
Fixpoint build_schema_dict (objs : list pyval) (schema_dict : list (pyval * pyval))
  : @IO W (list (pyval * pyval)) :=
  match objs with
  | [] => ret schema_dict
  | obj :: r =>
      obj_data <- loads_if_str obj ;;
      dtype <- py_getitem obj_data "dtype" ;;
      nm <- py_getitem obj_data "name" ;;
      schema_dict' <- dict_setitem nm dtype schema_dict ;;
      build_schema_dict r schema_dict'
  end.

(** [FileCache.cache_schema] *)
Definition cache_schema (tools : list Tool) : @IO W unit :=
  s <- get ;;
  if truthy (schema (config s)) then ret tt
  else
    get_schema_tool <- find_tool "get_schema" tools ;;
    raw_schema <- invoke get_schema_tool
                    (VDict [(VStr "file_location", csv_path (config s))]) ;;
    items <- loads_if_str raw_schema ;;
    objs <- py_iter items ;;
    schema_dict <- build_schema_dict objs [] ;;
    s' <- get ;;
    put {| config := {| csv_path := csv_path (config s');
                        schema := VDict schema_dict |};
           world := world s' |}.

(** A run from [s] that, when it raises, leaves the configuration as it
    was, and otherwise leaves at least the cached path as it was. *)
Definition all_or_nothing {R}
    (x : list CsvAgent.event * result CsvAgent.exn R * @session W)
    (s : @session W) : Prop :=
  match snd (fst x) with
  | Raise _ => config (snd x) = config s
  | Ok _ => csv_path (config (snd x)) = csv_path (config s)
  end.
End Client.

End FileCacheSchema.

(* ================================================================== *)
(** ** src/streamlit_ui_csv/app.py *)
(* ================================================================== *)

Module Ui.
Import Py Eff.

Definition MAX_HISTORY : nat := 25.

(** A chat message: role and content. *)
Definition chat_message : Type := (string * string)%type.

(** [messages[-n:]] for a positive [n]. *)
Definition last_n {A} (n : nat) (l : list A) : list A :=
  skipn (length l - n) l.

(** "Trim history" at the end of a chat turn. *)
Definition trim_history (messages : list chat_message) : list chat_message :=
  if MAX_HISTORY <? length messages then last_n MAX_HISTORY messages
  else messages.

(** One turn of the chat tab: the input is appended, then the response of
    the agent or the error text, then the history is trimmed. *)
Definition chat_turn (messages : list chat_message) (user_input reply : string)
  : list chat_message :=
  trim_history (messages ++ [("user", user_input)] ++ [("assistant", reply)]).

(** The part of [invoke_csv_agent] headed "Normalize different response
    shapes", and the [result.strip()] after it: from the parsed body to the
    text returned, or the exception [.strip()] raises on what is not a
    string.  [json_dumps] is [json.dumps(data, indent=2)], [py_str] is
    [str]. *)
Definition response_text (json_dumps py_str : pyval -> string) (data : pyval)
  : result CsvAgent.exn string :=
  let result :=
    match data with
    | VDict d =>
        match dict_get (VStr "result") d with
        | Some v => v
        | None =>
            match dict_get (VStr "output") d with
            | Some v => v
            | None =>
                match dict_get (VStr "response") d with
                | Some v => v
                | None => VStr (json_dumps data)
                end
            end
        end
    | _ => VStr (py_str data)
    end in
  match result with
  | VStr s => Ok (strip s)
  | v => Raise (CsvAgent.AttributeError v "strip")
  end.

End Ui.

(* ================================================================== *)
(** ** A reference engine that looks at the file when it scans

    As [RefPolars.engine], but [scan_csv] raises on a file that is not
    there. *)
(* ================================================================== *)

Module CheckedPolars.
Import Eff Analyst RefPolars.

Definition scan_checked (f : string) (w : Store) : R Lazy * Store :=
  match lookup f w with
  | Some _ => (Ok [f], w)
  | None => (Raise (PolarsExn (FileNotFound f)), w)
  end.

Definition engine : Polars Store Table Lazy Row PolarsError :=
  {| pl_read_csv := pl_read_csv (RefPolars.engine true);
     pl_read_parquet := pl_read_parquet (RefPolars.engine true);
     pl_read_parquet_list := pl_read_parquet_list (RefPolars.engine true);
     pl_scan_csv := scan_checked;
     pl_concat := pl_concat (RefPolars.engine true);
     lf_collect := lf_collect (RefPolars.engine true);
     df_sql := df_sql (RefPolars.engine true);
     df_schema := columns;
     df_to_dicts := to_dicts |}.

End CheckedPolars.

(* ================================================================== *)
(** ** Markdown tables, as a model writes them into its answer *)
(* ================================================================== *)

Module Tables.
Import Py.








End Tables.

(* ================================================================== *)
(** ** More concrete inputs *)
(* ================================================================== *)

Module Samples.
Import Py Eff CsvAgent Demo SchemaItems.








(** A session whose cache holds the path [p] and no schema. *)
Definition cached (p : string) : @session W :=
  {| optimizer := set_file_path p (AgentOptimizer_init "default_user"); world := 0 |}.

(** A tool host whose [get_schema] answers [answer]. *)
Definition schema_tools (answer : pyval) : list (@Tool W) :=
  [ canned "get_files_list" (VStr "data/ipl.csv");
    canned "get_schema" answer;
    canned "execute_polars_sql" some_records ].

Definition two_columns : list pyval :=
  [column "team" "String"; column "runs" "Int64"].

Definition two_pairs : list (pyval * pyval) :=
  [(VStr "team", VStr "String"); (VStr "runs", VStr "Int64")].

(** An item with a name and no dtype. *)
Definition nameless_dtype : pyval := VDict [(VStr "name", VStr "venue")].

(** A tool host whose listing is a list of two paths, not a string. *)
Definition two_files : pyval := VList [VStr "data/a.csv"; VStr "data/b.csv"].

Definition list_tools : list (@Tool W) :=
  [ canned "get_files_list" two_files;
    canned "get_schema" team_schema;
    canned "execute_polars_sql" some_records ].

Definition good_metric : pyval :=
  VDict [ (VStr "metric", VStr "Runs by team");
          (VStr "description", VStr "Total runs of each team");
          (VStr "visualization_type", VStr "bar_chart");
          (VStr "visualization_rationale", VStr "Compares categories");
          (VStr "sql", VStr "SELECT team AS team, SUM(runs) AS runs FROM self GROUP BY team") ].

(** A metric with a query and no description. *)
Definition metric_without_description : pyval :=
  VDict [ (VStr "metric", VStr "Top score");
          (VStr "visualization_type", VStr "gauge");
          (VStr "sql", VStr "SELECT MAX(runs) AS top FROM self") ].

Definition sql_tool : @Tool W := canned "execute_polars_sql" some_records.

(** A history of [n] messages. *)
Definition history (n : nat) : list Ui.chat_message :=
  map (fun _ => ("user", "hello")) (seq 0 n).

Definition empty_env (_ : string) : option string := None.

End Samples.

(* ================================================================== *)
(** * Properties *)
(* ================================================================== *)

Module EffFacts.
Import Eff.

Section Laws.
Context {S E X : Type}.

Lemma bind_ok {A B} (m : M S E X A) (k : A -> M S E X B) s t1 a s1 :
  m s = (t1, Ok a, s1) ->
  bind m k s = (t1 ++ trace_of (k a s1), result_of (k a s1), state_of (k a s1)).
Proof.
  intros H. unfold bind. rewrite H.
  destruct (k a s1) as [[t2 r] s2]. reflexivity.
Qed.

Lemma bind_raise {A B} (m : M S E X A) (k : A -> M S E X B) s t1 e s1 :
  m s = (t1, Raise e, s1) ->
  bind m k s = (t1, Raise e, s1).
Proof. intros H. unfold bind. rewrite H. reflexivity. Qed.

Lemma triple_eta {A} (x : list E * result X A * S) :
  x = (trace_of x, result_of x, state_of x).
Proof. destruct x as [[t r] s]. reflexivity. Qed.

Lemma keeps_ret {A B} (f : S -> B) (a : A) : keeps f (@ret S E X A a).
Proof. intros s. reflexivity. Qed.

Lemma keeps_raise {A B} (f : S -> B) (e : X) : keeps f (@raise S E X A e).
Proof. intros s. reflexivity. Qed.

Lemma keeps_get {B} (f : S -> B) : keeps f (@get S E X).
Proof. intros s. reflexivity. Qed.

Lemma keeps_bind {A B C} (f : S -> C) (m : M S E X A) (k : A -> M S E X B) :
  keeps f m -> (forall a, keeps f (k a)) -> keeps f (bind m k).
Proof.
  intros Hm Hk s. unfold bind. specialize (Hm s).
  destruct (m s) as [[t1 [a|e]] s1]; cbn in Hm.
  - specialize (Hk a s1). destruct (k a s1) as [[t2 r] s2]; cbn in *.
    congruence.
  - exact Hm.
Qed.

Lemma keeps_call {A B} (f : S -> B) (ev : E) (h : S -> result X A * S) :
  (forall s, f (snd (h s)) = f s) -> keeps f (call ev h).
Proof.
  intros Hh s. unfold call. specialize (Hh s).
  destruct (h s) as [r s']. exact Hh.
Qed.

Lemma keeps_compose {A B C} (f : S -> B) (g : B -> C) (m : M S E X A) :
  keeps f m -> keeps (fun s => g (f s)) m.
Proof. intros Hm s. rewrite (Hm s). reflexivity. Qed.
End Laws.

End EffFacts.

Module PyFacts.
Import Py.

Lemma count_nonws_app a b :
  count_nonws (a ++ b)%string = count_nonws a + count_nonws b.
Proof.
  induction a as [|c a IH]; [reflexivity|].
  cbn. rewrite IH. lia.
Qed.

Lemma count_nonws_lstrip s : count_nonws (lstrip s) = count_nonws s.
Proof.
  induction s as [|c s IH]; [reflexivity|].
  cbn. destruct (is_space c) eqn:Hc.
  - exact IH.
  - cbn. rewrite Hc. reflexivity.
Qed.

Lemma count_nonws_rstrip s : count_nonws (rstrip s) = count_nonws s.
Proof.
  induction s as [|c s IH]; [reflexivity|].
  cbn [rstrip count_nonws]. rewrite <- IH.
  destruct (rstrip s) as [|c' r'].
  - destruct (is_space c) eqn:Hc; cbn; rewrite ?Hc; reflexivity.
  - reflexivity.
Qed.

(** Stripping removes whitespace only. *)
Lemma count_nonws_strip s : count_nonws (strip s) = count_nonws s.
Proof. unfold strip. rewrite count_nonws_rstrip. apply count_nonws_lstrip. Qed.

End PyFacts.

Module AnalystFacts.
Import Eff EffFacts Analyst.

Section Server.
Context {W DataFrame LazyFrame Row PolarsError : Type}.
Variable pl : Polars W DataFrame LazyFrame Row PolarsError.

Lemma call_run {A} (ev : event DataFrame LazyFrame) (f : W -> result (exn PolarsError) A * W) w :
  call ev f w = ([ev], fst (f w), snd (f w)).
Proof. unfold call. destruct (f w). reflexivity. Qed.

Lemma scan_one_run f w :
  scan_one pl f w = ([EvScanCsv f], fst (pl_scan_csv pl f w), snd (pl_scan_csv pl f w)).
Proof. apply call_run. Qed.

Lemma mapM_scan_ok fs lfs w :
  Forall2 (fun f l => pl_scan_csv pl f w = (Ok l, w)) fs lfs ->
  mapM (scan_one pl) fs w = (map EvScanCsv fs, Ok lfs, w).
Proof.
  induction 1 as [|f l fs lfs Hf _ IH]; [reflexivity|].
  cbn [mapM map].
  rewrite (bind_ok _ _ w [EvScanCsv f] l w)
    by (rewrite scan_one_run, Hf; reflexivity).
  rewrite (bind_ok _ _ w (map EvScanCsv fs) lfs w IH).
  cbn. rewrite app_nil_r. reflexivity.
Qed.

Lemma filter_scan_events (p : event DataFrame LazyFrame -> bool) fs :
  (forall f, p (EvScanCsv f) = false) ->
  filter p (map EvScanCsv fs) = [].
Proof.
  intros Hp. induction fs as [|f fs IH]; [reflexivity|].
  cbn. rewrite Hp. exact IH.
Qed.

(** The CSV branch, when every call succeeds without touching the world. *)
Lemma read_file_list_csv_ok fs lfs lf df w :
  Forall2 (fun f l => pl_scan_csv pl f w = (Ok l, w)) fs lfs ->
  pl_concat pl lfs w = (Ok lf, w) ->
  lf_collect pl lf w = (Ok df, w) ->
  read_file_list pl fs "csv" w
  = (map EvScanCsv fs ++ [EvConcat lfs; EvCollect lf], Ok df, w).
Proof.
  intros Hs Hc Hl. unfold read_file_list. cbn [String.eqb Ascii.eqb Bool.eqb].
  rewrite (bind_ok _ _ w _ lfs w (mapM_scan_ok fs lfs w Hs)).
  rewrite (bind_ok _ _ w [EvConcat lfs] lf w)
    by (rewrite call_run, Hc; reflexivity).
  rewrite call_run, Hl. reflexivity.
Qed.

(** After the load, the query goes to the engine as it came. *)
Lemma execute_polars_sql_after_load fs q ft w t1 df w1 :
  read_file_list pl fs ft w = (t1, Ok df, w1) ->
  execute_polars_sql pl fs q ft w
  = (t1 ++ [EvSql df q],
     match fst (df_sql pl df q w1) with
     | Ok op_df => Ok (df_to_dicts pl op_df)
     | Raise e => Raise e
     end,
     snd (df_sql pl df q w1)).
Proof.
  intros Hl. unfold execute_polars_sql. unfold bind at 1. rewrite Hl.
  unfold bind at 1. rewrite call_run.
  destruct (df_sql pl df q w1) as [[d|e] w2]; cbn; reflexivity.
Qed.

Lemma unsupported_branch ft :
  ft <> "csv" -> ft <> "parquet" ->
  String.eqb ft "csv" = false /\ String.eqb ft "parquet" = false.
Proof. intros H1 H2. split; apply String.eqb_neq; assumption. Qed.
End Server.

End AnalystFacts.

Module RefPolarsFacts.
Import Eff Analyst RefPolars.

Lemma col_eqb_refl c : col_eqb c c = true.
Proof. unfold col_eqb. rewrite !String.eqb_refl. reflexivity. Qed.

Lemma cols_eqb_refl cs : cols_eqb cs cs = true.
Proof.
  induction cs as [|c cs IH]; [reflexivity|].
  cbn. rewrite col_eqb_refl, IH. reflexivity.
Qed.

Lemma scans_are_singletons (w : Store) fs lfs :
  Forall2 (fun f l => pl_scan_csv (engine true) f w = (Ok l, w)) fs lfs ->
  List.concat lfs = fs.
Proof.
  induction 1 as [|f l fs lfs Hf _ IH]; [reflexivity|].
  cbn in Hf. unfold pure_op in Hf. injection Hf as <-.
  cbn. rewrite IH. reflexivity.
Qed.

Lemma reads_give_read_all (w : Store) fs dfs :
  Forall2 (fun f d => pl_read_csv (engine true) f w = (Ok d, w)) fs dfs ->
  read_all fs w = Ok dfs.
Proof.
  induction 1 as [|f d fs dfs Hf _ IH]; [reflexivity|].
  cbn in Hf. injection Hf as Hf. cbn. rewrite Hf, IH. reflexivity.
Qed.

Lemma vstack_same_columns ds : forall acc,
  (forall d, In d ds -> columns d = columns acc) ->
  vstack true acc ds
  = Ok {| columns := columns acc; rows := rows acc ++ flat_map rows ds |}.
Proof.
  induction ds as [|d ds IH]; intros acc Hc.
  - cbn. rewrite app_nil_r. destruct acc; reflexivity.
  - cbn [vstack]. rewrite (Hc d (or_introl eq_refl)), cols_eqb_refl. cbn [andb negb].
    rewrite IH.
    + cbn. rewrite <- app_assoc. reflexivity.
    + intros d' Hd'. cbn. apply Hc. right. exact Hd'.
Qed.

Lemma to_dicts_same_columns c ds :
  (forall d, In d ds -> columns d = c) ->
  flat_map to_dicts ds = map (fun r => combine (map fst c) r) (flat_map rows ds).
Proof.
  induction ds as [|d ds IH]; intros Hc; [reflexivity|].
  cbn. rewrite map_app, IH by (intros d' Hd'; apply Hc; right; exact Hd').
  unfold to_dicts at 1. rewrite (Hc d (or_introl eq_refl)). reflexivity.
Qed.

(** The strict reference engine keeps the promise of [lazy_concat_law]. *)
Lemma ref_lazy_concat_law : lazy_concat_law (engine true).
Proof.
  intros fs lfs lf dfs w Hne Hscan Hcat Hread Hsame.
  pose proof (scans_are_singletons w fs lfs Hscan) as Hlf.
  pose proof (reads_give_read_all w fs dfs Hread) as Hall.
  cbn in Hcat. unfold pure_op, concat_plans in Hcat.
  destruct lfs as [|l lfs].
  - cbn in Hlf. congruence.
  - injection Hcat as <-. cbn [List.concat] in Hlf. rewrite Hlf.
    cbn [lf_collect engine]. unfold collect. rewrite Hall.
    destruct dfs as [|d ds].
    + inversion Hread; subst; congruence.
    + assert (Hcols : forall d', In d' ds -> columns d' = columns d).
      { intros d' Hd'. apply (Hsame d' d); [right; exact Hd' | left; reflexivity]. }
      rewrite (vstack_same_columns ds d Hcols).
      eexists. split; [reflexivity|].
      cbn [df_to_dicts engine].
      rewrite (to_dicts_same_columns (columns d) (d :: ds)).
      * reflexivity.
      * intros d' [<-|Hd']; [reflexivity | apply Hcols; exact Hd'].
Qed.

Lemma col_eqb_eq a b : col_eqb a b = true -> a = b.
Proof.
  unfold col_eqb. intros H. apply andb_true_iff in H. destruct H as [H1 H2].
  apply String.eqb_eq in H1. apply String.eqb_eq in H2.
  destruct a, b. cbn in H1, H2. subst. reflexivity.
Qed.

Lemma cols_eqb_eq a : forall b, cols_eqb a b = true -> a = b.
Proof.
  induction a as [|x a IH]; intros [|y b] H; try discriminate; [reflexivity|].
  cbn in H. apply andb_true_iff in H. destruct H as [H1 H2].
  apply col_eqb_eq in H1. apply IH in H2. subst. reflexivity.
Qed.

(** The strict stack raises nothing but [ShapeError]. *)
Lemma vstack_raises_shape ts : forall acc e,
  vstack true acc ts = Raise e -> e = PolarsExn ShapeError.
Proof.
  induction ts as [|t ts IH]; intros acc e H; [discriminate|].
  cbn [vstack andb] in H.
  destruct (negb (cols_eqb (columns acc) (columns t))).
  - injection H as <-. reflexivity.
  - apply IH in H. exact H.
Qed.

(** When it succeeds, every frame had the columns of the first. *)
Lemma vstack_ok_columns ts : forall acc out,
  vstack true acc ts = Ok out ->
  Forall (fun t => columns t = columns acc) ts.
Proof.
  induction ts as [|t ts IH]; intros acc out H; [constructor|].
  cbn [vstack andb] in H.
  destruct (cols_eqb (columns acc) (columns t)) eqn:Hc; cbn [negb] in H;
    [|discriminate].
  apply cols_eqb_eq in Hc. constructor; [symmetry; exact Hc|].
  apply IH in H. cbn [columns] in H. exact H.
Qed.

Lemma same_columns_same_sets (d d' : Table) :
  columns d = columns d' -> ~ column_sets_differ (engine true) d d'.
Proof.
  intros Hc (c & [[H1 H2]|[H1 H2]]); unfold column_names in *;
    cbn [df_schema engine] in *; rewrite Hc in *; contradiction.
Qed.

(** The strict reference engine does what [vertical_concat_law] says. *)
Lemma ref_vertical_concat_law : vertical_concat_law (engine true).
Proof.
  intros fs lfs dfs w Hscan Hread (d & d' & Hd & Hd' & Hdiff).
  pose proof (scans_are_singletons w fs lfs Hscan) as Hlf.
  pose proof (reads_give_read_all w fs dfs Hread) as Hall.
  right. exists (List.concat lfs).
  assert (Hne : lfs <> []).
  { intros ->. inversion Hscan; subst. inversion Hread; subst. destruct Hd. }
  assert (Hcat : pl_concat (engine true) lfs w = (Ok (List.concat lfs), w)).
  { cbn. unfold pure_op, concat_plans. destruct lfs; [congruence | reflexivity]. }
  rewrite Hlf in Hcat |- *.
  cbn [lf_collect engine]. unfold collect. rewrite Hall.
  destruct dfs as [|d0 ds]; [destruct Hd|].
  destruct (vstack true d0 ds) as [out|e] eqn:Hv.
  - exfalso. apply vstack_ok_columns in Hv. rewrite Forall_forall in Hv.
    assert (Hall0 : forall x, In x (d0 :: ds) -> columns x = columns d0).
    { intros x [<-|Hx]; [reflexivity | apply Hv; exact Hx]. }
    apply (same_columns_same_sets d d'); [|exact Hdiff].
    rewrite (Hall0 d Hd), (Hall0 d' Hd'). reflexivity.
  - apply vstack_raises_shape in Hv. subst e.
    exists ShapeError, w. split; [exact Hcat | reflexivity].
Qed.

End RefPolarsFacts.

Module CsvAgentFacts.
Import Py Eff EffFacts CsvAgent.
Local Open Scope eff_scope.

Section Client.
Context {W : Type}.
Variable json_loads : string -> result exn pyval.

#[local] Abbreviation session := (@session W).
#[local] Abbreviation Tool := (@Tool W).
#[local] Abbreviation path_of := (@path_of W).
#[local] Abbreviation schema_of := (@schema_of W).

Lemma keeps_find_tool {B} (f : session -> B) n (tools : list Tool) :
  keeps f (find_tool n tools).
Proof.
  unfold find_tool. destruct (find _ tools); [apply keeps_ret | apply keeps_raise].
Qed.

Lemma keeps_invoke (t : Tool) args : keeps (@optimizer W) (invoke t args).
Proof.
  apply keeps_call. intros s. unfold lift.
  destruct (ainvoke t args (world s)). reflexivity.
Qed.

Lemma keeps_of_result {B R} (f : session -> B) (r : result exn R) :
  keeps f (of_result r).
Proof. intros s. reflexivity. Qed.

Lemma keeps_py_strip {B} (f : session -> B) v : keeps f (py_strip v).
Proof. destruct v; first [apply keeps_ret | apply keeps_raise]. Qed.

Lemma keeps_py_iter {B} (f : session -> B) v : keeps f (py_iter v).
Proof. destruct v; first [apply keeps_ret | apply keeps_raise]. Qed.

Lemma keeps_py_getitem {B} (f : session -> B) v k : keeps f (py_getitem v k).
Proof.
  destruct v; cbn; try apply keeps_raise.
  destruct (dict_get _ _); [apply keeps_ret | apply keeps_raise].
Qed.

Lemma keeps_loads_if_str {B} (f : session -> B) v :
  keeps f (loads_if_str json_loads v).
Proof. destruct v; first [apply keeps_ret | apply keeps_of_result]. Qed.

Lemma keeps_get_optimizer {B} (f : session -> B) : keeps f get_optimizer.
Proof.
  unfold get_optimizer. apply keeps_bind; [apply keeps_get|].
  intros. apply keeps_ret.
Qed.

Lemma keeps_modify {B} (h : AgentOptimizer -> B) g :
  (forall o, h (g o) = h o) ->
  keeps (fun s : session => h (optimizer s)) (modify_optimizer g).
Proof. intros Hg s. cbn. apply Hg. Qed.

Lemma keeps_for_each {B C} (f : session -> B) (body : C -> IO unit) l :
  (forall x, keeps f (body x)) -> keeps f (for_each body l).
Proof.
  intros Hb. induction l as [|x l IH]; [apply keeps_ret|].
  cbn. apply keeps_bind; [apply Hb | intros; exact IH].
Qed.

(** [cache_schema] never writes the file path. *)
Lemma cache_schema_keeps_path tools :
  keeps path_of (cache_schema json_loads tools).
Proof.
  unfold cache_schema, path_of.
  apply keeps_bind; [apply keeps_get_optimizer|]. intros o.
  destruct (String.eqb (_cached_file_path o) "").
  - apply (keeps_modify _cached_file_path). reflexivity.
  - destruct (_cached_schema o); [|apply keeps_ret].
    apply keeps_bind; [apply keeps_find_tool|]. intros t.
    apply keeps_bind;
      [apply (keeps_compose _ _cached_file_path), keeps_invoke|]. intros raw.
    apply keeps_bind; [apply keeps_loads_if_str|]. intros items.
    apply keeps_bind; [apply keeps_py_iter|]. intros objs.
    apply keeps_for_each. intros obj. unfold cache_schema_item.
    apply keeps_bind; [apply keeps_loads_if_str|]. intros obj_data.
    apply keeps_bind; [apply keeps_py_getitem|]. intros dtype.
    apply keeps_bind; [apply keeps_py_getitem|]. intros nm.
    unfold schema_setitem. destruct (hashable nm); [|apply keeps_raise].
    apply (keeps_modify _cached_file_path). reflexivity.
Qed.

(** [cache_file_path] never writes the schema. *)
Lemma cache_file_path_keeps_schema (tools : list Tool) :
  keeps schema_of (cache_file_path tools).
Proof.
  unfold cache_file_path, schema_of.
  apply keeps_bind; [apply keeps_get_optimizer|]. intros o.
  destruct (String.eqb (_cached_file_path o) ""); [|apply keeps_ret].
  apply keeps_bind; [apply keeps_find_tool|]. intros t.
  apply keeps_bind;
    [apply (keeps_compose _ _cached_schema), keeps_invoke|]. intros raw.
  apply keeps_bind; [apply keeps_py_strip|]. intros p.
  apply (keeps_modify _cached_schema). reflexivity.
Qed.

(** With a path in the cache, [cache_file_path] does nothing at all. *)
Lemma cache_file_path_populated (tools : list Tool) s :
  path_of s <> "" -> cache_file_path tools s = ([], Ok tt, s).
Proof.
  intros Hp. apply String.eqb_neq in Hp.
  unfold cache_file_path, bind, get_optimizer, bind, get, ret. cbn.
  unfold path_of in Hp. rewrite Hp. reflexivity.
Qed.

(** With a path and a schema in the cache, so does [cache_schema]. *)
Lemma cache_schema_populated tools s :
  path_of s <> "" -> schema_of s <> [] ->
  cache_schema json_loads tools s = ([], Ok tt, s).
Proof.
  intros Hp Hs. apply String.eqb_neq in Hp.
  unfold cache_schema, bind, get_optimizer, bind, get, ret. cbn.
  unfold path_of in Hp. unfold schema_of in Hs. rewrite Hp.
  destruct (_cached_schema (optimizer s)); [congruence|reflexivity].
Qed.

(** The hook reads the optimizer. *)
Lemma hook_step_reads (tools : list Tool) msgs (s : session) :
  trace_of (do_step json_loads tools (StepHook msgs) s) = [] /\
  state_of (do_step json_loads tools (StepHook msgs) s) = s.
Proof.
  unfold do_step, bind, get_optimizer, bind, get, ret, of_result. cbn.
  destruct (pre_model_hook (optimizer s) msgs); cbn; split; reflexivity.
Qed.

Lemma do_step_keeps_path (tools : list Tool) st (s : session) :
  path_of s <> "" ->
  path_of (state_of (do_step json_loads tools st s)) = path_of s.
Proof.
  intros Hp. destruct st as [| |msgs].
  - cbn [do_step]. rewrite cache_file_path_populated by exact Hp. reflexivity.
  - cbn [do_step]. apply cache_schema_keeps_path.
  - rewrite (proj2 (hook_step_reads tools msgs s)). reflexivity.
Qed.

Lemma do_steps_keeps_path (tools : list Tool) steps : forall s : session,
  path_of s <> "" ->
  path_of (state_of (do_steps json_loads tools steps s)) = path_of s.
Proof.
  induction steps as [|st steps IH]; intros s Hp; [reflexivity|].
  unfold do_steps. cbn [for_each]. unfold bind at 1.
  pose proof (do_step_keeps_path tools st s Hp) as H1.
  destruct (do_step json_loads tools st s) as [[t1 [u|e]] s1]; cbn in H1.
  - assert (Hp1 : path_of s1 <> "") by congruence.
    specialize (IH s1 Hp1). unfold do_steps in IH.
    destruct (for_each (do_step json_loads tools) steps s1) as [[t2 r] s2].
    cbn in IH |- *. congruence.
  - exact H1.
Qed.

Lemma do_step_populated (tools : list Tool) st (s : session) :
  path_of s <> "" -> schema_of s <> [] ->
  exists r, do_step json_loads tools st s = ([], r, s).
Proof.
  intros Hp Hs. destruct st as [| |msgs].
  - cbn [do_step]. rewrite cache_file_path_populated by exact Hp.
    eexists; reflexivity.
  - cbn [do_step]. rewrite cache_schema_populated by assumption.
    eexists; reflexivity.
  - destruct (hook_step_reads tools msgs s) as [Ht Hst].
    exists (result_of (do_step json_loads tools (StepHook msgs) s)).
    rewrite (triple_eta (do_step _ _ _ s)) at 1. rewrite Ht, Hst. reflexivity.
Qed.

Lemma do_steps_populated (tools : list Tool) steps (s : session) :
  path_of s <> "" -> schema_of s <> [] ->
  exists r, do_steps json_loads tools steps s = ([], r, s).
Proof.
  intros Hp Hs. induction steps as [|st steps IH]; [eexists; reflexivity|].
  unfold do_steps. cbn [for_each]. unfold bind.
  destruct (do_step_populated tools st s Hp Hs) as [[u|e] H1]; rewrite H1.
  - destruct IH as [r IH]. unfold do_steps in IH. rewrite IH.
    eexists; reflexivity.
  - eexists; reflexivity.
Qed.

(** Without a path, [cache_schema] empties the schema and calls nothing. *)
Lemma cache_schema_no_path (tools : list Tool) (s : session) :
  path_of s = "" ->
  cache_schema json_loads tools s
  = ([], Ok tt, {| optimizer := set_schema [] (optimizer s); world := world s |}).
Proof.
  intros Hp. unfold cache_schema, bind, get_optimizer, bind, get, ret. cbn.
  unfold path_of in Hp. rewrite Hp. reflexivity.
Qed.

Lemma find_tool_name (tools : list Tool) n t :
  find (fun t => String.eqb (name t) n) tools = Some t -> name t = n.
Proof. intros H. apply find_some in H. apply String.eqb_eq, H. Qed.

(** Without a path, [cache_file_path] asks the listing tool once and
    stores its stripped answer. *)
Lemma cache_file_path_fetch (tools : list Tool) t raw (s : session) w' :
  path_of s = "" ->
  find (fun t => String.eqb (name t) "get_files_list") tools = Some t ->
  ainvoke t (VDict []) (world s) = (Ok (VStr raw), w') ->
  cache_file_path tools s
  = ([EvTool "get_files_list" (VDict [])], Ok tt,
     {| optimizer := set_file_path (strip raw) (optimizer s); world := w' |}).
Proof.
  intros Hp Hf Hi. pose proof (find_tool_name _ _ _ Hf) as Hn.
  unfold cache_file_path, bind, get_optimizer, bind, get, ret. cbn.
  unfold path_of in Hp. rewrite Hp. cbn.
  unfold find_tool. rewrite Hf. unfold ret, invoke, call, lift.
  rewrite Hi, Hn. reflexivity.
Qed.

(** With a path and no schema, [cache_schema] starts by asking
    [get_schema] about the cached path. *)
Lemma cache_schema_fetch (tools : list Tool) t (s : session) :
  path_of s <> "" -> schema_of s = [] ->
  find (fun t => String.eqb (name t) "get_schema") tools = Some t ->
  exists rest,
    trace_of (cache_schema json_loads tools s)
    = EvTool "get_schema" (VDict [(VStr "file_location", VStr (path_of s))])
      :: rest.
Proof.
  intros Hp Hs Hf. pose proof (find_tool_name _ _ _ Hf) as Hn.
  apply String.eqb_neq in Hp.
  unfold cache_schema, bind at 1, get_optimizer, bind at 1, get, ret. cbn.
  unfold path_of in Hp |- *. unfold schema_of in Hs. rewrite Hp, Hs.
  unfold bind at 1, find_tool. rewrite Hf. unfold ret.
  unfold bind at 1, invoke, call. rewrite Hn.
  destruct (lift _ s) as [[raw|e] s1].
  - match goal with
    | |- context [bind ?m ?k s1] => destruct (bind m k s1) as [[t2 r2] s2]
    end.
    cbn. eexists. reflexivity.
  - cbn. eexists. reflexivity.
Qed.

Lemma do_step_invariant (tools : list Tool) st (s : session) :
  (schema_of s <> [] -> path_of s <> "") ->
  schema_of (state_of (do_step json_loads tools st s)) <> [] ->
  path_of (state_of (do_step json_loads tools st s)) <> "".
Proof.
  intros Inv. destruct (string_dec (path_of s) "") as [Hp|Hp].
  - destruct st as [| |msgs].
    + cbn [do_step]. intros Hs. exfalso. apply Hs.
      unfold state_of. rewrite (cache_file_path_keeps_schema tools s).
      destruct (schema_of s) eqn:E; [reflexivity|].
      exfalso. apply Inv; [discriminate | exact Hp].
    + cbn [do_step]. rewrite cache_schema_no_path by exact Hp. cbn. congruence.
    + rewrite (proj2 (hook_step_reads tools msgs s)). exact Inv.
  - intros _. rewrite do_step_keeps_path by exact Hp. exact Hp.
Qed.

Lemma do_steps_invariant (tools : list Tool) steps : forall s : session,
  (schema_of s <> [] -> path_of s <> "") ->
  schema_of (state_of (do_steps json_loads tools steps s)) <> [] ->
  path_of (state_of (do_steps json_loads tools steps s)) <> "".
Proof.
  induction steps as [|st steps IH]; intros s Inv; [exact Inv|].
  unfold do_steps. cbn [for_each]. unfold bind at 1 2.
  pose proof (do_step_invariant tools st s Inv) as H1.
  destruct (do_step json_loads tools st s) as [[t1 [u|e]] s1]; cbn in H1.
  - specialize (IH s1 H1). unfold do_steps in IH.
    destruct (for_each (do_step json_loads tools) steps s1) as [[t2 r] s2].
    exact IH.
  - exact H1.
Qed.
End Client.

End CsvAgentFacts.

Module GraphFacts.
Import Py Eff EffFacts CsvAgent.
Local Open Scope eff_scope.

Section Graph.
Context {W : Type}.
Variable json_loads : string -> result exn pyval.
Variable exn_str : exn -> string.
Variable graph_recursion_limit : nat.
Variable react_agent :
  list (@Tool W) ->
  (list BaseMessage -> result exn (list BaseMessage)) ->
  list BaseMessage -> M W tool_call exn (list BaseMessage).
Variable connect : IO (W := W) unit.
Variable load_mcp_tools : IO (W := W) (list (@Tool W)).

#[local] Abbreviation loop := (graph_loop react_agent).
#[local] Abbreviation graph := (ainvoke_graph react_agent).
#[local] Abbreviation exec := (execute exn_str graph_recursion_limit react_agent).

Lemma rounds_app (a b : list (@event)) : rounds (a ++ b) = rounds a + rounds b.
Proof. unfold rounds. rewrite filter_app, length_app. reflexivity. Qed.

Lemma rounds_tool_events (calls : list tool_call) :
  rounds (map (fun c => EvTool (fst c) (snd c)) calls) = 0.
Proof. induction calls as [|c calls IH]; [reflexivity | exact IH]. Qed.

(** One run of the node is one round. *)
Lemma reason_node_rounds tools messages s :
  rounds (trace_of (reason_node react_agent tools messages s)) = 1.
Proof.
  unfold reason_node. destruct (react_agent _ _ _ _) as [[calls r] w'].
  cbn [trace_of fst].
  change (EvReason :: ?l) with ([EvReason] ++ l).
  rewrite rounds_app, rounds_tool_events. reflexivity.
Qed.

Lemma reason_node_result tools messages s :
  result_of (reason_node react_agent tools messages s)
  = snd (fst (react_agent tools (pre_model_hook (optimizer s)) messages (world s))).
Proof.
  unfold reason_node. destruct (react_agent _ _ _ _) as [[calls r] w'].
  reflexivity.
Qed.

(** The node leaves the optimizer alone. *)
Lemma reason_node_keeps tools messages :
  keeps (@optimizer W) (reason_node react_agent tools messages).
Proof.
  intros s. unfold reason_node.
  destruct (react_agent _ _ _ _) as [[calls r] w']. reflexivity.
Qed.

(** The router sends the graph back to the node only while the state
    holds at most six messages. *)
Lemma router_reason_length (messages : list BaseMessage) :
  router_function messages = Reason -> length messages <= 6.
Proof.
  unfold router_function. destruct (last_opt messages) as [m|]; [|discriminate].
  destruct (String.eqb (content m) ""); [discriminate|].
  destruct (existsb _ _) eqn:Hex; [discriminate|]. intros _.
  unfold stop_conditions in Hex. cbn [existsb] in Hex.
  repeat (apply orb_false_iff in Hex; destruct Hex as [? Hex]).
  match goal with H : (6 <? _) = false |- _ => apply Nat.ltb_ge in H; exact H end.
Qed.

(** The loop runs at most one round more than the rounds it has left. *)
Lemma loop_rounds_le_left tools left : forall messages s,
  rounds (trace_of (loop tools left messages s)) <= S left.
Proof.
  induction left as [|b IH]; intros messages s;
    cbn [graph_loop]; unfold bind;
    pose proof (reason_node_rounds tools messages s) as H1;
    destruct (reason_node _ _ _ s) as [[t1 [new|e]] s1]; cbn [trace_of fst] in H1.
  - cbn [raise trace_of fst]. rewrite app_nil_r. lia.
  - cbn [trace_of fst]. lia.
  - destruct (router_function (messages ++ new)).
    + cbn [ret trace_of fst]. rewrite app_nil_r. lia.
    + specialize (IH (messages ++ new) s1).
      destruct (loop tools b (messages ++ new) s1) as [[t2 r] s2].
      cbn [trace_of fst] in IH |- *. rewrite rounds_app. lia.
  - cbn [trace_of fst]. lia.
Qed.

(** The rounds of a run of the graph never exceed its recursion limit. *)
Lemma graph_rounds_le_budget tools budget messages s :
  rounds (trace_of (graph tools budget messages s)) <= budget.
Proof.
  destruct budget as [|b]; [cbn; lia|].
  cbn [ainvoke_graph]. apply loop_rounds_le_left.
Qed.

(** When every round adds a message, the router stops the graph within
    [7 - length messages] rounds (one round at least is run). *)
Lemma loop_rounds_le_messages tools left :
  agent_adds_messages react_agent ->
  forall messages s,
    rounds (trace_of (loop tools left messages s))
    <= Nat.max 1 (7 - length messages).
Proof.
  intros Hadd. induction left as [|b IH]; intros messages s;
    cbn [graph_loop]; unfold bind;
    pose proof (reason_node_rounds tools messages s) as H1;
    pose proof (reason_node_result tools messages s) as H2;
    specialize (Hadd tools (pre_model_hook (optimizer s)) messages (world s));
    destruct (reason_node _ _ _ s) as [[t1 [new|e]] s1];
    cbn [trace_of result_of fst snd] in H1, H2.
  - cbn [raise trace_of fst]. rewrite app_nil_r. lia.
  - cbn [trace_of fst]. lia.
  - rewrite <- H2 in Hadd.
    destruct (router_function (messages ++ new)) eqn:Hr.
    + cbn [ret trace_of fst]. rewrite app_nil_r. lia.
    + apply router_reason_length in Hr. rewrite length_app in Hr.
      specialize (IH (messages ++ new) s1). rewrite length_app in IH.
      destruct new as [|m new]; [congruence|]. cbn [length] in Hr, IH.
      destruct (loop tools b (messages ++ m :: new) s1) as [[t2 r] s2].
      cbn [trace_of fst] in IH |- *. rewrite rounds_app. lia.
  - cbn [trace_of fst]. lia.
Qed.

Lemma graph_rounds_le_messages tools budget :
  agent_adds_messages react_agent ->
  forall messages s,
    rounds (trace_of (graph tools budget messages s))
    <= Nat.max 1 (7 - length messages).
Proof.
  intros Hadd messages s. destruct budget as [|b]; [cbn; lia|].
  cbn [ainvoke_graph]. apply loop_rounds_le_messages. exact Hadd.
Qed.

(** The loop leaves the optimizer alone. *)
Lemma loop_keeps tools left : forall messages,
  keeps (@optimizer W) (loop tools left messages).
Proof.
  induction left as [|b IH]; intros messages; cbn [graph_loop];
    (apply keeps_bind; [apply reason_node_keeps|]); intros new.
  - apply keeps_raise.
  - destruct (router_function (messages ++ new)); [apply keeps_ret | apply IH].
Qed.

(** And so does the graph. *)
Lemma graph_keeps tools budget messages :
  keeps (@optimizer W) (graph tools budget messages).
Proof.
  destruct budget as [|b]; [apply keeps_raise | apply loop_keeps].
Qed.

(** And so does [execute]. *)
Lemma execute_keeps ex message :
  keeps (@optimizer W) (exec ex message).
Proof.
  intros s. unfold execute, try_except, bind.
  pose proof (graph_keeps (app_tools ex) graph_recursion_limit
                [HumanMessage message] s) as H.
  destruct (graph _ _ _ s) as [[t [ms|e]] s1]; cbn in H.
  - destruct (last_opt ms); exact H.
  - destruct e; exact H.
Qed.

(** [execute] does nothing outside the graph. *)
Lemma execute_trace ex message s :
  trace_of (exec ex message s)
  = trace_of (graph (app_tools ex) graph_recursion_limit [HumanMessage message] s).
Proof.
  unfold execute, try_except, bind.
  destruct (graph _ _ _ s) as [[t [ms|e]] s1].
  - destruct (last_opt ms); cbn; rewrite !app_nil_r; reflexivity.
  - destruct e; cbn; rewrite app_nil_r; reflexivity.
Qed.

(** [execute] answers with a text, whatever happens in the graph. *)
Lemma execute_total ex message s :
  exists answer, result_of (exec ex message s) = Ok answer.
Proof.
  unfold execute, try_except, bind.
  destruct (graph _ _ _ s) as [[t [ms|e]] s1].
  - destruct (last_opt ms); cbn; eexists; reflexivity.
  - destruct e; cbn; eexists; reflexivity.
Qed.

(** The recursion error of the graph becomes the partial-result text. *)
Lemma execute_partial ex message s :
  result_of (graph (app_tools ex) graph_recursion_limit [HumanMessage message] s)
  = Raise GraphRecursionError ->
  result_of (exec ex message s) = Ok partial_result.
Proof.
  unfold execute, try_except, bind.
  destruct (graph _ _ _ s) as [[t [ms|e]] s1]; cbn; [discriminate|].
  intros H. injection H as ->. reflexivity.
Qed.

(** After a successful connection, discovery and pre-check, [run] is
    [execute]. *)
Lemma run_after_pre_check message s0 tc s1 tl tools s2 tp s3 :
  connect s0 = (tc, Ok tt, s1) ->
  load_mcp_tools s1 = (tl, Ok tools, s2) ->
  pre_check json_loads tools s2 = (tp, Ok tt, s3) ->
  let ex := exec {| app_tools := tools; recursion_limit := 3 |} message s3 in
  run json_loads exn_str graph_recursion_limit react_agent connect
      load_mcp_tools message s0
  = (tc ++ tl ++ tp ++ trace_of ex, result_of ex, state_of ex).
Proof.
  intros Hc Hl Hp ex.
  destruct (execute_total {| app_tools := tools; recursion_limit := 3 |}
              message s3) as [answer Ha]. fold ex in Ha.
  unfold run. unfold try_except at 1. unfold bind at 1. rewrite Hc.
  unfold try_except at 1. unfold bind at 1. rewrite Hl.
  unfold bind at 1. rewrite Hp. fold ex.
  destruct ex as [[te re] se]. cbn in Ha. subst re. reflexivity.
Qed.
End Graph.

End GraphFacts.

Module ListingFacts.
Import Py PyFacts CsvAgent.

Lemma list_sum_cons a l : list_sum (a :: l) = a + list_sum l.
Proof. reflexivity. Qed.

Lemma listing_count paths : forall ds d0,
  length ds = length paths ->
  list_sum (map count_nonws paths) <= count_nonws (listing d0 (combine paths ds)).
Proof.
  induction paths as [|p paths IH]; intros ds d0 Hlen; [cbn; lia|].
  destruct ds as [|d ds]; [discriminate|].
  injection Hlen as Hlen. cbn [combine listing map]. rewrite list_sum_cons.
  rewrite !count_nonws_app. specialize (IH ds d Hlen). lia.
Qed.

Lemma path_le_sum p paths :
  In p paths -> count_nonws p <= list_sum (map count_nonws paths).
Proof.
  induction paths as [|a paths IH]; [contradiction|].
  intros [->|Hin]; cbn [map]; rewrite list_sum_cons;
    [lia | specialize (IH Hin); lia].
Qed.

(** Among two or more paths that are not blank, each one has fewer
    characters that count than all of them together. *)
Lemma path_lt_sum p paths :
  In p paths -> 1 < length paths -> Forall not_blank paths ->
  count_nonws p < list_sum (map count_nonws paths).
Proof.
  intros Hin Hlen Hnb.
  destruct paths as [|a [|b rest]]; cbn in Hlen; try lia.
  inversion Hnb as [|? ? Ha Hnb']; subst.
  inversion Hnb' as [|? ? Hb _]; subst.
  unfold not_blank in Ha, Hb.
  cbn [map]. rewrite !list_sum_cons.
  destruct Hin as [->|Hin]; [lia|].
  pose proof (path_le_sum p (b :: rest) Hin) as Hle.
  cbn [map] in Hle. rewrite list_sum_cons in Hle. lia.
Qed.

(** The stripped form of a listing of two or more paths is none of them. *)
Lemma strip_listing_neq raw paths p :
  lists_paths raw paths -> 1 < length paths -> Forall not_blank paths ->
  In p paths -> strip raw <> p.
Proof.
  intros (d0 & ds & Hlen & ->) Hn Hnb Hin Heq.
  pose proof (listing_count paths ds d0 Hlen) as H1.
  pose proof (path_lt_sum p paths Hin Hn Hnb) as H2.
  rewrite <- (count_nonws_strip (listing d0 (combine paths ds))), Heq in H1.
  lia.
Qed.

End ListingFacts.

Module DashboardFacts.
Import Py Eff EffFacts Dashboard.
Local Open Scope eff_scope.

Section Client.
Context {W : Type}.

#[local] Abbreviation session := (@session W).

(** With no path in the configuration, [FileCache.cache_file_path] asks
    the listing tool once and stores its stripped answer. *)
Lemma file_cache_fetch (tools : list Tool) t raw (s : session) w' :
  truthy (csv_path (config s)) = false ->
  find (fun t => String.eqb (CsvAgent.name t) "get_files_list") tools = Some t ->
  CsvAgent.ainvoke t (VDict []) (world s) = (Ok (VStr raw), w') ->
  cache_file_path tools s
  = ([CsvAgent.EvTool "get_files_list" (VDict [])], Ok tt,
     {| config := {| csv_path := VStr (strip raw); schema := schema (config s) |};
        world := w' |}).
Proof.
  intros Hp Hf Hi.
  pose proof (CsvAgentFacts.find_tool_name _ _ _ Hf) as Hn.
  unfold cache_file_path, bind, get, ret. cbn. rewrite Hp.
  unfold find_tool. rewrite Hf. unfold ret, invoke, call, lift.
  rewrite Hi, Hn. reflexivity.
Qed.

(** [execute_metrics] hands the query of a metric to the tool as it
    stands, with the cached path as the only file location; this is the
    one call a metric makes. *)
Lemma execute_metric_trace (exec_tool : Tool) csv d q (s : session) :
  dict_get (VStr "sql") d = Some q ->
  trace_of (execute_metric exec_tool csv (VDict d) s)
  = [CsvAgent.EvTool (CsvAgent.name exec_tool) (sql_args csv q)].
Proof.
  intros Hq. unfold execute_metric, bind, py_getitem, ret, raise. rewrite Hq.
  unfold invoke, call.
  destruct (lift _ s) as [[data|e] s1]; [|reflexivity].
  destruct (dict_get (VStr "metric") d); [|reflexivity].
  destruct (dict_get (VStr "description") d); [|reflexivity].
  destruct (dict_get (VStr "visualization_type") d); reflexivity.
Qed.

End Client.

End DashboardFacts.

(* ================================================================== *)
(** * The claims *)
(* ================================================================== *)

Module ServerClaims.
Import Py Eff EffFacts Analyst AnalystFacts.

Section Server.
Context {W DataFrame LazyFrame Row PolarsError : Type}.
Variable pl : Polars W DataFrame LazyFrame Row PolarsError.

Lemma read_file_csv_inv f d w :
  read_file pl f "csv" w = ([EvReadCsv f], Ok d, w) ->
  pl_read_csv pl f w = (Ok d, w).
Proof.
  unfold read_file. cbn [String.eqb Ascii.eqb Bool.eqb]. rewrite call_run.
  destruct (pl_read_csv pl f w) as [r w1]. cbn. congruence.
Qed.

(** C7.  For every file type other than "csv" and "parquet", [get_schema],
    the loader [read_file_list] and [execute_polars_sql] all fail with the
    error "Unsupported file type: <file_type>"; the trace is empty, so no
    Polars call was made and no data was read, and the world is as it
    was. *)
Theorem unsupported_file_type ft fl fls q w :
  ft <> "csv" -> ft <> "parquet" ->
  get_schema pl fl ft w = ([], Raise (unsupported ft), w) /\
  read_file_list pl fls ft w = ([], Raise (unsupported ft), w) /\
  execute_polars_sql pl fls q ft w = ([], Raise (unsupported ft), w) /\
  @unsupported PolarsError ft
  = ValueError ("Unsupported file type: " ++ ft)%string.
Proof.
  intros H1 H2. destruct (unsupported_branch ft H1 H2) as [E1 E2].
  unfold get_schema, execute_polars_sql, read_file, read_file_list, bind, raise.
  rewrite E1, E2. repeat split.
Qed.

(** C6.  For a non-empty list of CSV files that read, one by one, to frames
    of one schema: [read_file_list] scans every file lazily, in the order
    given, concatenates the lazy plans and collects once (one [EvCollect]
    in the trace, no eager read); the frame it returns holds the records of
    the files read one by one with [read_file], in the order of the files.
    The last part is what Polars promises of a lazy concatenation
    ([lazy_concat_law]). *)
Theorem read_file_list_csv_lazy_single_pass fs lfs lf dfs w :
  lazy_concat_law pl ->
  fs <> [] ->
  Forall2 (fun f l => pl_scan_csv pl f w = (Ok l, w)) fs lfs ->
  pl_concat pl lfs w = (Ok lf, w) ->
  Forall2 (fun f d => read_file pl f "csv" w = ([EvReadCsv f], Ok d, w)) fs dfs ->
  (forall d d', In d dfs -> In d' dfs -> df_schema pl d = df_schema pl d') ->
  exists df,
    read_file_list pl fs "csv" w
    = (map EvScanCsv fs ++ [EvConcat lfs; EvCollect lf], Ok df, w) /\
    count is_collect (trace_of (read_file_list pl fs "csv" w)) = 1 /\
    count is_eager_read (trace_of (read_file_list pl fs "csv" w)) = 0 /\
    df_to_dicts pl df = flat_map (df_to_dicts pl) dfs.
Proof.
  intros Hlaw Hne Hscan Hcat Hread Hsame.
  assert (Hread' : Forall2 (fun f d => pl_read_csv pl f w = (Ok d, w)) fs dfs).
  { clear - Hread. induction Hread as [|f d fs dfs Hf _ IH]; constructor;
      [apply read_file_csv_inv; exact Hf | exact IH]. }
  destruct (Hlaw fs lfs lf dfs w Hne Hscan Hcat Hread' Hsame) as (df & Hcol & Hrec).
  exists df.
  pose proof (read_file_list_csv_ok pl fs lfs lf df w Hscan Hcat Hcol) as Hrun.
  rewrite Hrun. cbn [trace_of fst]. unfold count.
  rewrite !filter_app, !filter_scan_events by reflexivity.
  split; [reflexivity|]. split; [reflexivity|]. split; [reflexivity | exact Hrec].
Qed.

(** C2, as the code has it.  For CSV files that scan, [read_file_list]
    compares no schemas: it scans each file in the order given, gives the
    lazy frames of the scans to one concatenation and collects its plan
    once, and its outcome is the outcome of those two calls of the engine,
    an exception of theirs propagated as it is.  So, for files whose column
    sets differ, the load fails and returns no frame because the engine
    refuses the concatenation ([vertical_concat_law]): the exception is the
    engine's, raised by the concatenation or by its collection, and the
    scans and the concatenation are all that came before. *)
Theorem read_file_list_csv_delegates fs lfs dfs w :
  Forall2 (fun f l => pl_scan_csv pl f w = (Ok l, w)) fs lfs ->
  read_file_list pl fs "csv" w
  = match pl_concat pl lfs w with
    | (Raise e, w1) => (map EvScanCsv fs ++ [EvConcat lfs], Raise e, w1)
    | (Ok lf, w1) =>
        (map EvScanCsv fs ++ [EvConcat lfs; EvCollect lf],
         fst (lf_collect pl lf w1), snd (lf_collect pl lf w1))
    end /\
  (vertical_concat_law pl ->
   Forall2 (fun f d => read_file pl f "csv" w = ([EvReadCsv f], Ok d, w)) fs dfs ->
   (exists d d', In d dfs /\ In d' dfs /\ column_sets_differ pl d d') ->
   exists e w',
     read_file_list pl fs "csv" w
     = (map EvScanCsv fs ++ [EvConcat lfs], Raise (PolarsExn e), w') \/
     exists lf,
       read_file_list pl fs "csv" w
       = (map EvScanCsv fs ++ [EvConcat lfs; EvCollect lf],
          Raise (PolarsExn e), w')).
Proof.
  intros Hscan.
  assert (Hrun : read_file_list pl fs "csv" w
                 = match pl_concat pl lfs w with
                   | (Raise e, w1) => (map EvScanCsv fs ++ [EvConcat lfs], Raise e, w1)
                   | (Ok lf, w1) =>
                       (map EvScanCsv fs ++ [EvConcat lfs; EvCollect lf],
                        fst (lf_collect pl lf w1), snd (lf_collect pl lf w1))
                   end).
  { unfold read_file_list. cbn [String.eqb Ascii.eqb Bool.eqb].
    unfold bind. rewrite (mapM_scan_ok pl fs lfs w Hscan), call_run.
    destruct (pl_concat pl lfs w) as [[lf|e] w1]; cbn [fst snd].
    - rewrite call_run. reflexivity.
    - reflexivity. }
  split; [exact Hrun|].
  intros Hlaw Hread Hdiff.
  assert (Hread' : Forall2 (fun f d => pl_read_csv pl f w = (Ok d, w)) fs dfs).
  { clear - Hread. induction Hread as [|f d fs dfs Hf _ IH]; constructor;
      [apply read_file_csv_inv; exact Hf | exact IH]. }
  destruct (Hlaw fs lfs dfs w Hscan Hread' Hdiff)
    as [(e & w' & Hc)|(lf & e & w' & Hc & Hl)];
    exists e, w'; rewrite Hrun, Hc.
  - left. reflexivity.
  - right. exists lf. rewrite Hl. reflexivity.
Qed.
End Server.

End ServerClaims.

Module QueryClaims.
Import Py Eff EffFacts Analyst AnalystFacts.

Section Query.
Context {W DataFrame LazyFrame Row PolarsError : Type}.
Variable pl : Polars W DataFrame LazyFrame Row PolarsError.
(** The remote world of the dashboard agent. *)
Context {C : Type}.

(** C1, as the code has it.  Nothing validates a query.  Once the files
    have loaded, [execute_polars_sql] gives the query to the SQL call of
    the engine as it came, as its next and last call, and its outcome is
    the engine's: the records of the answer, or the engine's exception.  On
    the agent side, [execute_metrics] invokes the tool with the query of
    the metric as it stands, and this is the one call it makes for the
    metric. *)
Theorem query_reaches_engine_unvalidated
    fs q ft w t1 df w1
    (exec_tool : @Dashboard.Tool C) csv d (s : @Dashboard.session C) :
  read_file_list pl fs ft w = (t1, Ok df, w1) ->
  dict_get (VStr "sql") d = Some (VStr q) ->
  execute_polars_sql pl fs q ft w
  = (t1 ++ [EvSql df q],
     match fst (df_sql pl df q w1) with
     | Ok op_df => Ok (df_to_dicts pl op_df)
     | Raise e => Raise e
     end,
     snd (df_sql pl df q w1)) /\
  trace_of (Dashboard.execute_metric exec_tool csv (VDict d) s)
  = [CsvAgent.EvTool (CsvAgent.name exec_tool) (Dashboard.sql_args csv (VStr q))].
Proof.
  intros Hload Hsql. split.
  - apply execute_polars_sql_after_load. exact Hload.
  - apply DashboardFacts.execute_metric_trace. exact Hsql.
Qed.
End Query.

End QueryClaims.

Module ServerRuns.
Import Py Eff Analyst RefPolars.

(** C1 refuted as stated.  The query of the spec's scenario, with a SELECT
    nested in the projection list, is rejected by nothing: the server scans,
    concatenates, collects and then calls the engine on the query, and
    answers with what the engine gives; the dashboard invokes the tool with
    the same query as its only call. *)
Lemma nested_select_not_rejected :
  execute_polars_sql (engine true) ["data/ipl.csv"] nested_select_query "csv" store
  = ([ EvScanCsv "data/ipl.csv"; EvConcat [["data/ipl.csv"]];
       EvCollect ["data/ipl.csv"]; EvSql ipl nested_select_query ],
     Ok (to_dicts ipl), store) /\
  trace_of (Dashboard.execute_metric
              (Demo.canned "execute_polars_sql" Demo.some_records)
              (VStr "data/ipl.csv") Demo.nested_metric (Demo.dash_fresh 0))
  = [ CsvAgent.EvTool "execute_polars_sql"
        (Dashboard.sql_args (VStr "data/ipl.csv") (VStr nested_select_query)) ].
Proof. split; vm_compute; reflexivity. Qed.

Lemma query_reaches_engine_unvalidated_witness :
  execute_polars_sql (engine true) ["data/ipl.csv"] nested_select_query "csv" store
  = ([ EvScanCsv "data/ipl.csv"; EvConcat [["data/ipl.csv"]];
       EvCollect ["data/ipl.csv"] ] ++ [EvSql ipl nested_select_query],
     match fst (df_sql (engine true) ipl nested_select_query store) with
     | Ok op_df => Ok (df_to_dicts (engine true) op_df)
     | Raise e => Raise e
     end,
     snd (df_sql (engine true) ipl nested_select_query store)) /\
  trace_of (Dashboard.execute_metric
              (Demo.canned "execute_polars_sql" Demo.some_records)
              (VStr "data/ipl.csv") Demo.nested_metric (Demo.dash_fresh 0))
  = [ CsvAgent.EvTool "execute_polars_sql"
        (Dashboard.sql_args (VStr "data/ipl.csv") (VStr nested_select_query)) ].
Proof.
  apply (QueryClaims.query_reaches_engine_unvalidated (engine true)
           ["data/ipl.csv"] nested_select_query "csv" store _ ipl store
           (Demo.canned "execute_polars_sql" Demo.some_records)
           (VStr "data/ipl.csv") _ (Demo.dash_fresh 0)).
  - vm_compute. reflexivity.
  - vm_compute. reflexivity.
Defined.

(** C2 refuted as stated.  Two files whose column sets differ, on the
    engine that refuses such a concatenation as Polars does.  The load
    fails, but by no check of the loader: both files are scanned, the lazy
    frames are concatenated and the plan is collected, and the exception
    comes out of that collection, the fourth call.  It is the engine's own
    [ShapeError], not an error that [read_file_list] raises. *)
Lemma schema_mismatch_is_left_to_engine :
  read_file_list (engine true) ["data/ipl.csv"; "data/venues.csv"] "csv" store
  = ([ EvScanCsv "data/ipl.csv"; EvScanCsv "data/venues.csv";
       EvConcat [["data/ipl.csv"]; ["data/venues.csv"]];
       EvCollect ["data/ipl.csv"; "data/venues.csv"] ],
     Raise (PolarsExn ShapeError), store) /\
  (forall msg,
      result_of (read_file_list (engine true) ["data/ipl.csv"; "data/venues.csv"]
                   "csv" store) <> Raise (ValueError msg)) /\
  column_sets_differ (engine true) ipl venues.
Proof.
  split; [vm_compute; reflexivity|]. split.
  - intros msg. vm_compute. discriminate.
  - exists "team". left. split; [cbn; auto|].
    cbn. intros [H|[H|[H|[]]]]; discriminate H.
Qed.

Lemma read_file_list_csv_delegates_witness :
  exists e w',
    read_file_list (engine true) ["data/ipl.csv"; "data/venues.csv"] "csv" store
    = (map EvScanCsv ["data/ipl.csv"; "data/venues.csv"]
         ++ [EvConcat [["data/ipl.csv"]; ["data/venues.csv"]]],
       Raise (PolarsExn e), w') \/
    exists lf,
      read_file_list (engine true) ["data/ipl.csv"; "data/venues.csv"] "csv" store
      = (map EvScanCsv ["data/ipl.csv"; "data/venues.csv"]
           ++ [EvConcat [["data/ipl.csv"]; ["data/venues.csv"]]; EvCollect lf],
         Raise (PolarsExn e), w').
Proof.
  apply (ServerClaims.read_file_list_csv_delegates (engine true)
           ["data/ipl.csv"; "data/venues.csv"]
           [["data/ipl.csv"]; ["data/venues.csv"]] [ipl; venues] store).
  - repeat constructor.
  - apply RefPolarsFacts.ref_vertical_concat_law.
  - repeat constructor.
  - exists ipl, venues. split; [cbn; auto|]. split; [cbn; auto|].
    exists "team". left. split; [cbn; auto|].
    cbn. intros [H|[H|[H|[]]]]; discriminate H.
Defined.

Lemma unsupported_file_type_witness :
  get_schema (engine true) "data/ipl.csv" "xlsx" store
  = ([], Raise (unsupported "xlsx"), store) /\
  read_file_list (engine true) ["data/ipl.csv"] "xlsx" store
  = ([], Raise (unsupported "xlsx"), store) /\
  execute_polars_sql (engine true) ["data/ipl.csv"] "SELECT * FROM self" "xlsx" store
  = ([], Raise (unsupported "xlsx"), store) /\
  @unsupported PolarsError "xlsx" = ValueError "Unsupported file type: xlsx".
Proof.
  apply (ServerClaims.unsupported_file_type (engine true) "xlsx" "data/ipl.csv"
           ["data/ipl.csv"] "SELECT * FROM self" store); discriminate.
Defined.

Lemma read_file_list_csv_lazy_single_pass_witness :
  exists df,
    read_file_list (engine true) ["data/ipl.csv"; "data/ipl2.csv"] "csv" store
    = (map EvScanCsv ["data/ipl.csv"; "data/ipl2.csv"]
         ++ [EvConcat [["data/ipl.csv"]; ["data/ipl2.csv"]];
             EvCollect ["data/ipl.csv"; "data/ipl2.csv"]], Ok df, store) /\
    count is_collect
      (trace_of (read_file_list (engine true) ["data/ipl.csv"; "data/ipl2.csv"]
                   "csv" store)) = 1 /\
    count is_eager_read
      (trace_of (read_file_list (engine true) ["data/ipl.csv"; "data/ipl2.csv"]
                   "csv" store)) = 0 /\
    df_to_dicts (engine true) df = flat_map (df_to_dicts (engine true)) [ipl; ipl2].
Proof.
  apply (ServerClaims.read_file_list_csv_lazy_single_pass (engine true)
           ["data/ipl.csv"; "data/ipl2.csv"]
           [["data/ipl.csv"]; ["data/ipl2.csv"]]
           ["data/ipl.csv"; "data/ipl2.csv"] [ipl; ipl2] store).
  - apply RefPolarsFacts.ref_lazy_concat_law.
  - discriminate.
  - repeat constructor.
  - reflexivity.
  - repeat constructor.
  - intros d d' [<-|[<-|[]]] [<-|[<-|[]]]; reflexivity.
Defined.

End ServerRuns.

Module ClientClaims.
Import Py Eff EffFacts CsvAgent CsvAgentFacts GraphFacts.
Local Open Scope eff_scope.

Section Client.
Context {W : Type}.
Variable json_loads : string -> result exn pyval.
Variable exn_str : exn -> string.
Variable graph_recursion_limit : nat.
Variable react_agent :
  list (@Tool W) ->
  (list BaseMessage -> result exn (list BaseMessage)) ->
  list BaseMessage -> M W tool_call exn (list BaseMessage).
Variable connect : IO (W := W) unit.
Variable load_mcp_tools : IO (W := W) (list (@Tool W)).

#[local] Abbreviation Tool := (@Tool W).
#[local] Abbreviation session := (@session W).
#[local] Abbreviation path_of := (@path_of W).
#[local] Abbreviation schema_of := (@schema_of W).
#[local] Abbreviation graph := (ainvoke_graph react_agent).
#[local] Abbreviation exec := (execute exn_str graph_recursion_limit react_agent).
#[local] Abbreviation run_agent :=
  (run json_loads exn_str graph_recursion_limit react_agent connect load_mcp_tools).

(** C3, as the code has it.  In a fresh session whose listing tool answers
    with a string that is empty once stripped, the pre-check calls
    [get_files_list] and nothing else (so not [get_schema]), leaves the
    cached path and the cached schema empty, and the hook then adds no
    context message.  The question still goes to the agent: [run] returns
    what [execute] returns from that state. *)
Theorem empty_listing_pre_check uid message msgs s0 tc s1 tl tools s2 t raw w' :
  connect s0 = (tc, Ok tt, s1) ->
  load_mcp_tools s1 = (tl, Ok tools, s2) ->
  optimizer s2 = AgentOptimizer_init uid ->
  find (fun t => String.eqb (name t) "get_files_list") tools = Some t ->
  ainvoke t (VDict []) (world s2) = (Ok (VStr raw), w') ->
  strip raw = "" ->
  let s3 := {| optimizer := AgentOptimizer_init uid; world := w' |} in
  let ex := exec {| app_tools := tools; recursion_limit := 3 |} message s3 in
  pre_check json_loads tools s2
  = ([EvTool "get_files_list" (VDict [])], Ok tt, s3) /\
  pre_model_hook (optimizer s3) msgs = Ok msgs /\
  run_agent message s0
  = (tc ++ tl ++ [EvTool "get_files_list" (VDict [])] ++ trace_of ex,
     result_of ex, state_of ex).
Proof.
  intros Hc Hl Ho Hf Hi Hs s3 ex.
  assert (Hpre : pre_check json_loads tools s2
                 = ([EvTool "get_files_list" (VDict [])], Ok tt, s3)).
  { unfold pre_check.
    assert (Hp : path_of s2 = "") by (unfold path_of; rewrite Ho; reflexivity).
    rewrite (bind_ok _ _ s2 _ tt _ (cache_file_path_fetch tools t raw s2 w' Hp Hf Hi)).
    rewrite Hs, Ho.
    rewrite cache_schema_no_path by reflexivity. reflexivity. }
  split; [exact Hpre|]. split; [reflexivity|].
  apply (run_after_pre_check json_loads exn_str graph_recursion_limit react_agent
           connect load_mcp_tools message s0 tc s1 tl tools s2 _ s3 Hc Hl Hpre).
Qed.

(** C4, as the code has it.  [execute] always answers with a text and
    never raises.  The rounds of the question-answering loop never exceed
    the recursion limit of the graph, and when that limit stops the graph
    the answer is the fixed partial-result text.  When every round adds a
    message, the router ends the loop within six rounds, since it stops
    once the state holds more than six messages.  Tool invocations are not
    counted by the code. *)
Theorem loop_is_capped ex message s :
  (exists answer, result_of (exec ex message s) = Ok answer) /\
  rounds (trace_of (exec ex message s)) <= graph_recursion_limit /\
  (result_of (graph (app_tools ex) graph_recursion_limit [HumanMessage message] s)
   = Raise GraphRecursionError ->
   result_of (exec ex message s) = Ok partial_result) /\
  (agent_adds_messages react_agent ->
   rounds (trace_of (exec ex message s)) <= 6).
Proof.
  split; [apply execute_total|].
  rewrite execute_trace.
  split; [apply graph_rounds_le_budget|].
  split; [apply execute_partial|].
  intros Hadd.
  apply (graph_rounds_le_messages react_agent (app_tools ex)
           graph_recursion_limit Hadd [HumanMessage message] s).
Qed.

(** C9.  A fresh optimizer holds no path and no schema.  In a session that
    starts fresh and runs any cache steps in any order, with tools that may
    answer anything: once the cached path is populated, no later step
    changes it; once the cached schema is populated, no later step changes
    the optimizer at all, and no later step calls a tool.  The
    question-answering loop reads the cache and never writes it: [execute]
    ends with the optimizer it started with. *)
Theorem cache_populated_once (tools : list Tool) uid w steps1 steps2 ex message :
  let s0 := {| optimizer := AgentOptimizer_init uid; world := w |} in
  let s1 := state_of (do_steps json_loads tools steps1 s0) in
  let later := do_steps json_loads tools steps2 s1 in
  (path_of s0 = "" /\ schema_of s0 = []) /\
  (path_of s1 <> "" -> path_of (state_of later) = path_of s1) /\
  (schema_of s1 <> [] ->
   optimizer (state_of later) = optimizer s1 /\ trace_of later = []) /\
  optimizer (state_of (exec ex message s1)) = optimizer s1.
Proof.
  intros s0 s1 later. split; [split; reflexivity|]. split; [|split].
  - intros Hp. apply do_steps_keeps_path. exact Hp.
  - intros Hs.
    assert (Hp : path_of s1 <> "").
    { apply (do_steps_invariant json_loads tools steps1 s0); [|exact Hs].
      intros H. exfalso. apply H. reflexivity. }
    destruct (do_steps_populated json_loads tools steps2 s1 Hp Hs) as [r Hr].
    unfold later. rewrite Hr. split; reflexivity.
  - apply (execute_keeps exn_str graph_recursion_limit react_agent ex message s1).
Qed.

(** C10.  When the path cache is populated from a string answer of
    [get_files_list], in the chat agent and in the dashboard agent alike,
    the cached value is the stripped form of the whole answer.  That value
    is what [cache_schema] gives [get_schema] as the file location and what
    [execute_metrics] gives [execute_polars_sql] as the only file location.
    When the answer lists two or more paths, none of them blank, the cached
    value is none of the listed paths. *)
Theorem cached_path_is_whole_listing
    (tools : list Tool) t raw (s : session) w' (ds : @Dashboard.session W) :
  find (fun t => String.eqb (name t) "get_files_list") tools = Some t ->
  path_of s = "" ->
  ainvoke t (VDict []) (world s) = (Ok (VStr raw), w') ->
  truthy (Dashboard.csv_path (Dashboard.config ds)) = false ->
  Dashboard.world ds = world s ->
  let s' := state_of (cache_file_path tools s) in
  let ds' := state_of (Dashboard.cache_file_path tools ds) in
  path_of s' = strip raw /\
  Dashboard.csv_file_path_of ds' = VStr (strip raw) /\
  (forall st, strip raw <> "" -> schema_of s = [] ->
     find (fun t => String.eqb (name t) "get_schema") tools = Some st ->
     exists rest,
       trace_of (cache_schema json_loads tools s')
       = EvTool "get_schema" (VDict [(VStr "file_location", VStr (strip raw))])
         :: rest) /\
  (forall (exec_tool : Tool) d q, dict_get (VStr "sql") d = Some q ->
     trace_of (Dashboard.execute_metric exec_tool
                 (Dashboard.csv_file_path_of ds') (VDict d) ds')
     = [EvTool (name exec_tool)
          (VDict [ (VStr "file_locations", VList [VStr (strip raw)]);
                   (VStr "query", q); (VStr "file_type", VStr "csv") ])]) /\
  (forall paths p,
     lists_paths raw paths -> 1 < length paths -> Forall not_blank paths ->
     In p paths -> path_of s' <> p).
Proof.
  intros Hf Hp Hi Hd Hw s' ds'.
  assert (Hs' : s' = {| optimizer := set_file_path (strip raw) (optimizer s);
                        world := w' |}).
  { unfold s'. rewrite (cache_file_path_fetch tools t raw s w' Hp Hf Hi).
    reflexivity. }
  assert (Hds' : Dashboard.csv_file_path_of ds' = VStr (strip raw)).
  { unfold ds'. rewrite <- Hw in Hi.
    rewrite (DashboardFacts.file_cache_fetch tools t raw ds w' Hd Hf Hi).
    reflexivity. }
  assert (Hpath : path_of s' = strip raw) by (rewrite Hs'; reflexivity).
  split; [exact Hpath|]. split; [exact Hds'|]. split; [|split].
  - intros st Hne Hsch Hst.
    destruct (cache_schema_fetch json_loads tools st s') as [rest Hrest].
    + rewrite Hpath. exact Hne.
    + rewrite Hs'. exact Hsch.
    + exact Hst.
    + exists rest. rewrite Hrest, Hpath. reflexivity.
  - intros exec_tool d q Hq. rewrite Hds'.
    apply (DashboardFacts.execute_metric_trace exec_tool _ d q ds' Hq).
  - intros paths p Hl Hn Hnb Hin. rewrite Hpath.
    apply (ListingFacts.strip_listing_neq raw paths p Hl Hn Hnb Hin).
Qed.
End Client.

End ClientClaims.

Module ClientRuns.
Import Py Eff CsvAgent Demo.

(** C3 refuted as stated.  The listing is empty, and the session still runs
    the agent: a model that queries and answers gets its call to
    [execute_polars_sql] served, and its answer, not the fixed sentence, is
    what the user sees. *)
Lemma empty_listing_agent_still_answers :
  let r := run json_loads exn_str 25 agent_one_query connect (load_mcp_tools "")
             "What is the average of runs?" (fresh 0) in
  trace_of r
  = [ EvTool "get_files_list" (VDict []); EvReason;
      EvTool "execute_polars_sql"
        (snd (sql_call "SELECT AVG(runs) AS avg_runs FROM self")) ] /\
  result_of r = Ok "The average is 173.3.
END" /\
  result_of r <> Ok "No file is present and there is nothing to analyze.".
Proof. repeat split; try (vm_compute; reflexivity). vm_compute. discriminate. Qed.

Lemma empty_listing_pre_check_witness :
  let s3 := fresh 1 in
  let ex := execute exn_str 25 agent_one_query
              {| app_tools := tools "  "; recursion_limit := 3 |}
              "What is the average of runs?" s3 in
  pre_check json_loads (tools "  ") (fresh 0)
  = ([EvTool "get_files_list" (VDict [])], Ok tt, s3) /\
  pre_model_hook (optimizer s3) [HumanMessage "What is the average of runs?"]
  = Ok [HumanMessage "What is the average of runs?"] /\
  run json_loads exn_str 25 agent_one_query connect (load_mcp_tools "  ")
      "What is the average of runs?" (fresh 0)
  = ([] ++ [] ++ [EvTool "get_files_list" (VDict [])] ++ trace_of ex,
     result_of ex, state_of ex).
Proof.
  apply (ClientClaims.empty_listing_pre_check json_loads exn_str 25
           agent_one_query connect (load_mcp_tools "  ") "default_user"
           "What is the average of runs?"
           [HumanMessage "What is the average of runs?"]
           (fresh 0) [] (fresh 0) [] (tools "  ") (fresh 0)
           (canned "get_files_list" (VStr "  ")) "  " 1);
    reflexivity.
Defined.

(** C4 refuted as stated.  One question, one round, three tool invocations:
    the loop ends on the answer of the model, and nothing cut it at two. *)
Lemma three_tool_calls_in_one_question :
  let r := execute exn_str 25 agent_three_queries
             {| app_tools := tools "data/ipl.csv"; recursion_limit := 3 |}
             "Which team leads?" (fresh 0) in
  tool_calls (trace_of r) = 3 /\
  rounds (trace_of r) = 1 /\
  result_of r = Ok "MI leads with 180 runs.
END".
Proof. repeat split; vm_compute; reflexivity. Qed.

Lemma agent_thinking_adds : agent_adds_messages agent_thinking.
Proof. intros tl hook msgs w. cbn. discriminate. Qed.

Lemma loop_is_capped_witness :
  let ex := {| app_tools := tools "data/ipl.csv"; recursion_limit := 3 |} in
  rounds (trace_of (execute exn_str 25 agent_thinking ex "Which team leads?" (fresh 0)))
  <= 6 /\
  result_of (execute exn_str 3 agent_thinking ex "Which team leads?" (fresh 0))
  = Ok partial_result.
Proof.
  intros ex. split.
  - apply (ClientClaims.loop_is_capped exn_str 25 agent_thinking ex
             "Which team leads?" (fresh 0)).
    exact agent_thinking_adds.
  - apply (ClientClaims.loop_is_capped exn_str 3 agent_thinking ex
             "Which team leads?" (fresh 0)).
    vm_compute. reflexivity.
Defined.

Lemma cache_populated_once_witness :
  let s0 := fresh 0 in
  let s1 := state_of (do_steps json_loads (tools "data/ipl.csv")
                        [StepCacheFilePath; StepCacheSchema] s0) in
  let later := do_steps json_loads (tools "data/ipl.csv")
                 [StepHook [HumanMessage "Which team leads?"];
                  StepCacheFilePath; StepCacheSchema] s1 in
  let ex := {| app_tools := tools "data/ipl.csv"; recursion_limit := 3 |} in
  path_of s1 = "data/ipl.csv" /\
  path_of (state_of later) = path_of s1 /\
  (optimizer (state_of later) = optimizer s1 /\ trace_of later = []) /\
  optimizer (state_of (execute exn_str 25 agent_three_queries ex
                         "Which team leads?" s1)) = optimizer s1.
Proof.
  intros s0 s1 later ex.
  destruct (ClientClaims.cache_populated_once json_loads exn_str 25
              agent_three_queries (tools "data/ipl.csv") "default_user" 0
              [StepCacheFilePath; StepCacheSchema]
              [StepHook [HumanMessage "Which team leads?"];
               StepCacheFilePath; StepCacheSchema]
              ex "Which team leads?") as (_ & Hpath & Hschema & Hexec).
  split; [vm_compute; reflexivity|]. split; [|split].
  - apply Hpath. vm_compute. discriminate.
  - apply Hschema. vm_compute. discriminate.
  - exact Hexec.
Defined.

(** A listing of two files, as a Python list display. *)
Lemma two_paths_listed :
  lists_paths "['data/a.csv', 'data/b.csv']" ["data/a.csv"; "data/b.csv"].
Proof. exists "['", ["', '"; "']"]. split; reflexivity. Qed.

Lemma two_paths_not_blank : Forall not_blank ["data/a.csv"; "data/b.csv"].
Proof. repeat constructor; vm_compute; lia. Qed.

Lemma cached_path_is_whole_listing_witness :
  let raw := "['data/a.csv', 'data/b.csv']" in
  let s' := state_of (cache_file_path (tools raw) (fresh 0)) in
  let ds' := state_of (Dashboard.cache_file_path (tools raw) (dash_fresh 0)) in
  path_of s' = raw /\
  Dashboard.csv_file_path_of ds' = VStr raw /\
  path_of s' <> "data/a.csv" /\ path_of s' <> "data/b.csv" /\
  (exists rest,
      trace_of (cache_schema json_loads (tools raw) s')
      = EvTool "get_schema" (VDict [(VStr "file_location", VStr raw)]) :: rest) /\
  trace_of (Dashboard.execute_metric (canned "execute_polars_sql" some_records)
              (Dashboard.csv_file_path_of ds') nested_metric ds')
  = [EvTool "execute_polars_sql"
       (VDict [ (VStr "file_locations", VList [VStr raw]);
                (VStr "query", VStr RefPolars.nested_select_query);
                (VStr "file_type", VStr "csv") ])].
Proof.
  intros raw s' ds'.
  destruct (ClientClaims.cached_path_is_whole_listing json_loads (tools raw)
              (canned "get_files_list" (VStr raw)) raw (fresh 0) 1 (dash_fresh 0)
              eq_refl eq_refl eq_refl eq_refl eq_refl)
    as (Hpath & Hdash & Hschema & Hsql & Hneq).
  change (strip raw) with raw in *.
  split; [exact Hpath|]. split; [exact Hdash|].
  split; [apply (Hneq _ _ two_paths_listed); [cbn; lia | exact two_paths_not_blank | cbn; auto]|].
  split; [apply (Hneq _ _ two_paths_listed); [cbn; lia | exact two_paths_not_blank | cbn; auto]|].
  split.
  - apply (Hschema (canned "get_schema" team_schema)); [discriminate | reflexivity | reflexivity].
  - apply (Hsql (canned "execute_polars_sql" some_records)). reflexivity.
Defined.

End ClientRuns.

Module DisplayClaims.
Import Py Eff EffFacts Analyst AnalystFacts GraphFacts.
Local Open Scope eff_scope.

Section Display.
Context {E DataFrame LazyFrame Row PolarsError : Type}.
Variable pl : Polars E DataFrame LazyFrame Row PolarsError.
Context {W : Type}.
Variable json_loads : string -> result CsvAgent.exn pyval.
Variable exn_str : CsvAgent.exn -> string.
Variable graph_recursion_limit : nat.
Variable react_agent :
  list (@CsvAgent.Tool W) ->
  (list CsvAgent.BaseMessage -> result CsvAgent.exn (list CsvAgent.BaseMessage)) ->
  list CsvAgent.BaseMessage ->
  M W CsvAgent.tool_call CsvAgent.exn (list CsvAgent.BaseMessage).
Variable connect : CsvAgent.IO (W := W) unit.
Variable load_mcp_tools : CsvAgent.IO (W := W) (list (@CsvAgent.Tool W)).

End Display.

End DisplayClaims.

Module DisplayRuns.
Import Py Eff CsvAgent Demo Samples.



End DisplayRuns.

(* ================================================================== *)
(** * Further properties of the code *)
(* ================================================================== *)

Module StringFacts.
Import Py PyFacts.

Lemma append_assoc_s (a b c : string) : ((a ++ b) ++ c = a ++ (b ++ c))%string.
Proof. induction a as [|x a IH]; [reflexivity|]. cbn. rewrite IH. reflexivity. Qed.

Lemma append_nil_r_s (a : string) : (a ++ "" = a)%string.
Proof. induction a as [|x a IH]; [reflexivity|]. cbn. rewrite IH. reflexivity. Qed.

Lemma rstrip_idem s : rstrip (rstrip s) = rstrip s.
Proof.
  induction s as [|c s IH]; [reflexivity|].
  cbn [rstrip]. destruct (rstrip s) as [|c' r'] eqn:E.
  - destruct (is_space c) eqn:Hc; [reflexivity|]. cbn. rewrite Hc. reflexivity.
  - cbn [rstrip]. cbn [rstrip] in IH. rewrite IH. reflexivity.
Qed.

Lemma rstrip_blank ws : count_nonws ws = 0 -> rstrip ws = ""%string.
Proof.
  induction ws as [|c ws IH]; [reflexivity|].
  cbn. destruct (is_space c); [|discriminate].
  intros H. rewrite IH by exact H. reflexivity.
Qed.

Lemma rstrip_app_blank s ws : count_nonws ws = 0 -> rstrip (s ++ ws) = rstrip s.
Proof.
  intros H. induction s as [|c s IH]; [apply rstrip_blank; exact H|].
  cbn. rewrite IH. reflexivity.
Qed.

(** A string that ends in a block [t] that [rstrip] leaves alone is left
    alone. *)
Lemma rstrip_app_fixed a t :
  t <> ""%string -> rstrip t = t -> rstrip (a ++ t) = (a ++ t)%string.
Proof.
  intros Hne Ht. induction a as [|c a IH]; [exact Ht|].
  cbn. rewrite IH. destruct (a ++ t)%string eqn:E; [|reflexivity].
  destruct a; cbn in E; [congruence | discriminate].
Qed.

Lemma lstrip_app a x c :
  is_space c = false -> lstrip (a ++ String c x) = (lstrip a ++ String c x)%string.
Proof.
  intros Hc. induction a as [|y a IH]; cbn.
  - rewrite Hc. reflexivity.
  - destruct (is_space y); [exact IH | reflexivity].
Qed.

Lemma lstrip_head s :
  lstrip s = ""%string \/ exists c r, lstrip s = String c r /\ is_space c = false.
Proof.
  induction s as [|c s IH]; [left; reflexivity|].
  cbn. destruct (is_space c) eqn:Hc; [exact IH|].
  right. exists c, s. auto.
Qed.

Lemma rstrip_keeps_head c r :
  is_space c = false -> exists r', rstrip (String c r) = String c r'.
Proof.
  intros Hc. cbn. destruct (rstrip r); [rewrite Hc|]; eexists; reflexivity.
Qed.

(** Stripping twice is stripping once. *)
Lemma strip_idem s : strip (strip s) = strip s.
Proof.
  unfold strip. destruct (lstrip_head s) as [E|(c & r & E & Hc)]; rewrite E.
  - reflexivity.
  - destruct (rstrip_keeps_head c r Hc) as [r' Hr]. rewrite Hr.
    cbn [lstrip]. rewrite Hc. rewrite <- Hr. apply rstrip_idem.
Qed.

Lemma lower_app a b : lower (a ++ b) = (lower a ++ lower b)%string.
Proof. induction a as [|c a IH]; [reflexivity|]. cbn. rewrite IH. reflexivity. Qed.

Lemma startswith_app p b : startswith p (p ++ b) = true.
Proof.
  induction p as [|c p IH]; [reflexivity|].
  cbn. rewrite Ascii.eqb_refl. exact IH.
Qed.

Lemma contains_here p b : contains p (p ++ b) = true.
Proof.
  destruct (p ++ b)%string eqn:E.
  - cbn. destruct p; [reflexivity | discriminate].
  - cbn. rewrite <- E, startswith_app. reflexivity.
Qed.

(** [p in a + p + b] *)
Lemma contains_mid p a b : contains p (a ++ p ++ b) = true.
Proof.
  induction a as [|c a IH]; [exact (contains_here p b)|].
  cbn. rewrite IH. apply orb_true_r.
Qed.

Lemma endswith_refl p : endswith p p = true.
Proof. destruct p; cbn; [reflexivity | rewrite Ascii.eqb_refl, String.eqb_refl; reflexivity]. Qed.

(** [(a + p).endswith(p)] *)
Lemma endswith_app p a : endswith p (a ++ p) = true.
Proof.
  induction a as [|c a IH]; [exact (endswith_refl p)|].
  cbn. rewrite IH. apply orb_true_r.
Qed.

(** A text that ends with END and then whitespace ends, once stripped, with
    END. *)
Lemma strip_end_marker body ws :
  count_nonws ws = 0 ->
  endswith "END" (strip (body ++ "END" ++ ws)) = true.
Proof.
  intros Hws. unfold strip.
  change ("END" ++ ws)%string with (String "E" ("ND" ++ ws)).
  rewrite lstrip_app by reflexivity.
  change (String "E" ("ND" ++ ws)) with ("END" ++ ws)%string.
  rewrite <- append_assoc_s, rstrip_app_blank by exact Hws.
  rewrite rstrip_app_fixed by (reflexivity || discriminate).
  apply endswith_app.
Qed.

End StringFacts.

Module ConfigFacts.
Import Py Eff Config.

Lemma encode_arn_cons c s :
  encode_arn (String c s)
  = ((if Ascii.eqb c ":" then "%3A"
      else if Ascii.eqb c "/" then "%2F" else String c "") ++ encode_arn s)%string.
Proof.
  unfold encode_arn. cbn [replace_char].
  destruct (Ascii.eqb c ":") eqn:E1.
  - reflexivity.
  - cbn [replace_char]. destruct (Ascii.eqb c "/"); reflexivity.
Qed.



Lemma decode_encode arn :
  has_char "%" arn = false -> decode_arn (encode_arn arn) = arn.
Proof.
  induction arn as [|c arn IH]; [reflexivity|].
  cbn [has_char]. intros H. apply orb_false_iff in H. destruct H as [Hc H].
  specialize (IH H). rewrite encode_arn_cons.
  destruct (Ascii.eqb c ":") eqn:E1.
  - apply Ascii.eqb_eq in E1. subst c. cbn. rewrite IH. reflexivity.
  - destruct (Ascii.eqb c "/") eqn:E2.
    + apply Ascii.eqb_eq in E2. subst c. cbn. rewrite IH. reflexivity.
    + cbn [append decode_arn]. rewrite Hc, IH. reflexivity.
Qed.

(** X2: on ARNs without a percent sign the encoding loses nothing: reading
    the two escapes back gives the ARN, so two such ARNs with one encoding
    are one ARN. *)
Theorem encode_arn_round_trip a b :
  has_char "%" a = false -> has_char "%" b = false ->
  decode_arn (encode_arn a) = a /\
  (encode_arn a = encode_arn b -> a = b).
Proof.
  intros Ha Hb. split; [apply decode_encode; exact Ha|].
  intros E. rewrite <- (decode_encode a Ha), <- (decode_encode b Hb), E.
  reflexivity.
Qed.

(** X3: a configuration that was built has a key that is set and not empty
    and an ARN, and its URL is the fixed frame around the region as printed
    and the encoded ARN; the URL is built only after the key was found. *)
Theorem config_built_is_valid getenv cfg :
  CSVAnalysisConfig_init getenv = Ok cfg ->
  unset (api_key cfg) = false /\
  exists arn,
    agent_arn cfg = Some arn /\
    mcp_url cfg
    = ("https://bedrock-agentcore." ++ fmt (region cfg)
       ++ ".amazonaws.com/runtimes/" ++ encode_arn arn
       ++ "/invocations?qualifier=DEFAULT")%string.
Proof.
  unfold CSVAnalysisConfig_init, _validate_config, _construct_mcp_url.
  destruct (unset (getenv "GROQ_API_KEY")) eqn:Hk; [discriminate|].
  destruct (getenv "AGENT_ARN") as [arn|] eqn:Ha; [|discriminate].
  intros H. injection H as <-. cbn. split; [exact Hk|].
  exists arn. split; reflexivity.
Qed.

(** X4: without a key the constructor raises the [ValueError] of
    [_validate_config], whatever else the environment holds, also when the
    ARN is missing too. *)
Theorem config_needs_api_key getenv :
  unset (getenv "GROQ_API_KEY") = true ->
  CSVAnalysisConfig_init getenv
  = Raise (ValueError "GROQ_API_KEY environment variable is not set.").
Proof.
  intros H. unfold CSVAnalysisConfig_init, _validate_config. rewrite H.
  reflexivity.
Qed.

End ConfigFacts.

Module UiFacts.
Import Py Eff Ui StringFacts.

Lemma last_n_suffix {A} n (l : list A) : exists dropped, l = dropped ++ last_n n l.
Proof. exists (firstn (length l - n) l). unfold last_n. symmetry. apply firstn_skipn. Qed.

Lemma last_n_length {A} n (l : list A) : n <= length l -> length (last_n n l) = n.
Proof. intros H. unfold last_n. rewrite length_skipn. lia. Qed.

(** X5: after every chat turn the history holds at most [MAX_HISTORY]
    messages; it is the end of the old history with the two new messages,
    which are always kept, and nothing is dropped while the total stays
    within the bound. *)
Theorem chat_turn_bounded messages user_input reply :
  let h := chat_turn messages user_input reply in
  length h <= MAX_HISTORY /\
  (exists front, h = front ++ [("user", user_input); ("assistant", reply)]) /\
  (exists dropped,
      messages ++ [("user", user_input); ("assistant", reply)] = dropped ++ h /\
      (length messages + 2 <= MAX_HISTORY -> dropped = [])).
Proof.
  unfold chat_turn, trim_history.
  change ([("user", user_input)] ++ [("assistant", reply)])
    with [("user", user_input); ("assistant", reply)].
  set (new := [("user", user_input); ("assistant", reply)]).
  assert (Hlen : length (messages ++ new) = length messages + 2)
    by (rewrite length_app; reflexivity).
  destruct (MAX_HISTORY <? length (messages ++ new)) eqn:E.
  - apply Nat.ltb_lt in E. cbn zeta. split; [|split].
    + rewrite last_n_length; [lia|]. lia.
    + unfold last_n. rewrite skipn_app.
      replace (length (messages ++ new) - MAX_HISTORY - length messages) with 0
        by (unfold MAX_HISTORY in *; lia).
      cbn [skipn]. eexists. reflexivity.
    + destruct (last_n_suffix MAX_HISTORY (messages ++ new)) as [d Hd].
      exists d. split; [exact Hd|]. intros H. lia.
  - apply Nat.ltb_ge in E. cbn zeta. split; [exact E|]. split.
    + exists messages. reflexivity.
    + exists []. split; [reflexivity|auto].
Qed.

(** X6: a ["result"] key decides the text alone: a string under it is
    returned stripped whatever ["output"] and ["response"] hold, and
    anything else under it makes [.strip()] raise, with no fall back to the
    other keys.  A text that is returned is stripped: stripping it again
    changes nothing. *)
Theorem response_text_result_key json_dumps py_str d v :
  dict_get (VStr "result") d = Some v ->
  (forall r, v = VStr r ->
     response_text json_dumps py_str (VDict d) = Ok (strip r)) /\
  ((forall r, v <> VStr r) ->
     response_text json_dumps py_str (VDict d)
     = Raise (CsvAgent.AttributeError v "strip")) /\
  (forall data text,
     response_text json_dumps py_str data = Ok text -> strip text = text).
Proof.
  intros Hd. split; [|split].
  - intros r ->. unfold response_text. rewrite Hd. reflexivity.
  - intros Hv. unfold response_text. rewrite Hd.
    destruct v; try reflexivity. exfalso. apply (Hv s). reflexivity.
  - intros data text. unfold response_text.
    match goal with |- match ?x with _ => _ end = _ -> _ => destruct x end;
      try discriminate.
    intros H. injection H as <-. apply strip_idem.
Qed.

End UiFacts.

Module RouterFacts.
Import Py Eff CsvAgent StringFacts.

(** A text that ends with END and then whitespace stops the router. *)
Lemma end_marker_stops messages last_msg body ws :
  last_opt messages = Some last_msg ->
  content last_msg = (body ++ "END" ++ ws)%string ->
  count_nonws ws = 0 ->
  router_function messages = END.
Proof.
  intros Hl Hc Hws. unfold router_function. rewrite Hl. cbn zeta.
  destruct (String.eqb (content last_msg) ""); [reflexivity|].
  unfold stop_conditions. cbn [existsb].
  rewrite Hc, (strip_end_marker body ws Hws). reflexivity.
Qed.

(** X7: the router ends the loop on every last message whose content ends
    with END, also when whitespace or line ends follow the word, and
    whatever stands before it. *)
Theorem router_stops_on_end_marker messages last_msg body ws :
  last_opt messages = Some last_msg ->
  content last_msg = (body ++ "END" ++ ws)%string ->
  count_nonws ws = 0 ->
  router_function messages = END.
Proof. exact (end_marker_stops messages last_msg body ws). Qed.

(** X8: the four stop words end the loop wherever they occur in the last
    content and in whatever case they are written: inside a sentence, and
    inside a longer word as well. *)
Theorem router_stops_on_stop_word messages last_msg before v after w :
  last_opt messages = Some last_msg ->
  content last_msg = (before ++ v ++ after)%string ->
  In w ["final answer"; "complete"; "done"; "finished"]%string ->
  lower v = w ->
  router_function messages = END.
Proof.
  intros Hl Hc Hw Hv. unfold router_function. rewrite Hl. cbn zeta.
  destruct (String.eqb (content last_msg) ""); [reflexivity|].
  assert (Hin : contains w (lower (content last_msg)) = true).
  { rewrite Hc, !lower_app, Hv. apply contains_mid. }
  unfold stop_conditions. cbn [existsb].
  destruct Hw as [<-|[<-|[<-|[<-|[]]]]]; rewrite Hin;
    repeat (rewrite ?orb_true_r; cbn [orb]); reflexivity.
Qed.

(** X9: the pre-model hook never alters the messages it is given: what it
    returns is the same list, with one system message put in front exactly
    when the cache holds a path or a schema; with a cached path that message
    starts with the path. *)
Theorem hook_keeps_messages o msgs out :
  pre_model_hook o msgs = Ok out ->
  (out = msgs /\ _cached_file_path o = "" /\ _cached_schema o = []) \/
  (exists c, out = SystemMessage c :: msgs /\
             (_cached_file_path o <> "" \/ _cached_schema o <> []) /\
             (_cached_file_path o <> "" ->
              startswith ("CONTEXT: Data file: " ++ _cached_file_path o) c = true)).
Proof.
  unfold pre_model_hook.
  destruct (String.eqb (_cached_file_path o) "") eqn:Hp.
  - apply String.eqb_eq in Hp.
    destruct (_cached_schema o) as [|kv d] eqn:Hs.
    + cbn. intros H. injection H as <-. left. auto.
    + destruct (str_keys (kv :: d)) as [ks|e]; [|discriminate].
      cbn. intros H. injection H as <-. right. eexists. split; [reflexivity|].
      split; [right; discriminate|]. intros Hne. congruence.
  - apply String.eqb_neq in Hp.
    assert (Hshape : forall p2,
               exists rest, join " | " (("Data file: " ++ _cached_file_path o)%string :: p2)
                            = ("Data file: " ++ _cached_file_path o ++ rest)%string).
    { intros [|x p2].
      - exists ""%string. cbn. rewrite append_nil_r_s. reflexivity.
      - eexists. cbn [join]. rewrite <- append_assoc_s.
        change ("Data file: " ++ _cached_file_path o)%string
          with ("Data file: " ++ _cached_file_path o)%string.
        rewrite append_assoc_s. reflexivity. }
    assert (Hout : forall p2,
               exists c, Ok (SystemMessage
                               ("CONTEXT: " ++ join " | "
                                  (("Data file: " ++ _cached_file_path o)%string :: p2))
                             :: msgs)
                         = Ok (X := exn) (SystemMessage c :: msgs) /\
                         startswith ("CONTEXT: Data file: " ++ _cached_file_path o) c = true).
    { intros p2. destruct (Hshape p2) as [rest Hr]. eexists. split; [reflexivity|].
      rewrite Hr.
      change ("CONTEXT: " ++ ("Data file: " ++ _cached_file_path o ++ rest))%string
        with ("CONTEXT: Data file: " ++ (_cached_file_path o ++ rest))%string.
      rewrite <- append_assoc_s. apply startswith_app. }
    destruct (_cached_schema o) as [|kv d] eqn:Hs.
    + cbn [app]. intros H. destruct (Hout []) as (c & Hc & Hst).
      right. exists c. rewrite Hc in H. injection H as <-. auto.
    + destruct (str_keys (kv :: d)) as [ks|e]; [|discriminate].
      cbn [app]. intros H.
      destruct (Hout [("Columns: " ++ join ", " ks)%string]) as (c & Hc & Hst).
      right. exists c. rewrite Hc in H. injection H as <-. auto.
Qed.

End RouterFacts.

Module DictFacts.
Import Py SchemaItems.

Lemma key_eqb_eq a b : key_eqb a b = true -> a = b.
Proof.
  destruct a, b; cbn; try discriminate; intros H.
  - reflexivity.
  - apply Nat.eqb_eq in H. congruence.
  - apply String.eqb_eq in H. congruence.
Qed.

Lemma key_eqb_refl k : hashable k = true -> key_eqb k k = true.
Proof.
  destruct k; cbn; try discriminate; intros _.
  - reflexivity.
  - apply Nat.eqb_refl.
  - apply String.eqb_refl.
Qed.

(** Insert, then look the key up. *)
Lemma dict_get_set_same {V} k (v : V) d :
  hashable k = true -> dict_get k (dict_set k v d) = Some v.
Proof.
  intros Hk. induction d as [|[k' v'] d IH]; cbn.
  - rewrite key_eqb_refl by exact Hk. reflexivity.
  - destruct (key_eqb k k') eqn:E; cbn; rewrite E; [reflexivity | exact IH].
Qed.

(** Insert, then look another key up. *)
Lemma dict_get_set_other {V} k k' (v : V) d :
  key_eqb k k' = false -> dict_get k (dict_set k' v d) = dict_get k d.
Proof.
  intros Hk. induction d as [|[k0 v0] d IH]; cbn.
  - rewrite Hk. reflexivity.
  - destruct (key_eqb k' k0) eqn:E; cbn.
    + apply key_eqb_eq in E. subst k0. rewrite Hk. reflexivity.
    + destruct (key_eqb k k0); [reflexivity | exact IH].
Qed.

Lemma dict_set_not_nil {V} k (v : V) d : dict_set k v d <> [].
Proof. destruct d as [|[k' v'] d]; cbn; [|destruct (key_eqb k k')]; discriminate. Qed.

Lemma store_columns_keeps_nonempty pairs : forall d,
  d <> [] -> store_columns pairs d <> [].
Proof.
  induction pairs as [|p pairs IH]; intros d Hd; [exact Hd|].
  cbn. apply IH. apply dict_set_not_nil.
Qed.

Lemma store_columns_not_nil pairs : pairs <> [] -> store_columns pairs [] <> [].
Proof.
  destruct pairs as [|p pairs]; [congruence|]. intros _.
  cbn. apply store_columns_keeps_nonempty. discriminate.
Qed.

Lemma store_columns_other pairs : forall d k,
  Forall (fun p => key_eqb k (fst p) = false) pairs ->
  dict_get k (store_columns pairs d) = dict_get k d.
Proof.
  induction pairs as [|p pairs IH]; intros d k H; [reflexivity|].
  inversion H as [|? ? Hp Hrest]; subst. cbn.
  rewrite (IH _ k Hrest). apply dict_get_set_other. exact Hp.
Qed.

(** The pair stored last under a name is the one found under it. *)
Lemma store_columns_last earlier n t later d :
  hashable n = true ->
  Forall (fun p => key_eqb n (fst p) = false) later ->
  dict_get n (store_columns (earlier ++ (n, t) :: later) d) = Some t.
Proof.
  intros Hn Hl. unfold store_columns. rewrite fold_left_app. cbn [fold_left fst snd].
  fold (store_columns earlier d).
  fold (store_columns later (dict_set n t (store_columns earlier d))).
  rewrite (store_columns_other later _ n Hl).
  apply dict_get_set_same. exact Hn.
Qed.

End DictFacts.

Module SchemaCacheFacts.
Import Py Eff EffFacts CsvAgent CsvAgentFacts SchemaItems DictFacts.
Local Open Scope eff_scope.

Section Client.
Context {W : Type}.
Variable json_loads : string -> result exn pyval.

#[local] Abbreviation session := (@session W).
#[local] Abbreviation Tool := (@Tool W).
#[local] Abbreviation path_of := (@path_of W).
#[local] Abbreviation schema_of := (@schema_of W).

Lemma with_schema_same (s : session) : with_schema (schema_of s) s = s.
Proof. destruct s as [[u p d] w]. reflexivity. Qed.

Lemma for_each_app {B} (body : B -> IO unit) l1 l2 (s : session) t1 s1 :
  for_each body l1 s = (t1, Ok tt, s1) ->
  for_each body (l1 ++ l2) s
  = (t1 ++ trace_of (for_each body l2 s1), result_of (for_each body l2 s1),
     state_of (for_each body l2 s1)).
Proof.
  revert s t1 s1. induction l1 as [|x l1 IH]; intros s t1 s1 H.
  - cbn in H. injection H as <- <-. cbn [app]. apply triple_eta.
  - cbn [app for_each] in H |- *. unfold bind in H |- *.
    destruct (body x s) as [[ta [[]|e]] sa]; [|discriminate].
    destruct (for_each body l1 sa) as [[tb rb] sb] eqn:Hb.
    injection H as <- -> <-.
    rewrite (IH sa tb sb Hb). cbn. rewrite app_assoc. reflexivity.
Qed.

(** One well-formed item is stored and nothing else happens. *)
Lemma item_stored obj p (s : session) :
  holds_pair obj p -> hashable (fst p) = true ->
  cache_schema_item json_loads obj s
  = ([], Ok tt, with_schema (dict_set (fst p) (snd p) (schema_of s)) s).
Proof.
  intros (d & -> & Hn & Ht) Hh.
  unfold cache_schema_item, bind, loads_if_str, py_getitem, ret.
  rewrite Ht, Hn. unfold schema_setitem. rewrite Hh. reflexivity.
Qed.

Lemma items_stored objs pairs : forall s : session,
  Forall2 holds_pair objs pairs -> hashable_keys pairs ->
  for_each (cache_schema_item json_loads) objs s
  = ([], Ok tt, with_schema (store_columns pairs (schema_of s)) s).
Proof.
  intros s H. revert s. induction H as [|obj p objs pairs Hp _ IH]; intros s Hh.
  - cbn. rewrite with_schema_same. reflexivity.
  - inversion Hh as [|? ? Hh1 Hh2]; subst.
    cbn [for_each]. unfold bind. rewrite (item_stored obj p s Hp Hh1).
    rewrite (IH _ Hh2). reflexivity.
Qed.

(** An item without a dtype raises before anything is stored for it. *)
Lemma item_without_dtype obj (s : session) :
  lacks_dtype obj ->
  cache_schema_item json_loads obj s = ([], Raise (KeyError (VStr "dtype")), s).
Proof.
  intros (d & -> & Ht).
  unfold cache_schema_item, bind, loads_if_str, py_getitem, ret, raise.
  rewrite Ht. reflexivity.
Qed.

(** [cache_schema], up to the loop over a list answer. *)
Lemma cache_schema_asks (tools : list Tool) t objs (s : session) w' :
  path_of s <> "" -> schema_of s = [] ->
  find (fun t => String.eqb (name t) "get_schema") tools = Some t ->
  ainvoke t (VDict [(VStr "file_location", VStr (path_of s))]) (world s)
  = (Ok (VList objs), w') ->
  let s1 := {| optimizer := optimizer s; world := w' |} in
  let loop := for_each (cache_schema_item json_loads) objs s1 in
  cache_schema json_loads tools s
  = (EvTool "get_schema" (VDict [(VStr "file_location", VStr (path_of s))])
       :: trace_of loop,
     result_of loop, state_of loop).
Proof.
  intros Hp Hs Hf Hi s1 loop. pose proof (find_tool_name _ _ _ Hf) as Hn.
  apply String.eqb_neq in Hp.
  unfold cache_schema, bind at 1, get_optimizer, bind at 1, get, ret. cbn.
  unfold path_of in Hp, Hi |- *. unfold schema_of in Hs. rewrite Hp, Hs.
  unfold bind at 1, find_tool. rewrite Hf. unfold ret.
  unfold bind at 1, invoke, call, lift. rewrite Hi, Hn.
  unfold bind at 1, loads_if_str, ret. unfold bind at 1, py_iter, ret.
  fold s1. fold loop. destruct loop as [[tl rl] sl]. reflexivity.
Qed.
End Client.

End SchemaCacheFacts.

Module SchemaCacheProps.
Import Py Eff EffFacts CsvAgent CsvAgentFacts SchemaItems DictFacts SchemaCacheFacts.
Local Open Scope eff_scope.

Section Client.
Context {W : Type}.
Variable json_loads : string -> result exn pyval.

#[local] Abbreviation session := (@session W).
#[local] Abbreviation Tool := (@Tool W).
#[local] Abbreviation path_of := (@path_of W).
#[local] Abbreviation schema_of := (@schema_of W).

(** X10: when [get_schema] answers with a list of objects that each hold a
    name and a dtype, [cache_schema] makes that one call and caches the
    dict built from the pairs in the order of the answer; under a name the
    cache holds the dtype of the last item of that name. *)
Theorem cache_schema_stores_columns (tools : list Tool) t objs pairs (s : session) w' :
  path_of s <> "" -> schema_of s = [] ->
  find (fun t => String.eqb (name t) "get_schema") tools = Some t ->
  ainvoke t (VDict [(VStr "file_location", VStr (path_of s))]) (world s)
  = (Ok (VList objs), w') ->
  Forall2 holds_pair objs pairs -> hashable_keys pairs ->
  cache_schema json_loads tools s
  = ([EvTool "get_schema" (VDict [(VStr "file_location", VStr (path_of s))])],
     Ok tt,
     with_schema (store_columns pairs []) {| optimizer := optimizer s; world := w' |})
  /\
  (forall earlier n dtype later,
      pairs = earlier ++ (n, dtype) :: later ->
      Forall (fun p => key_eqb n (fst p) = false) later ->
      dict_get n (store_columns pairs []) = Some dtype).
Proof.
  intros Hp Hs Hf Hi Hobjs Hh. split.
  - rewrite (cache_schema_asks json_loads tools t objs s w' Hp Hs Hf Hi).
    rewrite (items_stored json_loads objs pairs _ Hobjs Hh).
    cbn [trace_of result_of state_of fst snd].
    unfold schema_of in Hs |- *. cbn [optimizer]. rewrite Hs. reflexivity.
  - intros earlier n dtype later -> Hlater.
    apply store_columns_last; [|exact Hlater].
    unfold hashable_keys in Hh. apply Forall_app in Hh. destruct Hh as [_ Hh].
    inversion Hh; subst. assumption.
Qed.

(** X11: an empty answer of [get_schema] is not remembered: the schema stays
    empty, and the next [cache_schema] asks the tool again. *)
Theorem empty_schema_is_asked_again (tools : list Tool) t (s : session) w1 w2 :
  path_of s <> "" -> schema_of s = [] ->
  find (fun t => String.eqb (name t) "get_schema") tools = Some t ->
  ainvoke t (VDict [(VStr "file_location", VStr (path_of s))]) (world s)
  = (Ok (VList []), w1) ->
  ainvoke t (VDict [(VStr "file_location", VStr (path_of s))]) w1
  = (Ok (VList []), w2) ->
  do_steps json_loads tools [StepCacheSchema; StepCacheSchema] s
  = ([ EvTool "get_schema" (VDict [(VStr "file_location", VStr (path_of s))]);
       EvTool "get_schema" (VDict [(VStr "file_location", VStr (path_of s))]) ],
     Ok tt, {| optimizer := optimizer s; world := w2 |}).
Proof.
  intros Hp Hs Hf H1 H2.
  set (s1 := {| optimizer := optimizer s; world := w1 |}).
  assert (E1 : cache_schema json_loads tools s
               = ([EvTool "get_schema"
                     (VDict [(VStr "file_location", VStr (path_of s))])], Ok tt, s1)).
  { rewrite (cache_schema_asks json_loads tools t [] s w1 Hp Hs Hf H1). reflexivity. }
  assert (E2 : cache_schema json_loads tools s1
               = ([EvTool "get_schema"
                     (VDict [(VStr "file_location", VStr (path_of s))])], Ok tt,
                  {| optimizer := optimizer s; world := w2 |})).
  { rewrite (cache_schema_asks json_loads tools t [] s1 w2 Hp Hs Hf H2). reflexivity. }
  unfold do_steps. cbn [for_each do_step]. unfold bind. rewrite E1, E2. reflexivity.
Qed.

(** X12: an item without a dtype makes [cache_schema] raise [KeyError] for
    ["dtype"], and the items before it stay in the cache; with at least one
    such item the next [cache_schema] finds the cache populated and does not
    ask again, so the part of the schema is what the session keeps. *)
Theorem cache_schema_keeps_partial_schema
    (tools : list Tool) t good bad rest pairs (s : session) w' :
  path_of s <> "" -> schema_of s = [] ->
  find (fun t => String.eqb (name t) "get_schema") tools = Some t ->
  ainvoke t (VDict [(VStr "file_location", VStr (path_of s))]) (world s)
  = (Ok (VList (good ++ bad :: rest)), w') ->
  Forall2 holds_pair good pairs -> hashable_keys pairs ->
  lacks_dtype bad -> pairs <> [] ->
  let s' := with_schema (store_columns pairs [])
              {| optimizer := optimizer s; world := w' |} in
  cache_schema json_loads tools s
  = ([EvTool "get_schema" (VDict [(VStr "file_location", VStr (path_of s))])],
     Raise (KeyError (VStr "dtype")), s') /\
  cache_schema json_loads tools s' = ([], Ok tt, s').
Proof.
  intros Hp Hs Hf Hi Hgood Hh Hbad Hne s'. split.
  - rewrite (cache_schema_asks json_loads tools t _ s w' Hp Hs Hf Hi).
    pose proof (items_stored json_loads good pairs
                  {| optimizer := optimizer s; world := w' |} Hgood Hh) as Hg.
    rewrite (for_each_app _ good (bad :: rest) _ _ _ Hg).
    cbn [for_each]. unfold bind.
    rewrite (item_without_dtype json_loads bad _ Hbad).
    cbn [trace_of result_of state_of fst snd app].
    unfold schema_of in Hs |- *. cbn [optimizer]. rewrite Hs. reflexivity.
  - apply cache_schema_populated.
    + exact Hp.
    + unfold s'. apply store_columns_not_nil. exact Hne.
Qed.
End Client.

End SchemaCacheProps.

Module RunProps.
Import Py Eff EffFacts CsvAgent CsvAgentFacts GraphFacts RouterFacts.
Local Open Scope eff_scope.

Section Client.
Context {W : Type}.
Variable json_loads : string -> result exn pyval.
Variable exn_str : exn -> string.
Variable graph_recursion_limit : nat.
Variable react_agent :
  list (@Tool W) ->
  (list BaseMessage -> result exn (list BaseMessage)) ->
  list BaseMessage -> M W tool_call exn (list BaseMessage).
Variable connect : IO (W := W) unit.
Variable load_mcp_tools : IO (W := W) (list (@Tool W)).

#[local] Abbreviation Tool := (@Tool W).
#[local] Abbreviation session := (@session W).
#[local] Abbreviation path_of := (@path_of W).
#[local] Abbreviation exec := (execute exn_str graph_recursion_limit react_agent).
#[local] Abbreviation run_agent :=
  (run json_loads exn_str graph_recursion_limit react_agent connect load_mcp_tools).

Lemma last_opt_app {B} (l new : list B) m :
  last_opt new = Some m -> last_opt (l ++ new) = Some m.
Proof.
  intros H. induction l as [|x l IH]; [exact H|].
  cbn [app]. destruct (l ++ new) eqn:E.
  - destruct l; cbn in E; [subst new; discriminate | discriminate].
  - exact IH.
Qed.

(** X13: an answer of the model that ends with END (whitespace may follow)
    ends the loop after the round that produced it.  Under a recursion
    limit above 1 (the START superstep and that one round) [execute]
    returns the content of that answer as it is, the word END included;
    under the limit 1 the same round is run and the graph stops on the
    limit, so the answer is lost to the partial-result text. *)
Theorem answer_with_end_marker_is_returned
    ex message (s : session) calls new_messages w' m body ws :
  react_agent (app_tools ex) (pre_model_hook (optimizer s))
              [HumanMessage message] (world s)
  = (calls, Ok new_messages, w') ->
  last_opt new_messages = Some m ->
  content m = (body ++ "END" ++ ws)%string ->
  count_nonws ws = 0 ->
  (1 < graph_recursion_limit ->
   exec ex message s
   = (EvReason :: map (fun c => EvTool (fst c) (snd c)) calls,
      Ok (content m), {| optimizer := optimizer s; world := w' |})) /\
  (graph_recursion_limit = 1 ->
   exec ex message s
   = (EvReason :: map (fun c => EvTool (fst c) (snd c)) calls,
      Ok partial_result, {| optimizer := optimizer s; world := w' |})).
Proof.
  intros Ha Hl Hc Hws.
  pose proof (last_opt_app [HumanMessage message] new_messages m Hl) as Hlast.
  pose proof (end_marker_stops _ m body ws Hlast Hc Hws) as Hr.
  destruct graph_recursion_limit as [|[|b]]; (split; [intros Hb|intros Hb]);
    try lia; try discriminate;
    unfold execute, try_except; cbn [ainvoke_graph graph_loop];
    unfold bind, reason_node; rewrite Ha.
  - cbn. rewrite !app_nil_r. reflexivity.
  - rewrite Hr. unfold ret. rewrite Hlast.
    cbn. rewrite !app_nil_r. reflexivity.
Qed.

(** An answer of the listing tool that is no string makes
    [cache_file_path] raise, with the cache as it was. *)
Lemma cache_file_path_no_string (tools : list Tool) t v (s : session) w' :
  path_of s = "" ->
  find (fun t => String.eqb (name t) "get_files_list") tools = Some t ->
  ainvoke t (VDict []) (world s) = (Ok v, w') ->
  (forall r, v <> VStr r) ->
  cache_file_path tools s
  = ([EvTool "get_files_list" (VDict [])], Raise (AttributeError v "strip"),
     {| optimizer := optimizer s; world := w' |}).
Proof.
  intros Hp Hf Hi Hv. pose proof (find_tool_name _ _ _ Hf) as Hn.
  unfold cache_file_path, bind, get_optimizer, bind, get, ret. cbn.
  unfold path_of in Hp. rewrite Hp. cbn.
  unfold find_tool. rewrite Hf. unfold ret, invoke, call, lift.
  rewrite Hi, Hn. destruct v; try reflexivity.
  exfalso. apply (Hv s0). reflexivity.
Qed.

(** X14: when [get_files_list] answers with something that is no string (a
    list of paths, say), the session ends in the pre-check: the cache stays
    empty, neither [get_schema] nor the agent is reached, and the user gets
    the workflow error text for the failed [.strip()]. *)
Theorem listing_that_is_no_string_ends_session
    message s0 tc s1 tl (tools : list Tool) (s2 : session) t v w' :
  connect s0 = (tc, Ok tt, s1) ->
  load_mcp_tools s1 = (tl, Ok tools, s2) ->
  path_of s2 = "" ->
  find (fun t => String.eqb (name t) "get_files_list") tools = Some t ->
  ainvoke t (VDict []) (world s2) = (Ok v, w') ->
  (forall r, v <> VStr r) ->
  run_agent message s0
  = (tc ++ tl ++ [EvTool "get_files_list" (VDict [])],
     Ok ("Error during workflow: " ++ exn_str (AttributeError v "strip"))%string,
     {| optimizer := optimizer s2; world := w' |}).
Proof.
  intros Hc Hl Hp Hf Hi Hv.
  pose proof (cache_file_path_no_string tools t v s2 w' Hp Hf Hi Hv) as Hcf.
  unfold run. unfold try_except at 1. unfold bind at 1. rewrite Hc.
  unfold try_except at 1. unfold bind at 1. rewrite Hl.
  unfold bind at 1. unfold pre_check. unfold bind at 1. rewrite Hcf.
  unfold ret. cbn. rewrite !app_nil_r. reflexivity.
Qed.

(** X15: [run] never raises.  Whatever the connection, the tools and the
    model do, it answers with a text, and the text is the connection error
    text, the workflow error text, or what [execute] answered. *)
Theorem run_always_answers message (s : session) :
  exists text,
    result_of (run_agent message s) = Ok text /\
    ((exists e, text = ("Connection/Initialization error: " ++ exn_str e)%string) \/
     (exists e, text = ("Error during workflow: " ++ exn_str e)%string) \/
     (exists tools s3,
         result_of (exec {| app_tools := tools; recursion_limit := 3 |} message s3)
         = Ok text)).
Proof.
  unfold run. unfold try_except at 1. unfold bind at 1.
  destruct (connect s) as [[tc [[]|e]] s1].
  - unfold try_except at 1. unfold bind at 1.
    destruct (load_mcp_tools s1) as [[tl [tools|e]] s2].
    + unfold bind at 1.
      destruct (pre_check json_loads tools s2) as [[tp [[]|e]] s3].
      * destruct (execute_total exn_str graph_recursion_limit react_agent
                    {| app_tools := tools; recursion_limit := 3 |} message s3)
          as [answer Ha].
        destruct (exec _ message s3) as [[te re] se] eqn:Hex.
        cbn in Ha. subst re. cbn. exists answer. split; [reflexivity|].
        right; right. exists tools, s3. rewrite Hex. reflexivity.
      * cbn. eexists. split; [reflexivity|]. right; left. eexists; reflexivity.
    + cbn. eexists. split; [reflexivity|]. right; left. eexists; reflexivity.
  - cbn. eexists. split; [reflexivity|]. left. eexists; reflexivity.
Qed.
End Client.

End RunProps.

Module MapFacts.
Import Eff EffFacts.

Section Laws.
Context {S E X A B : Type}.
Variable f : A -> M S E X B.

Lemma mapM_ok_length l : forall s t rs s',
  mapM f l s = (t, Ok rs, s') -> length rs = length l.
Proof.
  induction l as [|x l IH]; intros s t rs s' H.
  - cbn in H. injection H as _ <- _. reflexivity.
  - cbn [mapM] in H. unfold bind at 1 in H.
    destruct (f x s) as [[t1 [y|e]] s1]; [|discriminate].
    unfold bind at 1 in H.
    destruct (mapM f l s1) as [[t2 [ys|e]] s2] eqn:Hm; [|discriminate].
    cbn in H. injection H as _ <- _. cbn. f_equal. apply (IH _ _ _ _ Hm).
Qed.

(** A failing element ends the map: what came before is dropped, what
    comes after is not run. *)
Lemma mapM_stops l1 x l2 s t1 r1 s1 t2 e s2 :
  mapM f l1 s = (t1, Ok r1, s1) ->
  f x s1 = (t2, Raise e, s2) ->
  mapM f (l1 ++ x :: l2) s = (t1 ++ t2, Raise e, s2).
Proof.
  revert s t1 r1 s1. induction l1 as [|y l1 IH]; intros s t1 r1 s1 H1 Hx.
  - cbn in H1. injection H1 as <- _ <-. cbn [app mapM]. unfold bind at 1.
    rewrite Hx. reflexivity.
  - cbn [app mapM] in H1 |- *. unfold bind at 1 in H1. unfold bind at 1.
    destruct (f y s) as [[ta [b|e']] sa]; [|discriminate].
    unfold bind at 1 in H1. unfold bind at 1.
    destruct (mapM f l1 sa) as [[tb [rb|e']] sb] eqn:Hb; [|discriminate].
    cbn in H1. injection H1 as <- _ <-.
    rewrite (IH sa tb rb sb Hb Hx). rewrite app_nil_r, app_assoc. reflexivity.
Qed.

(** When every successful element logs one event of a kind, a successful
    map logs one event of that kind per element. *)
Lemma mapM_ok_events (P : E -> Prop) l :
  (forall x s t r s', f x s = (t, Ok r, s') -> exists ev, t = [ev] /\ P ev) ->
  forall s t rs s',
    mapM f l s = (t, Ok rs, s') -> length t = length l /\ Forall P t.
Proof.
  intros Hf. induction l as [|x l IH]; intros s t rs s' H.
  - cbn in H. injection H as <- _ _. split; [reflexivity | constructor].
  - cbn [mapM] in H. unfold bind at 1 in H.
    destruct (f x s) as [[t1 [y|e]] s1] eqn:Hx; [|discriminate].
    unfold bind at 1 in H.
    destruct (mapM f l s1) as [[t2 [ys|e]] s2] eqn:Hm; [|discriminate].
    cbn in H. injection H as <- _ _.
    destruct (Hf _ _ _ _ _ Hx) as (ev & -> & Hev).
    destruct (IH _ _ _ _ Hm) as [Hlen Hall].
    rewrite app_nil_r. cbn. split; [f_equal; exact Hlen | constructor; assumption].
Qed.
End Laws.

End MapFacts.

Module DashboardProps.
Import Py Eff EffFacts MapFacts Dashboard.
Local Open Scope eff_scope.

Section Client.
Context {W : Type}.
Variable json_loads : string -> result CsvAgent.exn pyval.

#[local] Abbreviation session := (@session W).
#[local] Abbreviation IO := (@IO W).
#[local] Abbreviation Tool := (@Tool W).

(** A metric that was executed made one call to the tool, for its own
    query and the path given. *)
Lemma execute_metric_ok_event (exec_tool : Tool) csv metric (s : session) t r s' :
  execute_metric exec_tool csv metric s = (t, Ok r, s') ->
  exists ev, t = [ev] /\
             exists sql, ev = CsvAgent.EvTool (CsvAgent.name exec_tool) (sql_args csv sql).
Proof.
  unfold execute_metric, bind, py_getitem, ret, raise.
  destruct metric as [| | | |d]; try discriminate.
  destruct (dict_get (VStr "sql") d) as [q|]; [|discriminate].
  unfold invoke, call.
  destruct (lift _ s) as [[data|e] s1]; [|discriminate].
  destruct (dict_get (VStr "metric") d); [|discriminate].
  destruct (dict_get (VStr "description") d); [|discriminate].
  destruct (dict_get (VStr "visualization_type") d); [|discriminate].
  intros H. injection H as <- _ _. eexists. split; [reflexivity|].
  exists q. reflexivity.
Qed.

(** X16: when [execute_metrics] succeeds there is one result per metric and
    one call to the tool per metric, each call for the path given and the
    file type csv. *)
Theorem execute_metrics_one_call_per_metric
    (exec_tool : Tool) metrics csv (s : session) t results s' :
  execute_metrics exec_tool metrics csv s = (t, Ok results, s') ->
  length results = length metrics /\
  length t = length metrics /\
  Forall (fun ev => exists sql,
              ev = CsvAgent.EvTool (CsvAgent.name exec_tool) (sql_args csv sql)) t.
Proof.
  intros H. split.
  - apply (mapM_ok_length _ _ _ _ _ _ H).
  - apply (mapM_ok_events (execute_metric exec_tool csv) _ metrics) with (2 := H).
    intros x s0 t0 r s0' Hx. apply (execute_metric_ok_event _ _ _ _ _ _ _ Hx).
Qed.

(** X17: a metric that fails ends [execute_metrics]: the results of the
    metrics before it are lost with it, and the metrics after it are not
    executed. *)
Theorem execute_metrics_stops_at_failure
    (exec_tool : Tool) before metric after csv (s : session) t1 r1 s1 t2 e s2 :
  execute_metrics exec_tool before csv s = (t1, Ok r1, s1) ->
  execute_metric exec_tool csv metric s1 = (t2, Raise e, s2) ->
  execute_metrics exec_tool (before ++ metric :: after) csv s
  = (t1 ++ t2, Raise e, s2).
Proof. intros H1 H2. apply (mapM_stops _ _ _ _ _ _ _ _ _ _ _ H1 H2). Qed.

Lemma keeps_find (tools : list Tool) n : keeps (@config W) (find_tool n tools).
Proof.
  unfold find_tool.
  match goal with |- context [find ?p tools] => destruct (find p tools) end;
    [apply keeps_ret | apply keeps_raise].
Qed.

Lemma keeps_call_tool (t : Tool) args : keeps (@config W) (invoke t args).
Proof.
  apply keeps_call. intros s. unfold lift.
  destruct (CsvAgent.ainvoke t args (world s)). reflexivity.
Qed.

Lemma keeps_loads v : keeps (@config W) (FileCacheSchema.loads_if_str json_loads v).
Proof. destruct v; intros st; reflexivity. Qed.

Lemma keeps_iter v : keeps (@config W) (@FileCacheSchema.py_iter W v).
Proof. destruct v; intros st; reflexivity. Qed.

Lemma keeps_getitem v k : keeps (@config W) (@py_getitem W v k).
Proof.
  destruct v; cbn; try apply keeps_raise.
  destruct (dict_get _ _); [apply keeps_ret | apply keeps_raise].
Qed.

Lemma keeps_build objs : forall d,
  keeps (@config W) (FileCacheSchema.build_schema_dict json_loads objs d).
Proof.
  induction objs as [|obj objs IH]; intros d; [apply keeps_ret|].
  cbn [FileCacheSchema.build_schema_dict].
  apply keeps_bind; [apply keeps_loads|]. intros obj_data.
  apply keeps_bind; [apply keeps_getitem|]. intros dtype.
  apply keeps_bind; [apply keeps_getitem|]. intros nm.
  apply keeps_bind; [|intros d'; apply IH].
  unfold FileCacheSchema.dict_setitem.
  destruct (hashable nm); [apply keeps_ret | apply keeps_raise].
Qed.

Lemma all_or_nothing_bind {A B} (m : IO A) (k : A -> IO B) :
  keeps (@config W) m ->
  (forall a s, FileCacheSchema.all_or_nothing (k a s) s) ->
  forall s, FileCacheSchema.all_or_nothing (bind m k s) s.
Proof.
  intros Hm Hk s. unfold bind. specialize (Hm s).
  destruct (m s) as [[t1 [a|e]] s1]; cbn in Hm.
  - specialize (Hk a s1). unfold FileCacheSchema.all_or_nothing in *.
    destruct (k a s1) as [[t2 [r|e]] s2]; cbn in *; congruence.
  - unfold FileCacheSchema.all_or_nothing. cbn. exact Hm.
Qed.

(** X18: [FileCache.cache_schema] is all or nothing: the schema is assigned
    once, after the whole answer was read, so a run that raises (no tool,
    a failing call, text that does not parse, an item without a name or a
    dtype) leaves the configuration as it was; a run that ends well never
    touches the cached path. *)
Theorem file_cache_schema_all_or_nothing (tools : list Tool) (s : session) :
  FileCacheSchema.all_or_nothing (FileCacheSchema.cache_schema json_loads tools s) s.
Proof.
  unfold FileCacheSchema.cache_schema. unfold bind at 1, get.
  destruct (truthy (schema (config s))); [reflexivity|].
  cbn [app]. 
  assert (H : forall s0 : session,
             FileCacheSchema.all_or_nothing
               ((get_schema_tool <- find_tool "get_schema" tools ;;
                 raw_schema <- invoke get_schema_tool
                                 (VDict [(VStr "file_location", csv_path (config s))]) ;;
                 items <- FileCacheSchema.loads_if_str json_loads raw_schema ;;
                 objs <- FileCacheSchema.py_iter items ;;
                 schema_dict <- FileCacheSchema.build_schema_dict json_loads objs [] ;;
                 s' <- get ;;
                 put {| config := {| csv_path := csv_path (config s');
                                     schema := VDict schema_dict |};
                        world := world s' |}) s0) s0).
  { apply all_or_nothing_bind; [apply keeps_find|]. intros t.
    apply all_or_nothing_bind; [apply keeps_call_tool|]. intros raw.
    apply all_or_nothing_bind; [apply keeps_loads|]. intros items.
    apply all_or_nothing_bind; [apply keeps_iter|]. intros objs.
    apply all_or_nothing_bind; [apply keeps_build|]. intros d s1.
    reflexivity. }
  specialize (H s).
  destruct ((_ <- find_tool "get_schema" tools ;; _) s) as [[t r] s1].
  exact H.
Qed.
End Client.

End DashboardProps.

Module ServerProps.
Import Py Eff EffFacts Analyst AnalystFacts.

Section Server.
Context {W DataFrame LazyFrame Row PolarsError : Type}.
Variable pl : Polars W DataFrame LazyFrame Row PolarsError.

(** The scans log scans only, also when one of them fails. *)
Lemma scans_log_scans (p : event DataFrame LazyFrame -> bool) fs : forall w,
  (forall f, p (EvScanCsv f) = false) ->
  filter p (trace_of (mapM (scan_one pl) fs w)) = [].
Proof.
  induction fs as [|f fs IH]; intros w Hp; [reflexivity|].
  cbn [mapM]. unfold bind at 1. rewrite scan_one_run.
  destruct (pl_scan_csv pl f w) as [[l|e] w1]; cbn [fst snd].
  - unfold bind at 1. specialize (IH w1 Hp).
    destruct (mapM (scan_one pl) fs w1) as [[t2 [lfs|e]] w2];
      cbn in IH |- *; rewrite Hp, ?app_nil_r; exact IH.
  - cbn. rewrite Hp. reflexivity.
Qed.

(** The loader never calls the SQL engine. *)
Lemma loader_runs_no_query q fs ft w :
  count (is_sql_of q) (trace_of (read_file_list pl fs ft w)) = 0.
Proof.
  unfold read_file_list, count.
  destruct (String.eqb ft "csv").
  - unfold bind at 1.
    pose proof (scans_log_scans (is_sql_of q) fs w (fun _ => eq_refl)) as Hs.
    destruct (mapM (scan_one pl) fs w) as [[t [lfs|e]] w1]; cbn [trace_of fst] in Hs.
    + unfold bind at 1. rewrite call_run.
      destruct (pl_concat pl lfs w1) as [[lf|e] w2]; cbn [fst snd].
      * rewrite call_run. cbn [trace_of fst]. rewrite !filter_app, Hs. reflexivity.
      * cbn [trace_of fst]. rewrite filter_app, Hs. reflexivity.
    + cbn [trace_of fst]. rewrite Hs. reflexivity.
  - destruct (String.eqb ft "parquet"); [rewrite call_run|]; reflexivity.
Qed.

(** X19: when the files do not load, [execute_polars_sql] fails with the
    exception of the loader and with the loader's calls alone: the query is
    never given to the engine. *)
Theorem load_failure_skips_query fs q ft w t e w1 :
  read_file_list pl fs ft w = (t, Raise e, w1) ->
  execute_polars_sql pl fs q ft w = (t, Raise e, w1) /\
  forall q', count (is_sql_of q') t = 0.
Proof.
  intros H. split.
  - unfold execute_polars_sql. apply (bind_raise _ _ _ _ _ _ H).
  - intros q'. pose proof (loader_runs_no_query q' fs ft w) as Hq.
    rewrite H in Hq. exact Hq.
Qed.

(** X20: the scans of the CSV loader stop at the first file whose scan
    raises: the files after it are not scanned, nothing is concatenated or
    collected, and the exception of that scan is the outcome. *)
Theorem scan_stops_at_first_failure before f after lfs w e w' :
  Forall2 (fun g l => pl_scan_csv pl g w = (Ok l, w)) before lfs ->
  pl_scan_csv pl f w = (Raise e, w') ->
  read_file_list pl (before ++ f :: after) "csv" w
  = (map EvScanCsv before ++ [EvScanCsv f], Raise e, w').
Proof.
  intros Hb Hf. unfold read_file_list. cbn [String.eqb Ascii.eqb Bool.eqb].
  apply bind_raise.
  apply (MapFacts.mapM_stops (scan_one pl) before f after w _ lfs w _ e w').
  - apply mapM_scan_ok. exact Hb.
  - rewrite scan_one_run, Hf. reflexivity.
Qed.

Lemma filter_nil_In {B} (p : B -> bool) (l : list B) x :
  filter p l = [] -> In x l -> p x = false.
Proof.
  intros Hf Hin. destruct (p x) eqn:Hp; [|reflexivity].
  assert (Hx : In x (filter p l)) by (apply filter_In; split; assumption).
  rewrite Hf in Hx. destruct Hx.
Qed.

Lemma csv_query_trace fs q w :
  exists scans tail,
    trace_of (execute_polars_sql pl fs q "csv" w) = scans ++ tail /\
    filter is_eager_read scans = [] /\
    filter is_collect scans = [] /\
    filter is_sql scans = [] /\
    (tail = [] \/
     (exists lfs, tail = [EvConcat lfs]) \/
     (exists lfs lf, tail = [EvConcat lfs; EvCollect lf]) \/
     (exists lfs lf df, tail = [EvConcat lfs; EvCollect lf; EvSql df q])).
Proof.
  pose proof (scans_log_scans is_eager_read fs w (fun _ => eq_refl)) as H1.
  pose proof (scans_log_scans is_collect fs w (fun _ => eq_refl)) as H2.
  pose proof (scans_log_scans is_sql fs w (fun _ => eq_refl)) as H3.
  unfold execute_polars_sql, read_file_list.
  cbn [String.eqb Ascii.eqb Bool.eqb]. unfold bind.
  destruct (mapM (scan_one pl) fs w) as [[t [lfs|e]] w1];
    cbn [trace_of fst] in H1, H2, H3.
  - rewrite call_run.
    destruct (pl_concat pl lfs w1) as [[lf|e] w2]; cbn [fst snd].
    + rewrite call_run.
      destruct (lf_collect pl lf w2) as [[df|e] w3]; cbn [fst snd].
      * rewrite call_run.
        destruct (df_sql pl df q w3) as [[d|e] w4]; cbn [fst snd trace_of];
          exists t, [EvConcat lfs; EvCollect lf; EvSql df q];
          (split; [cbn; rewrite <- ?app_assoc; cbn; reflexivity|]);
          repeat (split; [assumption|]); right; right; right; eauto.
      * cbn [trace_of fst]. exists t, [EvConcat lfs; EvCollect lf].
        split; [cbn; rewrite <- ?app_assoc; cbn; reflexivity|].
        repeat (split; [assumption|]).
        right; right; left. eauto.
    + cbn [trace_of fst]. exists t, [EvConcat lfs].
      split; [cbn; rewrite <- ?app_assoc; cbn; reflexivity|].
        repeat (split; [assumption|]). right; left. eauto.
  - cbn [trace_of fst]. exists t, []. rewrite app_nil_r.
    split; [cbn; rewrite <- ?app_assoc; cbn; reflexivity|].
        repeat (split; [assumption|]). left. reflexivity.
Qed.

(** X21: for CSV, whatever the engine does and wherever it fails,
    [execute_polars_sql] never reads a file eagerly, collects at most once
    and gives the engine at most one query, whatever its text; a query the
    engine is given is the query of the call. *)
Theorem csv_query_call_bounds fs q w :
  let t := trace_of (execute_polars_sql pl fs q "csv" w) in
  count is_eager_read t = 0 /\
  count is_collect t <= 1 /\
  count is_sql t <= 1 /\
  (forall df q', In (EvSql df q') t -> q' = q).
Proof.
  destruct (csv_query_trace fs q w) as (scans & tail & -> & H1 & H2 & H3 & Ht).
  cbn zeta. unfold count. rewrite !filter_app, H1, H2, H3. cbn [app].
  split; [|split; [|split]].
  - destruct Ht as [->|[(lfs & ->)|[(lfs & lf & ->)|(lfs & lf & df & ->)]]];
      reflexivity.
  - destruct Ht as [->|[(lfs & ->)|[(lfs & lf & ->)|(lfs & lf & df & ->)]]];
      cbn; lia.
  - destruct Ht as [->|[(lfs & ->)|[(lfs & lf & ->)|(lfs & lf & df & ->)]]];
      cbn; lia.
  - intros df q' Hin. apply in_app_or in Hin. destruct Hin as [Hin|Hin].
    + pose proof (filter_nil_In is_sql scans _ H3 Hin) as Hp. discriminate Hp.
    + destruct Ht as [->|[(lfs & ->)|[(lfs & lf & ->)|(lfs & lf & df0 & ->)]]];
        cbn in Hin; repeat (destruct Hin as [Hin|Hin]; try discriminate Hin);
        try contradiction.
      injection Hin as _ Hq. symmetry. exact Hq.
Qed.
End Server.

End ServerProps.

Module ExtraRuns.
Import Py Eff Analyst CsvAgent Demo Samples SchemaItems.

Lemma encode_arn_round_trip_witness :
  Config.decode_arn (Config.encode_arn "arn:aws:bedrock-agentcore:us-east-1:1234:runtime/analyst")
  = "arn:aws:bedrock-agentcore:us-east-1:1234:runtime/analyst" /\
  (Config.encode_arn "arn:aws:bedrock-agentcore:us-east-1:1234:runtime/analyst"
   = Config.encode_arn "arn:aws:s3:::bucket/key" ->
   "arn:aws:bedrock-agentcore:us-east-1:1234:runtime/analyst" = "arn:aws:s3:::bucket/key").
Proof.
  apply (ConfigFacts.encode_arn_round_trip
           "arn:aws:bedrock-agentcore:us-east-1:1234:runtime/analyst"
           "arn:aws:s3:::bucket/key"); reflexivity.
Defined.

Lemma config_built_is_valid_witness :
  exists cfg,
    Config.CSVAnalysisConfig_init Config.sample_env = Ok cfg /\
    Config.unset (Config.api_key cfg) = false /\
    Config.mcp_url cfg
    = "https://bedrock-agentcore.us-east-1.amazonaws.com/runtimes/arn%3Aaws%3Abedrock-agentcore%3Aus-east-1%3A123456789012%3Aruntime%2Fanalyst/invocations?qualifier=DEFAULT".
Proof.
  eexists. split; [vm_compute; reflexivity|].
  destruct (ConfigFacts.config_built_is_valid Config.sample_env _ eq_refl)
    as (Hk & arn & Ha & Hu).
  split; [exact Hk|]. vm_compute. reflexivity.
Defined.

Lemma config_needs_api_key_witness :
  Config.CSVAnalysisConfig_init empty_env
  = Raise (Config.ValueError "GROQ_API_KEY environment variable is not set.").
Proof. apply (ConfigFacts.config_needs_api_key empty_env). reflexivity. Defined.

Lemma chat_turn_bounded_witness :
  let h := Ui.chat_turn (history 24) "How many teams?" "Three." in
  length h <= Ui.MAX_HISTORY /\
  (exists front, h = front ++ [("user", "How many teams?"); ("assistant", "Three.")]) /\
  (exists dropped,
      history 24 ++ [("user", "How many teams?"); ("assistant", "Three.")]
      = dropped ++ h /\
      (length (history 24) + 2 <= Ui.MAX_HISTORY -> dropped = [])).
Proof. apply (UiFacts.chat_turn_bounded (history 24) "How many teams?" "Three."). Defined.

Lemma response_text_result_key_witness :
  Ui.response_text (fun _ => "{}") (fun _ => "None")
    (VDict [(VStr "output", VStr "other"); (VStr "result", VStr "  42 rows
")])
  = Ok "42 rows".
Proof.
  exact (proj1 (UiFacts.response_text_result_key (fun _ => "{}") (fun _ => "None")
                  [(VStr "output", VStr "other"); (VStr "result", VStr "  42 rows
")] (VStr "  42 rows
") eq_refl) "  42 rows
" eq_refl).
Defined.

Lemma router_stops_on_end_marker_witness :
  router_function [HumanMessage "Which team leads?";
                   AIMessage "MI leads with 180 runs.
END
  "] = END.
Proof.
  apply (RouterFacts.router_stops_on_end_marker _
           (AIMessage "MI leads with 180 runs.
END
  ") "MI leads with 180 runs.
" "
  "); reflexivity.
Defined.

Lemma router_stops_on_stop_word_witness :
  router_function [HumanMessage "Which team leads?";
                   AIMessage "The league was abanDONEd in 2020; let me query the rest."]
  = END.
Proof.
  apply (RouterFacts.router_stops_on_stop_word _
           (AIMessage "The league was abanDONEd in 2020; let me query the rest.")
           "The league was aban" "DONE" "d in 2020; let me query the rest." "done");
    [reflexivity | reflexivity | cbn; auto | reflexivity].
Defined.

Lemma hook_keeps_messages_witness :
  exists c,
    pre_model_hook (optimizer (cached "data/ipl.csv")) [HumanMessage "Which team leads?"]
    = Ok (SystemMessage c :: [HumanMessage "Which team leads?"]) /\
    startswith "CONTEXT: Data file: data/ipl.csv" c = true.
Proof.
  destruct (RouterFacts.hook_keeps_messages (optimizer (cached "data/ipl.csv"))
              [HumanMessage "Which team leads?"] _ eq_refl)
    as [(_ & Hp & _)|(c & Hc & _ & Hs)].
  - discriminate Hp.
  - exists c. split.
    + injection Hc as Hc. rewrite <- Hc. reflexivity.
    + apply Hs. discriminate.
Defined.

Lemma cache_schema_stores_columns_witness :
  cache_schema json_loads (schema_tools (VList two_columns)) (cached "data/ipl.csv")
  = ([EvTool "get_schema" (VDict [(VStr "file_location", VStr "data/ipl.csv")])],
     Ok tt,
     with_schema (store_columns two_pairs [])
       {| optimizer := optimizer (cached "data/ipl.csv"); world := 1 |})
  /\ dict_get (VStr "runs") (store_columns two_pairs []) = Some (VStr "Int64").
Proof.
  destruct (SchemaCacheProps.cache_schema_stores_columns json_loads
              (schema_tools (VList two_columns)) (canned "get_schema" (VList two_columns))
              two_columns two_pairs (cached "data/ipl.csv") 1) as [Hrun Hget].
  - discriminate.
  - reflexivity.
  - reflexivity.
  - reflexivity.
  - repeat constructor; eexists; repeat split; reflexivity.
  - repeat constructor.
  - split; [exact Hrun|].
    apply (Hget [(VStr "team", VStr "String")] (VStr "runs") (VStr "Int64") []);
      [reflexivity | constructor].
Defined.

Lemma empty_schema_is_asked_again_witness :
  do_steps json_loads (schema_tools (VList [])) [StepCacheSchema; StepCacheSchema]
    (cached "data/ipl.csv")
  = ([ EvTool "get_schema" (VDict [(VStr "file_location", VStr "data/ipl.csv")]);
       EvTool "get_schema" (VDict [(VStr "file_location", VStr "data/ipl.csv")]) ],
     Ok tt, {| optimizer := optimizer (cached "data/ipl.csv"); world := 2 |}).
Proof.
  apply (SchemaCacheProps.empty_schema_is_asked_again json_loads
           (schema_tools (VList [])) (canned "get_schema" (VList []))
           (cached "data/ipl.csv") 1 2);
    first [discriminate | reflexivity].
Defined.

Lemma cache_schema_keeps_partial_schema_witness :
  let tools := schema_tools (VList (two_columns ++ nameless_dtype :: two_columns)) in
  let s' := with_schema (store_columns two_pairs [])
              {| optimizer := optimizer (cached "data/ipl.csv"); world := 1 |} in
  cache_schema json_loads tools (cached "data/ipl.csv")
  = ([EvTool "get_schema" (VDict [(VStr "file_location", VStr "data/ipl.csv")])],
     Raise (KeyError (VStr "dtype")), s') /\
  cache_schema json_loads tools s' = ([], Ok tt, s').
Proof.
  apply (SchemaCacheProps.cache_schema_keeps_partial_schema json_loads
           (schema_tools (VList (two_columns ++ nameless_dtype :: two_columns)))
           (canned "get_schema" (VList (two_columns ++ nameless_dtype :: two_columns)))
           two_columns nameless_dtype two_columns two_pairs (cached "data/ipl.csv") 1).
  - discriminate.
  - reflexivity.
  - reflexivity.
  - reflexivity.
  - repeat constructor; eexists; repeat split; reflexivity.
  - repeat constructor.
  - eexists. split; reflexivity.
  - discriminate.
Defined.

Lemma answer_with_end_marker_is_returned_witness :
  execute exn_str 25 agent_one_query
    {| app_tools := tools "data/ipl.csv"; recursion_limit := 3 |}
    "What is the average of runs?" (fresh 0)
  = (EvReason :: map (fun c => EvTool (fst c) (snd c))
                   [sql_call "SELECT AVG(runs) AS avg_runs FROM self"],
     Ok "The average is 173.3.
END", {| optimizer := optimizer (fresh 0); world := 1 |}) /\
  execute exn_str 1 agent_one_query
    {| app_tools := tools "data/ipl.csv"; recursion_limit := 3 |}
    "What is the average of runs?" (fresh 0)
  = (EvReason :: map (fun c => EvTool (fst c) (snd c))
                   [sql_call "SELECT AVG(runs) AS avg_runs FROM self"],
     Ok partial_result, {| optimizer := optimizer (fresh 0); world := 1 |}).
Proof.
  split.
  - apply (RunProps.answer_with_end_marker_is_returned exn_str 25 agent_one_query
             {| app_tools := tools "data/ipl.csv"; recursion_limit := 3 |}
             "What is the average of runs?" (fresh 0)
             [sql_call "SELECT AVG(runs) AS avg_runs FROM self"]
             [ ToolMessage "[{'avg_runs': 173.3}]";
               AIMessage "The average is 173.3.
END" ]
             1 (AIMessage "The average is 173.3.
END") "The average is 173.3.
" "");
      first [lia | reflexivity].
  - apply (RunProps.answer_with_end_marker_is_returned exn_str 1 agent_one_query
             {| app_tools := tools "data/ipl.csv"; recursion_limit := 3 |}
             "What is the average of runs?" (fresh 0)
             [sql_call "SELECT AVG(runs) AS avg_runs FROM self"]
             [ ToolMessage "[{'avg_runs': 173.3}]";
               AIMessage "The average is 173.3.
END" ]
             1 (AIMessage "The average is 173.3.
END") "The average is 173.3.
" "");
      reflexivity.
Defined.

Lemma listing_that_is_no_string_ends_session_witness :
  run json_loads exn_str 25 agent_one_query connect (ret list_tools)
      "Which team leads?" (fresh 0)
  = ([] ++ [] ++ [EvTool "get_files_list" (VDict [])],
     Ok ("Error during workflow: " ++ exn_str (AttributeError two_files "strip"))%string,
     {| optimizer := optimizer (fresh 0); world := 1 |}).
Proof.
  apply (RunProps.listing_that_is_no_string_ends_session json_loads exn_str 25
           agent_one_query connect (ret list_tools) "Which team leads?"
           (fresh 0) [] (fresh 0) [] list_tools (fresh 0)
           (canned "get_files_list" two_files) two_files 1);
    first [reflexivity | intros r; discriminate].
Defined.

Lemma execute_metrics_one_call_per_metric_witness :
  exists t results s',
    Dashboard.execute_metrics sql_tool [good_metric; nested_metric]
      (VStr "data/ipl.csv") (dash_fresh 0) = (t, Ok results, s') /\
    length results = 2 /\ length t = 2.
Proof.
  assert (E : exists t results s',
             Dashboard.execute_metrics sql_tool [good_metric; nested_metric]
               (VStr "data/ipl.csv") (dash_fresh 0) = (t, Ok results, s')).
  { eexists. eexists. eexists. vm_compute. reflexivity. }
  destruct E as (t & results & s' & E).
  exists t, results, s'. split; [exact E|].
  destruct (DashboardProps.execute_metrics_one_call_per_metric sql_tool
              [good_metric; nested_metric] (VStr "data/ipl.csv") (dash_fresh 0)
              t results s' E) as (H1 & H2 & _).
  split; [exact H1 | exact H2].
Defined.

Lemma execute_metrics_stops_at_failure_witness :
  Dashboard.execute_metrics sql_tool
    ([good_metric] ++ metric_without_description :: [nested_metric])
    (VStr "data/ipl.csv") (dash_fresh 0)
  = (trace_of (Dashboard.execute_metrics sql_tool [good_metric]
                 (VStr "data/ipl.csv") (dash_fresh 0))
       ++ [EvTool "execute_polars_sql"
             (Dashboard.sql_args (VStr "data/ipl.csv")
                (VStr "SELECT MAX(runs) AS top FROM self"))],
     Raise (KeyError (VStr "description")), dash_fresh 2).
Proof.
  assert (E : exists r1,
             Dashboard.execute_metrics sql_tool [good_metric]
               (VStr "data/ipl.csv") (dash_fresh 0)
             = (trace_of (Dashboard.execute_metrics sql_tool [good_metric]
                            (VStr "data/ipl.csv") (dash_fresh 0)),
                Ok r1, dash_fresh 1)).
  { eexists. vm_compute. reflexivity. }
  destruct E as (r1 & E).
  apply (DashboardProps.execute_metrics_stops_at_failure sql_tool [good_metric]
           metric_without_description [nested_metric] (VStr "data/ipl.csv")
           (dash_fresh 0) _ r1 (dash_fresh 1) _ _ _ E).
  vm_compute. reflexivity.
Defined.

Lemma load_failure_skips_query_witness :
  execute_polars_sql (RefPolars.engine true) ["data/none.csv"]
    "SELECT * FROM self" "csv" RefPolars.store
  = ([ EvScanCsv "data/none.csv"; EvConcat [["data/none.csv"]];
       EvCollect ["data/none.csv"] ],
     Raise (PolarsExn (RefPolars.FileNotFound "data/none.csv")), RefPolars.store).
Proof.
  apply (ServerProps.load_failure_skips_query (RefPolars.engine true)
           ["data/none.csv"] "SELECT * FROM self" "csv" RefPolars.store).
  reflexivity.
Defined.

Lemma scan_stops_at_first_failure_witness :
  read_file_list CheckedPolars.engine
    (["data/ipl.csv"] ++ "data/none.csv" :: ["data/ipl2.csv"]) "csv" RefPolars.store
  = (map EvScanCsv ["data/ipl.csv"] ++ [EvScanCsv "data/none.csv"],
     Raise (PolarsExn (RefPolars.FileNotFound "data/none.csv")), RefPolars.store).
Proof.
  apply (ServerProps.scan_stops_at_first_failure CheckedPolars.engine
           ["data/ipl.csv"] "data/none.csv" ["data/ipl2.csv"] [["data/ipl.csv"]]).
  - repeat constructor.
  - reflexivity.
Defined.

End ExtraRuns.
